(** * ChatAgent (src/agenticai/singleagent.py): a shallow embedding

    The agent object is a record; every method is a computation over that
    record which may raise, and which records the requests it sends to the
    completion provider.  External collaborators (the completion provider,
    the plugin loader of the kernel, the service constructor, the bundle
    directory) are section variables: every theorem holds for all of them. *)

From stdpp Require Import gmap strings list fin_maps.
From Stdlib Require Import ZArith QArith Ascii.

Open Scope Z_scope.

(** ** Python values and exceptions *)

(** [AuthorRole]. *)
Inductive AuthorRole := SYSTEM | USER | ASSISTANT | TOOL.

(** [ChatMessageContent]: one role-tagged turn. *)
Record ChatMessageContent := mkMessage { role : AuthorRole; content : string }.

(** The values an argument dictionary ([Dict[str, Any]]) or [run] itself can
    hold, as far as this file's functions tell them apart. *)
Inductive value :=
| VNone
| VBool (b : bool)
| VInt (z : Z)
| VStr (s : string)
| VMessage (m : ChatMessageContent).

(** [Optional[str]] seen as a value: [None] or a [str]. *)
Definition of_optional_str (o : option string) : value :=
  match o with
  | Some s => VStr s
  | None => VNone
  end.

(** Exceptions.  [ExternalError] stands for whatever an external collaborator
    raises, with the collaborator's own description of the fault. *)
Inductive exn :=
| ValueError (msg : string)
| TypeError (msg : string)
| KernelServiceNotFoundError (msg : string)
| SkillNotFoundError (name : string)
| SkillInvalidError (name : string)
| SkillNotLoadedError (name : string)
| ExternalError (cause : string).

(** Truth value of an [Optional[str]]: [None] and [""] are falsy. *)
Definition truthy (o : option string) : bool :=
  match o with
  | Some s => negb (String.eqb s "")
  | None => false
  end.

(** [a or b] on [Optional[str]]. *)
Definition py_or (a b : option string) : option string :=
  if truthy a then a else b.

(** [a or b] where [b] is a [str]. *)
Definition py_or_str (a : option string) (b : string) : string :=
  match py_or a (Some b) with
  | Some s => s
  | None => b
  end.

(** [sep.join(l)]. *)
Fixpoint join (sep : string) (l : list string) : string :=
  match l with
  | [] => ""
  | [x] => x
  | x :: rest => x +:+ sep +:+ join sep rest
  end.

(** ** Paths ([os.path], POSIX flavour) *)

Definition slash : Ascii.ascii := "/"%char.

(** [p[:i], p[i:]] for [i = p.rfind('/') + 1], or [None] when [p] has no
    slash (then [i = 0]). *)
Fixpoint rsplit_slash (p : string) : option (string * string) :=
  match p with
  | EmptyString => None
  | String c r =>
      match rsplit_slash r with
      | Some (h, t) => Some (String c h, t)
      | None => if Ascii.eqb c slash then Some (String c EmptyString, r) else None
      end
  end.

(** [head.rstrip('/')]; the flag tells whether only slashes were seen. *)
Fixpoint rstrip_slash (s : string) : string :=
  match s with
  | EmptyString => EmptyString
  | String c r =>
      match rstrip_slash r with
      | EmptyString => if Ascii.eqb c slash then EmptyString else String c EmptyString
      | r' => String c r'
      end
  end.

Definition basename (p : string) : string :=
  match rsplit_slash p with
  | Some (_, t) => t
  | None => p
  end.

(** [head] is stripped of trailing slashes unless it consists of slashes
    only (which is when stripping would leave nothing). *)
Definition dirname (p : string) : string :=
  match rsplit_slash p with
  | Some (h, _) =>
      match rstrip_slash h with
      | EmptyString => h
      | h' => h'
      end
  | None => ""
  end.

(** [os.path.join(root, name)]: an absolute [name] stands alone; no slash
    is added after an empty [root] or one that ends in a slash. *)
Definition path_join (root name : string) : string :=
  match name with
  | String c _ =>
      if Ascii.eqb c slash then name
      else
        match rsplit_slash root with
        | Some (_, EmptyString) => root +:+ name
        | _ => if String.eqb root "" then name else root +:+ "/" +:+ name
        end
  | EmptyString =>
      match rsplit_slash root with
      | Some (_, EmptyString) => root
      | _ => if String.eqb root "" then "" else root +:+ "/"
      end
  end.

(** ** semantic_kernel objects, as far as the agent touches them

    The library classes are outside the repository; each is a record of the
    attributes the agent reads or writes.  The library validates what is
    assigned to a settings object and what a function-choice policy is
    constructed from, and raises on what it rejects; its verdicts are
    parameters of the agent's methods. *)

(** [ChatHistory]: the ordered log of turns. *)
Record ChatHistory := mkHistory { messages : list ChatMessageContent }.

Definition ChatHistory_new : ChatHistory := mkHistory [].

Definition history_add (r : AuthorRole) (text : string) (h : ChatHistory) : ChatHistory :=
  mkHistory (messages h ++ [mkMessage r text]).

(** [FunctionChoiceBehavior]: the four fields of a policy. *)
Record FunctionChoiceBehavior := mkBehavior {
  enable_kernel_functions : bool;
  maximum_auto_invoke_attempts : Z;
  filters : option (gmap string (list string));
  type_ : option string
}.

(** [FunctionChoiceBehavior.Auto()]. *)
Definition FunctionChoiceBehavior_Auto : FunctionChoiceBehavior :=
  mkBehavior true 5 None (Some "auto").

(** [AzureChatPromptExecutionSettings]: the attributes written by
    [set_planner_execution_settings] and [set_planner_behavior].  A float is
    only stored here, never computed with; a rational stands for it. *)
Record AzureChatPromptExecutionSettings := mkSettings {
  temperature : option Q;
  top_p : option Q;
  presence_penalty : option Q;
  frequency_penalty : option Q;
  max_tokens : option Z;
  number_of_responses : option Z;
  stop : option (list string);
  stream : bool;
  user : option string;
  function_call : option string;
  function_choice_behavior : option FunctionChoiceBehavior
}.

(** [AzureChatPromptExecutionSettings()]: nothing set, no streaming. *)
Definition AzureChatPromptExecutionSettings_new : AzureChatPromptExecutionSettings :=
  mkSettings None None None None None None None false None None None.

(** Attribute assignments [cfg.<field> = v]. *)
Definition set_temperature (v : option Q) (c : AzureChatPromptExecutionSettings) :=
  mkSettings v (top_p c) (presence_penalty c) (frequency_penalty c) (max_tokens c)
    (number_of_responses c) (stop c) (stream c) (user c) (function_call c)
    (function_choice_behavior c).
Definition set_top_p (v : option Q) (c : AzureChatPromptExecutionSettings) :=
  mkSettings (temperature c) v (presence_penalty c) (frequency_penalty c) (max_tokens c)
    (number_of_responses c) (stop c) (stream c) (user c) (function_call c)
    (function_choice_behavior c).
Definition set_presence_penalty (v : option Q) (c : AzureChatPromptExecutionSettings) :=
  mkSettings (temperature c) (top_p c) v (frequency_penalty c) (max_tokens c)
    (number_of_responses c) (stop c) (stream c) (user c) (function_call c)
    (function_choice_behavior c).
Definition set_frequency_penalty (v : option Q) (c : AzureChatPromptExecutionSettings) :=
  mkSettings (temperature c) (top_p c) (presence_penalty c) v (max_tokens c)
    (number_of_responses c) (stop c) (stream c) (user c) (function_call c)
    (function_choice_behavior c).
Definition set_max_tokens (v : option Z) (c : AzureChatPromptExecutionSettings) :=
  mkSettings (temperature c) (top_p c) (presence_penalty c) (frequency_penalty c) v
    (number_of_responses c) (stop c) (stream c) (user c) (function_call c)
    (function_choice_behavior c).
Definition set_number_of_responses (v : option Z) (c : AzureChatPromptExecutionSettings) :=
  mkSettings (temperature c) (top_p c) (presence_penalty c) (frequency_penalty c)
    (max_tokens c) v (stop c) (stream c) (user c) (function_call c)
    (function_choice_behavior c).
Definition set_stop (v : option (list string)) (c : AzureChatPromptExecutionSettings) :=
  mkSettings (temperature c) (top_p c) (presence_penalty c) (frequency_penalty c)
    (max_tokens c) (number_of_responses c) v (stream c) (user c) (function_call c)
    (function_choice_behavior c).
Definition set_stream (v : bool) (c : AzureChatPromptExecutionSettings) :=
  mkSettings (temperature c) (top_p c) (presence_penalty c) (frequency_penalty c)
    (max_tokens c) (number_of_responses c) (stop c) v (user c) (function_call c)
    (function_choice_behavior c).
Definition set_user (v : option string) (c : AzureChatPromptExecutionSettings) :=
  mkSettings (temperature c) (top_p c) (presence_penalty c) (frequency_penalty c)
    (max_tokens c) (number_of_responses c) (stop c) (stream c) v (function_call c)
    (function_choice_behavior c).
Definition set_function_call (v : option string) (c : AzureChatPromptExecutionSettings) :=
  mkSettings (temperature c) (top_p c) (presence_penalty c) (frequency_penalty c)
    (max_tokens c) (number_of_responses c) (stop c) (stream c) (user c) v
    (function_choice_behavior c).
Definition set_function_choice_behavior (v : option FunctionChoiceBehavior)
    (c : AzureChatPromptExecutionSettings) :=
  mkSettings (temperature c) (top_p c) (presence_penalty c) (frequency_penalty c)
    (max_tokens c) (number_of_responses c) (stop c) (stream c) (user c)
    (function_call c) v.

(** One attribute assignment [cfg.<field> = v] on a settings object, and
    what it stores when the object accepts it. *)
Inductive Assignment :=
| Assign_temperature (v : Q)
| Assign_top_p (v : Q)
| Assign_presence_penalty (v : Q)
| Assign_frequency_penalty (v : Q)
| Assign_max_tokens (v : Z)
| Assign_number_of_responses (v : Z)
| Assign_stop (v : list string)
| Assign_stream (v : bool)
| Assign_user (v : string)
| Assign_function_call (v : string)
| Assign_function_choice_behavior (v : FunctionChoiceBehavior).

Definition store (a : Assignment) (c : AzureChatPromptExecutionSettings)
    : AzureChatPromptExecutionSettings :=
  match a with
  | Assign_temperature v => set_temperature (Some v) c
  | Assign_top_p v => set_top_p (Some v) c
  | Assign_presence_penalty v => set_presence_penalty (Some v) c
  | Assign_frequency_penalty v => set_frequency_penalty (Some v) c
  | Assign_max_tokens v => set_max_tokens (Some v) c
  | Assign_number_of_responses v => set_number_of_responses (Some v) c
  | Assign_stop v => set_stop (Some v) c
  | Assign_stream v => set_stream v c
  | Assign_user v => set_user (Some v) c
  | Assign_function_call v => set_function_call (Some v) c
  | Assign_function_choice_behavior v => set_function_choice_behavior (Some v) c
  end.

(** The three shapes of execution settings accepted by
    [configure_kernel_arguments] and [run]: one settings object, a list of
    them, or a dictionary keyed by service id. *)
Inductive ExecutionSettings :=
| Single (s : AzureChatPromptExecutionSettings)
| Several (l : list AzureChatPromptExecutionSettings)
| ByService (m : gmap string AzureChatPromptExecutionSettings).

(** [KernelArguments]: a dictionary, together with the [settings=] argument
    it was constructed with (the library derives the object's execution
    settings from that argument; it is kept here as passed). *)
Record KernelArguments := mkArguments {
  settings_arg : option ExecutionSettings;
  items : gmap string value
}.

(** [KernelArguments(settings=s, **kwargs)].  The constructor's own
    parameters are [self] and [settings]: a [kwargs] that has one of these
    keys makes the call itself raise [TypeError] (the argument is given
    twice); every other key becomes an entry of the dictionary. *)
Definition KernelArguments_new (s : option ExecutionSettings) (kwargs : gmap string value)
    : exn + KernelArguments :=
  match kwargs !! "settings", kwargs !! "self" with
  | Some _, _ => inl (TypeError "got multiple values for keyword argument 'settings'")
  | None, Some _ => inl (TypeError "got multiple values for argument 'self'")
  | None, None => inr (mkArguments s kwargs)
  end.

(** [args[k] = v]. *)
Definition setitem (k : string) (v : value) (a : KernelArguments) : KernelArguments :=
  mkArguments (settings_arg a) (<[k := v]> (items a)).

Module AzureChatCompletion.
(** The completion service, identified by its constructor arguments. *)
Record t := mk {
  service_id : string;
  deployment_name : option string;
  api_key : option string;
  endpoint : option string;
  api_version : option string
}.
End AzureChatCompletion.

(** A plugin as the kernel holds it: its name and the functions it exposes. *)
Record KernelPlugin := mkPlugin { plugin_name : string; functions : list string }.

Record Kernel := mkKernel {
  services : list AzureChatCompletion.t;
  plugins : gmap string KernelPlugin
}.

(** [Kernel()]. *)
Definition Kernel_new : Kernel := mkKernel [] ∅.

(** [kernel.add_service(s)] on a kernel that has no service of that id. *)
Definition add_service (s : AzureChatCompletion.t) (k : Kernel) : Kernel :=
  mkKernel (services k ++ [s]) (plugins k).

(** [kernel.get_service(type=ChatCompletionClientBase)]: the first service
    registered, all services here being chat completion clients. *)
Definition get_service (k : Kernel) : exn + AzureChatCompletion.t :=
  match services k with
  | s :: _ => inr s
  | [] => inl (KernelServiceNotFoundError "No service found of type ChatCompletionClientBase")
  end.

Module Request.
(** The keyword arguments of one [get_chat_message_contents] call. *)
Record t := mk {
  chat_history : ChatHistory;
  settings : AzureChatPromptExecutionSettings;
  kernel : Kernel;
  arguments : KernelArguments
}.
End Request.

(** What the provider does with a request: it returns a list of candidate
    responses or raises, and it may have appended turns of its own to the
    history object it was handed (the object is shared, not copied). *)
Record Reply := mkReply {
  reply_result : exn + list ChatMessageContent;
  reply_appended : list ChatMessageContent
}.

(** ** The skill registry

    The class [Skills] (imported by the agent from [src.agenticai.skills]) is
    not among the sources; only its caller [ChatAgent.load_skills] is.  The
    registry below follows the specification's SkillRegistry. *)

(** Modelled from the spec: the class [Skills] is missing; a registry entry
    is a fixed-shape descriptor, the bundle location and the capability set. *)
Record Skill := mkSkill { directory : string; capabilities : list string }.

(** Modelled from the spec: the class [Skills] is missing; the registry is
    rooted at a directory and keyed by skill name, the keys being the
    activated skills. *)
Record Skills := mkSkills {
  parent_directory : string;
  loaded : gmap string Skill
}.

Section SkillRegistry.
(** The capability bundles on disk: the capabilities found in a directory,
    or [None] where there is no bundle. *)
Variable bundle_at : string -> option (list string).

(** Modelled from the spec: [Skills.load_skills] is missing; this is [load]
    for one name.  Loading an already-loaded skill is a no-op; otherwise the
    bundle location is resolved under the root directory, the bundle must
    exist ([SkillNotFoundError]) and expose at least one capability
    ([SkillInvalidError]), and the name is marked active. *)
Definition Skills_load_skill (name : string) (r : Skills) : (exn + unit) * Skills :=
  match loaded r !! name with
  | Some _ => (inr tt, r)
  | None =>
      let location := path_join (parent_directory r) name in
      match bundle_at location with
      | None => (inl (SkillNotFoundError name), r)
      | Some [] => (inl (SkillInvalidError name), r)
      | Some caps =>
          (inr tt, mkSkills (parent_directory r)
                     (<[name := mkSkill location caps]> (loaded r)))
      end
  end.

(** Modelled from the spec: [Skills.load_skills] is missing; [load(names)]
    loads name after name and stops at the first failure. *)
Fixpoint Skills_load_skills (names : list string) (r : Skills) : (exn + unit) * Skills :=
  match names with
  | [] => (inr tt, r)
  | name :: rest =>
      match Skills_load_skill name r with
      | (inl e, r') => (inl e, r')
      | (inr _, r') => Skills_load_skills rest r'
      end
  end.
End SkillRegistry.

(** Modelled from the spec: [Skills.get_skill] is missing; [get(name)]
    returns the loaded skill or fails with [SkillNotLoadedError]. *)
Definition Skills_get_skill (name : string) (r : Skills) : exn + Skill :=
  match loaded r !! name with
  | Some s => inr s
  | None => inl (SkillNotLoadedError name)
  end.

(** Modelled from the spec: [activated()], the set of loaded skill names. *)
Definition Skills_activated (r : Skills) : gset string := dom (loaded r).

(** ** The agent *)

Module ChatAgent.

(** The attributes [__init__] sets on [self]. *)
Record t := mk {
  name : option string;
  tracing_enabled : bool;
  id : string;
  description : option string;
  instructions : option string;
  chat_history : ChatHistory;
  AZURE_OPENAI_KEY : option string;
  AZURE_OPENAI_API_ENDPOINT : option string;
  AZURE_OPENAI_API_VERSION : option string;
  AZURE_AOAI_CHAT_MODEL_NAME_DEPLOYMENT_ID : option string;
  service_id : string;
  kernel : Kernel;
  planner_config : AzureChatPromptExecutionSettings;
  planner_behavior : option FunctionChoiceBehavior;
  _skills_manager : Skills;
  _default_kernel_arguments : gmap string value;
  _default_kernel_settings : option ExecutionSettings;
  chat_completion : option AzureChatCompletion.t
}.

(** Attribute assignments [self.<field> = v]. *)
Definition with_chat_history (v : ChatHistory) (a : t) : t :=
  mk (name a) (tracing_enabled a) (id a) (description a) (instructions a) v
    (AZURE_OPENAI_KEY a) (AZURE_OPENAI_API_ENDPOINT a) (AZURE_OPENAI_API_VERSION a)
    (AZURE_AOAI_CHAT_MODEL_NAME_DEPLOYMENT_ID a) (service_id a) (kernel a)
    (planner_config a) (planner_behavior a) (_skills_manager a)
    (_default_kernel_arguments a) (_default_kernel_settings a) (chat_completion a).
Definition with_kernel (v : Kernel) (a : t) : t :=
  mk (name a) (tracing_enabled a) (id a) (description a) (instructions a)
    (chat_history a)
    (AZURE_OPENAI_KEY a) (AZURE_OPENAI_API_ENDPOINT a) (AZURE_OPENAI_API_VERSION a)
    (AZURE_AOAI_CHAT_MODEL_NAME_DEPLOYMENT_ID a) (service_id a) v
    (planner_config a) (planner_behavior a) (_skills_manager a)
    (_default_kernel_arguments a) (_default_kernel_settings a) (chat_completion a).
Definition with_planner_config (v : AzureChatPromptExecutionSettings) (a : t) : t :=
  mk (name a) (tracing_enabled a) (id a) (description a) (instructions a)
    (chat_history a)
    (AZURE_OPENAI_KEY a) (AZURE_OPENAI_API_ENDPOINT a) (AZURE_OPENAI_API_VERSION a)
    (AZURE_AOAI_CHAT_MODEL_NAME_DEPLOYMENT_ID a) (service_id a) (kernel a)
    v (planner_behavior a) (_skills_manager a)
    (_default_kernel_arguments a) (_default_kernel_settings a) (chat_completion a).
Definition with_skills_manager (v : Skills) (a : t) : t :=
  mk (name a) (tracing_enabled a) (id a) (description a) (instructions a)
    (chat_history a)
    (AZURE_OPENAI_KEY a) (AZURE_OPENAI_API_ENDPOINT a) (AZURE_OPENAI_API_VERSION a)
    (AZURE_AOAI_CHAT_MODEL_NAME_DEPLOYMENT_ID a) (service_id a) (kernel a)
    (planner_config a) (planner_behavior a) v
    (_default_kernel_arguments a) (_default_kernel_settings a) (chat_completion a).
Definition with_default_kernel_arguments (v : gmap string value) (a : t) : t :=
  mk (name a) (tracing_enabled a) (id a) (description a) (instructions a)
    (chat_history a)
    (AZURE_OPENAI_KEY a) (AZURE_OPENAI_API_ENDPOINT a) (AZURE_OPENAI_API_VERSION a)
    (AZURE_AOAI_CHAT_MODEL_NAME_DEPLOYMENT_ID a) (service_id a) (kernel a)
    (planner_config a) (planner_behavior a) (_skills_manager a)
    v (_default_kernel_settings a) (chat_completion a).
Definition with_default_kernel_settings (v : option ExecutionSettings) (a : t) : t :=
  mk (name a) (tracing_enabled a) (id a) (description a) (instructions a)
    (chat_history a)
    (AZURE_OPENAI_KEY a) (AZURE_OPENAI_API_ENDPOINT a) (AZURE_OPENAI_API_VERSION a)
    (AZURE_AOAI_CHAT_MODEL_NAME_DEPLOYMENT_ID a) (service_id a) (kernel a)
    (planner_config a) (planner_behavior a) (_skills_manager a)
    (_default_kernel_arguments a) v (chat_completion a).
Definition with_chat_completion (v : option AzureChatCompletion.t) (a : t) : t :=
  mk (name a) (tracing_enabled a) (id a) (description a) (instructions a)
    (chat_history a)
    (AZURE_OPENAI_KEY a) (AZURE_OPENAI_API_ENDPOINT a) (AZURE_OPENAI_API_VERSION a)
    (AZURE_AOAI_CHAT_MODEL_NAME_DEPLOYMENT_ID a) (service_id a) (kernel a)
    (planner_config a) (planner_behavior a) (_skills_manager a)
    (_default_kernel_arguments a) (_default_kernel_settings a) v.

(** *** Methods as computations

    A method call starts from the agent, ends in a result or an exception,
    leaves the agent in a final state either way, and has sent a list of
    requests to the completion provider, each through some service. *)
Record Outcome (A : Type) := mkOutcome {
  result : exn + A;
  final : t;
  calls : list (AzureChatCompletion.t * Request.t)
}.
Arguments mkOutcome {A} _ _ _.
Arguments result {A} _.
Arguments final {A} _.
Arguments calls {A} _.

Definition M (A : Type) : Type := t -> Outcome A.

Definition ret {A} (a : A) : M A := fun self => mkOutcome (inr a) self [].

Definition raise {A} (e : exn) : M A := fun self => mkOutcome (inl e) self [].

(** [m] then [k]: an exception of [m] ends the computation; the requests
    sent by both are kept in order. *)
Definition bind {A B} (m : M A) (k : A -> M B) : M B := fun self =>
  match m self with
  | mkOutcome (inl e) s sent => mkOutcome (inl e) s sent
  | mkOutcome (inr a) s sent =>
      match k a s with
      | mkOutcome r s' sent' => mkOutcome r s' (sent ++ sent')
      end
  end.

(** [try: m  except Exception as e: handler e]. *)
Definition try_except {A} (m : M A) (handler : exn -> M A) : M A := fun self =>
  match m self with
  | mkOutcome (inl e) s sent =>
      match handler e s with
      | mkOutcome r s' sent' => mkOutcome r s' (sent ++ sent')
      end
  | mkOutcome (inr a) s sent => mkOutcome (inr a) s sent
  end.

Definition get : M t := fun self => mkOutcome (inr self) self [].

Definition modify (f : t -> t) : M unit := fun self => mkOutcome (inr tt) (f self) [].

(** A call that returns or raises without touching the agent. *)
Definition lift {A} (r : exn + A) : M A := fun self => mkOutcome r self [].

Declare Scope agent_scope.
Delimit Scope agent_scope with agent.
Notation "x <- m ;; k" := (bind m (fun x => k))
  (at level 100, m at next level, right associativity) : agent_scope.
Notation "m ;; k" := (bind m (fun _ => k))
  (at level 100, right associativity) : agent_scope.
Open Scope agent_scope.

(** [for x in l: body x]. *)
Fixpoint for_each {A} (l : list A) (body : A -> M unit) : M unit :=
  match l with
  | [] => ret tt
  | x :: rest => body x ;; for_each rest body
  end.

(** [if o is not None: body o]. *)
Definition if_given {A} (o : option A) (body : A -> M unit) : M unit :=
  match o with
  | Some v => body v
  | None => ret tt
  end.

Section Methods.
(** The completion provider: [service.get_chat_message_contents(...)]. *)
Variable get_chat_message_contents : AzureChatCompletion.t -> Request.t -> Reply.
(** [KernelPlugin.from_directory(plugin_name, parent_directory)], as
    called by [kernel.add_plugin(parent_directory=, plugin_name=)]. *)
Variable plugin_from_directory : string -> string -> exn + KernelPlugin.
(** The capability bundles on disk, as the skill registry sees them. *)
Variable bundle_at : string -> option (list string).
(** What constructing the completion service raises, if anything. *)
Variable service_fault : AzureChatCompletion.t -> option exn.
(** The working directory, for [os.path.abspath]. *)
Variable cwd : string.
(** The settings object validates what is assigned to it: what an
    assignment to the object, as it is, raises, if anything. *)
Variable assignment_fault : AzureChatPromptExecutionSettings -> Assignment -> option exn.
(** What [FunctionChoiceBehavior(...)] raises for its four arguments, if
    anything. *)
Variable behavior_fault :
  bool -> Z -> option (gmap string (list string)) -> option string -> option exn.

(** [self.chat_history.add_system_message(message)]. *)
Definition add_system_message (message : string) : M unit :=
  modify (fun self => with_chat_history (history_add SYSTEM message (chat_history self)) self).

(** [self.chat_history.add_user_message(message)]. *)
Definition add_user_message (message : string) : M unit :=
  modify (fun self => with_chat_history (history_add USER message (chat_history self)) self).

(** [self.chat_history = ChatHistory()]. *)
Definition clear_chat_history : M unit :=
  modify (with_chat_history ChatHistory_new).

(** [self.planner_config.<field> = v]: the object stores the value, or
    rejects it, raises and stays as it was. *)
Definition assign_planner_config (a : Assignment) : M unit := fun self =>
  match assignment_fault (planner_config self) a with
  | Some e => mkOutcome (inl e) self []
  | None =>
      mkOutcome (inr tt) (with_planner_config (store a (planner_config self)) self) []
  end.

(** [FunctionChoiceBehavior(enable_kernel_functions=,
    maximum_auto_invoke_attempts=, filters=, type_=)]: the policy of these
    four fields, or what the constructor raises. *)
Definition FunctionChoiceBehavior_new
    (enable_kernel_functions : bool)
    (maximum_auto_invoke_attempts : Z)
    (filters : option (gmap string (list string)))
    (type_ : option string) : exn + FunctionChoiceBehavior :=
  match behavior_fault enable_kernel_functions maximum_auto_invoke_attempts filters type_ with
  | Some e => inl e
  | None =>
      inr (mkBehavior enable_kernel_functions maximum_auto_invoke_attempts filters type_)
  end.

(** Every parameter is optional at the call site.  [None] is a
    parameter left out (or passed as [None], which the body cannot tell
    apart); [stream] is declared [bool = False], so leaving it out
    means [False].  The assignments are made in this order, and the first
    one the settings object rejects ends the call. *)
Definition set_planner_execution_settings
    (temperature top_p presence_penalty frequency_penalty : option Q)
    (max_tokens number_of_responses : option Z)
    (stop_sequences : option (list string))
    (stream : option bool)
    (user function_call : option string) : M unit :=
  let stream := default false stream in
  if_given temperature (fun v => assign_planner_config (Assign_temperature v)) ;;
  if_given top_p (fun v => assign_planner_config (Assign_top_p v)) ;;
  if_given presence_penalty (fun v => assign_planner_config (Assign_presence_penalty v)) ;;
  if_given frequency_penalty
    (fun v => assign_planner_config (Assign_frequency_penalty v)) ;;
  if_given max_tokens (fun v => assign_planner_config (Assign_max_tokens v)) ;;
  if_given number_of_responses
    (fun v => assign_planner_config (Assign_number_of_responses v)) ;;
  if_given stop_sequences (fun v => assign_planner_config (Assign_stop v)) ;;
  if_given user (fun v => assign_planner_config (Assign_user v)) ;;
  if_given function_call (fun v => assign_planner_config (Assign_function_call v)) ;;
  assign_planner_config (Assign_stream stream).

(** The policy is constructed first and assigned then: when the
    constructor raises, nothing is assigned. *)
Definition set_planner_behavior
    (enable_kernel_functions : bool)
    (max_auto_invoke_attempts : Z)
    (filters : option (gmap string (list string)))
    (behavior_type : option string) : M unit :=
  behavior <-
    lift (FunctionChoiceBehavior_new enable_kernel_functions max_auto_invoke_attempts
            filters behavior_type) ;;
  assign_planner_config (Assign_function_choice_behavior behavior).

(** [arguments or {}]: [None] and the empty dictionary both give [{}]. *)
Definition configure_kernel_arguments
    (arguments : option (gmap string value))
    (settings : option ExecutionSettings) : M unit :=
  modify (with_default_kernel_arguments (default ∅ arguments)) ;;
  modify (with_default_kernel_settings settings).

(** [d.update(other)] on a copy of [d]: [other] wins on every shared key. *)
Definition dict_update (d other : gmap string value) : gmap string value :=
  other ∪ d.

(** [await service.get_chat_message_contents(chat_history=, settings=,
    kernel=, arguments=)]: the request is sent, the provider's own turns
    land in the agent's history, and the call returns or raises. *)
Definition call_provider (service : AzureChatCompletion.t) (request : Request.t)
    : M (list ChatMessageContent) := fun self =>
  let reply := get_chat_message_contents service request in
  mkOutcome (reply_result reply)
    (with_chat_history
       (mkHistory (messages (chat_history self) ++ reply_appended reply)) self)
    [(service, request)].

Definition run
    (system_prompt user_prompt : option string)
    (run_arguments : option (gmap string value))
    (run_settings : option ExecutionSettings) : M value :=
  if_given system_prompt add_system_message ;;
  if_given user_prompt add_user_message ;;
  try_except
    (self <- get ;;
     let final_args :=
       match run_arguments with
       | Some extra => dict_update (_default_kernel_arguments self) extra
       | None => _default_kernel_arguments self
       end in
     let final_settings :=
       match run_settings with
       | Some s => Some s
       | None => _default_kernel_settings self
       end in
     args_for_kernel <- lift (KernelArguments_new final_settings final_args) ;;
     let args_for_kernel := setitem "input" (of_optional_str user_prompt) args_for_kernel in
     service <-
       match chat_completion self with
       | Some s => ret s
       | None =>
           s <- lift (get_service (kernel self)) ;;
           modify (with_chat_completion (Some s)) ;;
           ret s
       end ;;
     self <- get ;;
     result <-
       call_provider service
         (Request.mk (chat_history self) (planner_config self) (kernel self)
            args_for_kernel) ;;
     let response :=
       match result with
       | first :: _ => VMessage first
       | [] => VStr ""
       end in
     ret response)
    (fun e => raise e).

(** [self.kernel.add_plugin(parent_directory=, plugin_name=)]: the plugin
    read from the directory is stored under its name, replacing whatever
    that name held. *)
Definition kernel_add_plugin (parent_directory plugin_name : string) : M unit :=
  if String.eqb plugin_name "" then
    raise (ValueError "plugin_name must be provided if a plugin is not supplied.")
  else
    plugin <- lift (plugin_from_directory parent_directory plugin_name) ;;
    modify (fun self =>
      with_kernel
        (mkKernel (services (kernel self))
           (<[plugin_name := plugin]> (plugins (kernel self)))) self).

(** [self._skills_manager.load_skills(skills)]. *)
Definition skills_manager_load_skills (skills : list string) : M unit := fun self =>
  let '(r, registry) := Skills_load_skills bundle_at skills (_skills_manager self) in
  mkOutcome r (with_skills_manager registry self) [].

(** The body of the loop of [load_skills], for one [skill_name]. *)
Definition load_skills_body (skill_name : string) : M unit :=
  self <- get ;;
  plugin <- lift (Skills_get_skill skill_name (_skills_manager self)) ;;
  let plugin_path := directory plugin in
  let parent_dir := dirname plugin_path in
  let name := basename plugin_path in
  try_except (kernel_add_plugin parent_dir name) (fun e => raise e).

Definition load_skills (skills : list string) : M unit :=
  skills_manager_load_skills skills ;;
  for_each skills load_skills_body.

(** [add_plugin]: the kernel's [add_plugin], a failure logged and raised
    again. *)
Definition add_plugin (parent_directory plugin_name : string) : M unit :=
  try_except (kernel_add_plugin parent_directory plugin_name) (fun e => raise e).

(** [AzureChatPromptExecutionSettings()] with
    [function_choice_behavior = FunctionChoiceBehavior.Auto()]. *)
Definition _configure_planner_config : AzureChatPromptExecutionSettings :=
  set_function_choice_behavior (Some FunctionChoiceBehavior_Auto)
    AzureChatPromptExecutionSettings_new.

(** A fresh kernel holding the one Azure completion service; a fault of
    the service constructor is logged and raised again. *)
Definition _initialize_kernel (service_id : string)
    (key endpoint version deployment : option string) : exn + Kernel :=
  let service := AzureChatCompletion.mk service_id deployment key endpoint version in
  match service_fault service with
  | Some e => inl e
  | None => inr (add_service service Kernel_new)
  end.

(** [if text: add_<role>_message(text)] on the fresh history. *)
Definition seed (r : AuthorRole) (text : option string) (h : ChatHistory) : ChatHistory :=
  if truthy text then history_add r (default "" text) h else h.

(** The dictionary [required_vars], in its insertion order. *)
Definition required_vars (key endpoint version deployment : option string)
    : list (string * option string) :=
  [ ("AZURE_OPENAI_KEY", key);
    ("AZURE_OPENAI_API_ENDPOINT", endpoint);
    ("AZURE_OPENAI_API_VERSION", version);
    ("AZURE_AOAI_CHAT_MODEL_NAME_DEPLOYMENT_ID", deployment) ].

(** [[var_name for var_name, var_value in required_vars.items() if not var_value]]. *)
Definition missing_vars (vars : list (string * option string)) : list string :=
  List.map fst (List.filter (fun kv => negb (truthy (snd kv))) vars).

Definition missing_message (missing : list string) : string :=
  "Missing the following required Azure OpenAI settings: " +:+ join ", " missing
  +:+ ". " +:+ "Check environment variables or pass them explicitly.".

(** [os.path.abspath] of a relative path without dots. *)
Definition abspath (p : string) : string := path_join cwd p.

(** The constructor.  [environ] is the process environment once
    [load_dotenv()] has run, [generated_id] the eight digits drawn by
    [_generate_8digit_id()].  Logging is not modelled. *)
Definition __init__
    (environ : gmap string string) (generated_id : string)
    (service_id name id description instructions : option string)
    (skills : option (list string))
    (planner_config : option AzureChatPromptExecutionSettings)
    (planner_behavior : option FunctionChoiceBehavior)
    (tracing_enabled : bool)
    (azure_openai_key azure_openai_endpoint azure_openai_api_version
       azure_openai_chat_deployment_id : option string) : exn + t :=
  let id := default generated_id id in
  let chat_history :=
    seed USER instructions (seed SYSTEM description ChatHistory_new) in
  let KEY := py_or azure_openai_key (environ !! "AZURE_OPENAI_KEY") in
  let ENDPOINT := py_or azure_openai_endpoint (environ !! "AZURE_OPENAI_API_ENDPOINT") in
  let VERSION := py_or azure_openai_api_version (environ !! "AZURE_OPENAI_API_VERSION") in
  let DEPLOYMENT :=
    py_or azure_openai_chat_deployment_id
      (environ !! "AZURE_AOAI_CHAT_MODEL_NAME_DEPLOYMENT_ID") in
  match missing_vars (required_vars KEY ENDPOINT VERSION DEPLOYMENT) with
  | (_ :: _) as missing => inl (ValueError (missing_message missing))
  | [] =>
      let service_id := py_or_str service_id "openai-chat" in
      match _initialize_kernel service_id KEY ENDPOINT VERSION DEPLOYMENT with
      | inl e => inl e
      | inr kernel =>
          let planner_config := default _configure_planner_config planner_config in
          let planner_behavior :=
            match planner_behavior with
            | Some b => Some b
            | None => function_choice_behavior planner_config
            end in
          let manager := mkSkills (abspath "src/agenticai/plugins/plugins_store") ∅ in
          (* the three attributes after [_skills_manager] are assigned once
             the skills are loaded; loading does not read them *)
          let self :=
            mk name tracing_enabled id description instructions chat_history
              KEY ENDPOINT VERSION DEPLOYMENT service_id kernel
              planner_config planner_behavior manager ∅ None None in
          match skills with
          | Some ((_ :: _) as names) =>
              let o := load_skills names self in
              match result o with
              | inl e => inl e
              | inr _ => inr (final o)
              end
          | _ => inr self
          end
      end
  end.

End Methods.

End ChatAgent.

(** * The plugins of the plugin store

    [retrieval/aisearchclassification.py], [rewriting/formualtor.py] and
    [evaluation/evaluator.py], with the prompt manager they render their
    prompts with ([prompts/prompt_manager.py]).  The template engine and the
    Azure OpenAI client are outside the sources: a prompt manager is given by
    what rendering a template yields, a client by what a chat request yields. *)

(** JSON-like Python values: what the plugins receive and return. *)
#[warnings="-register-all"]
Inductive json :=
| JNull
| JBool (b : bool)
| JInt (z : Z)
| JStr (s : string)
| JList (l : list json)
| JDict (d : list (string * json)).

Module Plugin.

(** The exceptions that occur in the plugins; [Fault] is whatever other
    [Exception] an external collaborator raises. *)
Inductive exc :=
| AttributeError (msg : string)
| KeyError (key : string)
| TypeError (msg : string)
| ValueError (msg : string)
| Fault (cause : string).

(** [str(e)]. *)
Definition exc_str (e : exc) : string :=
  match e with
  | AttributeError msg => msg
  | KeyError key => "'" +:+ key +:+ "'"
  | TypeError msg => msg
  | ValueError msg => msg
  | Fault cause => cause
  end.

(** The keyword arguments of one [generate_chat_response] call. *)
Record ChatRequest := mkChatRequest {
  query : string;
  system_message_content : string;
  conversation_history : list json;
  response_format : string;
  max_tokens : Z;
  temperature : Q
}.

(** The Azure OpenAI client: what a chat request returns, or raises. *)
Record Client := mkClient { generate_chat_response : ChatRequest -> exc + json }.

(** [PromptManager]: [render name kwargs] stands for
    rendering the template [name] of [self.env] with the keyword arguments
    [kwargs]. *)
Record PromptManager := mkPromptManager {
  render : string -> list (string * json) -> exc + string
}.

(** [PromptManager.get_prompt]: any failure to render is raised as a
    [ValueError] that names the template and quotes the cause. *)
Definition get_prompt (self : PromptManager) (template_name : string)
    (kwargs : list (string * json)) : exc + string :=
  match render self template_name kwargs with
  | inr text => inr text
  | inl e =>
      inl (ValueError
             ("Error rendering template '" +:+ template_name +:+ "': " +:+ exc_str e))
  end.

Definition create_prompt_query_classifier_user (self : PromptManager) (query : string)
    : exc + string :=
  get_prompt self "query_classificator_user_prompt.jinja" [("query", JStr query)].

Definition create_prompt_formulator_user (self : PromptManager)
    (diagnosis medication_or_procedure code dosage duration rationale : string)
    : exc + string :=
  get_prompt self "formulator_user_prompt.jinja"
    [("diagnosis", JStr diagnosis);
     ("medication_or_procedure", JStr medication_or_procedure);
     ("code", JStr code);
     ("dosage", JStr dosage);
     ("duration", JStr duration);
     ("rationale", JStr rationale)].

Definition create_prompt_evaluator_user (self : PromptManager) (query : string)
    (search_results : list json) : exc + string :=
  get_prompt self "evaluator_user_prompt.jinja"
    [("query", JStr query); ("SearchResults", JList search_results)].

(** The attributes of a plugin object.  [prompt_manager] is [None] both
    when the attribute holds [None] and when it was never assigned: reading
    [self.prompt_manager.get_prompt] raises [AttributeError] either way. *)
Record PluginObject := mkPlugin {
  prompt_manager : option PromptManager;
  azure_openai_client : Client
}.

(** A plugin method: its result or exception, and the chat requests it has
    sent to the client. *)
Definition P (A : Type) : Type := (exc + A) * list ChatRequest.

Definition ret {A} (a : A) : P A := (inr a, []).

Definition lift {A} (r : exc + A) : P A := (r, []).

Definition bind {A B} (m : P A) (k : A -> P B) : P B :=
  match m with
  | (inl e, sent) => (inl e, sent)
  | (inr a, sent) =>
      match k a with
      | (r, sent') => (r, sent ++ sent')
      end
  end.

(** [try: m  except Exception: return fallback]. *)
Definition try_return {A} (m : P A) (fallback : A) : A * list ChatRequest :=
  match m with
  | (inr a, sent) => (a, sent)
  | (inl _, sent) => (fallback, sent)
  end.

Declare Scope plugin_scope.
Delimit Scope plugin_scope with plugin.
Notation "x <- m ;; k" := (bind m (fun x => k))
  (at level 100, m at next level, right associativity) : plugin_scope.
Open Scope plugin_scope.

(** [self.prompt_manager], about to be used. *)
Definition the_prompt_manager (self : PluginObject) : P PromptManager :=
  match prompt_manager self with
  | Some pm => ret pm
  | None => lift (inl (AttributeError "no prompt manager to call get_prompt on"))
  end.

(** [await self.azure_openai_client.generate_chat_response(...)]. *)
Definition ask (self : PluginObject) (request : ChatRequest) : P json :=
  (generate_chat_response (azure_openai_client self) request, [request]).

(** [o[key]] for a string key. *)
Definition getitem (o : json) (key : string) : exc + json :=
  match o with
  | JDict d =>
      match List.find (fun kv => String.eqb (fst kv) key) d with
      | Some kv => inr (snd kv)
      | None => inl (KeyError key)
      end
  | JNull => inl (TypeError "'NoneType' object is not subscriptable")
  | JStr _ => inl (TypeError "string indices must be integers")
  | JList _ => inl (TypeError "list indices must be integers or slices")
  | JBool _ => inl (TypeError "'bool' object is not subscriptable")
  | JInt _ => inl (TypeError "'int' object is not subscriptable")
  end.

Definition semantic_fallback : json := JDict [("classification", JStr "semantic")].

Definition need_more_information : json :=
  JDict [("optimized_query", JStr "Need more information to construct the query.")].

Definition query_error_fallback : json :=
  JDict [("optimized_query", JStr "Unable to generate query due to an error.")].

Definition evaluation_fallback : json :=
  JDict [("policies", JList []);
         ("reasoning", JList [JStr "Error during evaluation"]);
         ("retry", JBool true)].

Section Methods.
(** [str.strip] and [str.lower], on Python strings. *)
Variable strip : string -> string.
Variable lower : string -> string.
(** [AzureOpenAIManager(api_key=, completion_model_name=, azure_endpoint=)]. *)
Variable AzureOpenAIManager : option string -> option string -> option string -> exc + Client.
(** [PromptManager()]: the prompt manager over the default templates. *)
Variable default_prompt_manager : exc + PromptManager.

(** [o.strip()], defined on strings only. *)
Definition str_strip (o : json) : exc + string :=
  match o with
  | JStr s => inr (strip s)
  | _ => inl (AttributeError "object has no attribute 'strip'")
  end.

(** The part of the three constructors that reads the environment and
    builds the client; a failure is logged and raised again. *)
Definition connect (environ : gmap string string) : exc + Client :=
  let azure_openai_chat_deployment_id :=
    environ !! "AZURE_AOAI_CHAT_MODEL_NAME_DEPLOYMENT_ID" in
  let azure_openai_key := environ !! "AZURE_OPENAI_KEY" in
  let azure_endpoint := environ !! "AZURE_OPENAI_API_ENDPOINT" in
  if forallb truthy [azure_openai_chat_deployment_id; azure_openai_key; azure_endpoint]
  then AzureOpenAIManager azure_openai_key azure_openai_chat_deployment_id azure_endpoint
  else inl (ValueError "One or more environment variables for OpenAI are missing.").

(** [AIQueryClassificationPlugin(prompt_manager)]: the argument is stored
    as it is, [None] included. *)
Definition AIQueryClassificationPlugin (environ : gmap string string)
    (prompt_manager : option PromptManager) : exc + PluginObject :=
  match connect environ with
  | inl e => inl e
  | inr client => inr (mkPlugin prompt_manager client)
  end.

(** [AIQueryFormulationPlugin(prompt_manager)] and
    [AIPolicyEvaluationPlugin(prompt_manager)]: the attribute is assigned
    only when the argument is [None], to a prompt manager of its own; a
    prompt manager passed in is not stored. *)
Definition AIQueryFormulationPlugin (environ : gmap string string)
    (prompt_manager : option PromptManager) : exc + PluginObject :=
  match
    match prompt_manager with
    | None =>
        match default_prompt_manager with
        | inr pm => inr (Some pm)
        | inl e => inl e
        end
    | Some _ => inr None
    end
  with
  | inl e => inl e
  | inr attribute =>
      match connect environ with
      | inl e => inl e
      | inr client => inr (mkPlugin attribute client)
      end
  end.

Definition AIPolicyEvaluationPlugin := AIQueryFormulationPlugin.

Definition classify_query (self : PluginObject) (query_text : string)
    : json * list ChatRequest :=
  try_return
    (pm <- the_prompt_manager self ;;
     system_prompt <- lift (get_prompt pm "query_classifier_system_prompt.jinja" []) ;;
     user_prompt <- lift (create_prompt_query_classifier_user pm query_text) ;;
     response <-
       ask self (mkChatRequest user_prompt system_prompt [] "json_object" 20 (0 # 1)) ;;
     reply <- lift (getitem response "response") ;;
     stripped <- lift (str_strip reply) ;;
     let classification := lower stripped in
     let classification :=
       if String.eqb classification "keyword" || String.eqb classification "semantic"
       then classification
       else "semantic" in
     ret (JDict [("classification", JStr classification)]))
    semantic_fallback.

Definition generate_expanded_query (self : PluginObject)
    (diagnosis medication_or_procedure code dosage duration rationale : string)
    : json * list ChatRequest :=
  try_return
    (pm <- the_prompt_manager self ;;
     system_prompt <- lift (get_prompt pm "formulator_system_prompt.jinja" []) ;;
     user_prompt <-
       lift (create_prompt_formulator_user pm diagnosis medication_or_procedure code
               dosage duration rationale) ;;
     if String.eqb (strip diagnosis) "" || String.eqb (strip medication_or_procedure) ""
     then ret need_more_information
     else
       response <-
         ask self
           (mkChatRequest user_prompt system_prompt [] "json_object" 1000 (7 # 10)) ;;
       llm_reply <- lift (getitem response "response") ;;
       ret llm_reply)
    query_error_fallback.

Definition evaluate_policies (self : PluginObject) (query : string)
    (search_results : list json) : json * list ChatRequest :=
  try_return
    (pm <- the_prompt_manager self ;;
     system_prompt <- lift (get_prompt pm "evaluator_system_prompt.jinja" []) ;;
     user_prompt <- lift (create_prompt_evaluator_user pm query search_results) ;;
     response <-
       ask self (mkChatRequest user_prompt system_prompt [] "json_object" 3000 (2 # 10)) ;;
     llm_reply <- lift (getitem response "response") ;;
     ret llm_reply)
    evaluation_fallback.

End Methods.

End Plugin.

(** * The Azure AI Foundry helper

    [azure_ai_agents_helper/agents_azure.py], method
    [run_agent_conversation].  The project client is outside the sources: it
    is given by what each of its four operations returns, or raises, in a
    state of the service. *)

(** Truth value of a JSON-like value. *)
Definition json_truthy (o : json) : bool :=
  match o with
  | JNull => false
  | JBool b => b
  | JInt z => negb (z =? 0)%Z
  | JStr s => negb (String.eqb s "")
  | JList l => match l with [] => false | _ => true end
  | JDict d => match d with [] => false | _ => true end
  end.

(** [d.get(key)]. *)
Definition dict_get (d : list (string * json)) (key : string) : json :=
  match List.find (fun kv => String.eqb (fst kv) key) d with
  | Some kv => snd kv
  | None => JNull
  end.

Module AzureAIAgents.

(** [MessageRole], the library's enumeration of roles: it has the two
    members [USER] and [AGENT]. *)
Inductive MessageRole := USER | AGENT.

Definition MessageRole_eqb (r r' : MessageRole) : bool :=
  match r, r' with
  | USER, USER | AGENT, AGENT => true
  | _, _ => false
  end.

(** [MessageRole.ASSISTANT]: the enumeration has no such member, so the
    lookup raises [AttributeError]. *)
Definition MessageRole_ASSISTANT : Plugin.exc + MessageRole :=
  inl (Plugin.AttributeError "ASSISTANT").

(** One item of a message's content: text, or anything else (an image, a
    file reference). *)
Inductive MessageContent :=
| MessageTextContent (value : string)
| MessageOtherContent.

Record ThreadMessage := mkThreadMessage {
  role : MessageRole;
  content : list MessageContent
}.

(** The calls made on [self.project.agents]. *)
Inductive Call :=
| CreateThread
| CreateMessage (thread_id : string) (role : MessageRole) (content : string)
| CreateAndProcessRun (thread_id : string) (assistant_id : json)
| ListMessages (thread_id : string).

(** [self.project.agents] over the states [S] of the service.  A thread and
    a message are given by their id, a run by its status. *)
Record Agents (S : Type) := mkAgents {
  create_thread : S -> (Plugin.exc + string) * S;
  create_message : string -> MessageRole -> string -> S -> (Plugin.exc + string) * S;
  create_and_process_run : string -> json -> S -> (Plugin.exc + string) * S;
  list_messages : string -> S -> (Plugin.exc + list ThreadMessage) * S
}.
Arguments create_thread {S} _ _.
Arguments create_message {S} _ _ _ _ _.
Arguments create_and_process_run {S} _ _ _ _.
Arguments list_messages {S} _ _ _.

(** The loop over the messages, the last listed inspected first.  A
    message without content, or whose last content item is not text, is
    passed over; for a message that ends in text the role is compared with
    [MessageRole.ASSISTANT], and the loop ends there if they are equal. *)
Fixpoint scan (messages : list ThreadMessage) (final_text : string)
    : Plugin.exc + string :=
  match messages with
  | [] => inr final_text
  | msg :: rest =>
      match last (content msg) with
      | Some (MessageTextContent content_text) =>
          match MessageRole_ASSISTANT with
          | inl e => inl e
          | inr assistant =>
              if MessageRole_eqb (role msg) assistant then inr content_text
              else scan rest final_text
          end
      | _ => scan rest final_text
      end
  end.

Definition final_text (data : list ThreadMessage) : Plugin.exc + string :=
  scan (rev data) "No response from agent.".

(** The result or exception, the state of the service afterwards, and the
    calls made.  The status of the run is logged and nothing else; an
    exception raised after the guard on the id, by a call or in the loop, is
    logged and raised again. *)
Definition run_agent_conversation {S} (project : Agents S)
    (agent : list (string * json)) (query : string) (s : S)
    : (Plugin.exc + string) * S * list Call :=
  let agent_id := dict_get agent "id" in
  if negb (json_truthy agent_id)
  then (inl (Plugin.ValueError
               "Agent object missing 'id' field. Cannot run conversation."), s, [])
  else
    match create_thread project s with
    | (inl e, s) => (inl e, s, [CreateThread])
    | (inr thread_id, s) =>
        match create_message project thread_id USER query s with
        | (inl e, s) =>
            (inl e, s, [CreateThread; CreateMessage thread_id USER query])
        | (inr _, s) =>
            match create_and_process_run project thread_id agent_id s with
            | (inl e, s) =>
                (inl e, s,
                 [CreateThread; CreateMessage thread_id USER query;
                  CreateAndProcessRun thread_id agent_id])
            | (inr _, s) =>
                match list_messages project thread_id s with
                | (inl e, s) =>
                    (inl e, s,
                     [CreateThread; CreateMessage thread_id USER query;
                      CreateAndProcessRun thread_id agent_id; ListMessages thread_id])
                | (inr data, s) =>
                    (final_text data, s,
                     [CreateThread; CreateMessage thread_id USER query;
                      CreateAndProcessRun thread_id agent_id; ListMessages thread_id])
                end
            end
        end
    end.

(** [msg] has content, and its last item is text. *)
Definition ends_in_text (msg : ThreadMessage) : Prop :=
  exists text, last (content msg) = Some (MessageTextContent text).

End AzureAIAgents.

(** ** Vocabulary of the statements *)

(** The agent once [run] has appended the prompts it was given. *)
Definition prompted (system_prompt user_prompt : option string) (self : ChatAgent.t)
    : ChatAgent.t :=
  ChatAgent.final
    (ChatAgent.bind (ChatAgent.if_given system_prompt ChatAgent.add_system_message)
       (fun _ => ChatAgent.if_given user_prompt ChatAgent.add_user_message) self).

(** The turns [run] appends for its prompts, in order. *)
Definition prompt_turns (system_prompt user_prompt : option string)
    : list ChatMessageContent :=
  match system_prompt with Some s => [mkMessage SYSTEM s] | None => [] end
  ++ match user_prompt with Some u => [mkMessage USER u] | None => [] end.

(** The service [run] sends its request through: the one already bound,
    else the kernel's. *)
Definition bound_service (self : ChatAgent.t) : exn + AzureChatCompletion.t :=
  match ChatAgent.chat_completion self with
  | Some s => inr s
  | None => get_service (ChatAgent.kernel self)
  end.

(** A value that counts as missing: unset, or the empty string. *)
Definition unset_or_empty (v : option string) : Prop := v = None \/ v = Some "".

(** The four required settings as the constructor resolves them: the explicit
    argument when it is truthy, else the environment's value. *)
Definition resolved_vars (environ : gmap string string)
    (azure_openai_key azure_openai_endpoint azure_openai_api_version
       azure_openai_chat_deployment_id : option string) : list (string * option string) :=
  ChatAgent.required_vars
    (py_or azure_openai_key (environ !! "AZURE_OPENAI_KEY"))
    (py_or azure_openai_endpoint (environ !! "AZURE_OPENAI_API_ENDPOINT"))
    (py_or azure_openai_api_version (environ !! "AZURE_OPENAI_API_VERSION"))
    (py_or azure_openai_chat_deployment_id
       (environ !! "AZURE_AOAI_CHAT_MODEL_NAME_DEPLOYMENT_ID")).

(** The message [msg] names [key]: [key] occurs in it. *)
Definition names (msg key : string) : Prop :=
  exists before after, msg = before +:+ key +:+ after.

(** A call of one of the two history methods. *)
Inductive HistoryCall :=
| AddSystemMessage (message : string)
| AddUserMessage (message : string).

Definition perform (c : HistoryCall) : ChatAgent.M unit :=
  match c with
  | AddSystemMessage message => ChatAgent.add_system_message message
  | AddUserMessage message => ChatAgent.add_user_message message
  end.

(** The turn a history call stands for. *)
Definition turn_of (c : HistoryCall) : ChatMessageContent :=
  match c with
  | AddSystemMessage message => mkMessage SYSTEM message
  | AddUserMessage message => mkMessage USER message
  end.

(** The arguments and settings [run] resolves from the agent's defaults and
    the call's. *)
Definition final_args (self : ChatAgent.t) (run_arguments : option (gmap string value))
    : gmap string value :=
  match run_arguments with
  | Some extra => extra ∪ ChatAgent._default_kernel_arguments self
  | None => ChatAgent._default_kernel_arguments self
  end.

Definition final_settings (self : ChatAgent.t) (run_settings : option ExecutionSettings)
    : option ExecutionSettings :=
  match run_settings with
  | Some s => Some s
  | None => ChatAgent._default_kernel_settings self
  end.

(** The turns the provider added to the history while answering the
    requests of a call. *)
Definition provider_turns
    (provider : AzureChatCompletion.t -> Request.t -> Reply)
    (sent : list (AzureChatCompletion.t * Request.t)) : list ChatMessageContent :=
  flat_map (fun c => reply_appended (provider (fst c) (snd c))) sent.

(** ** Sample collaborators and a sample agent *)

Module Sample.
(** A complete environment. *)
Definition environ : gmap string string :=
  {[ "AZURE_OPENAI_KEY" := "secret";
     "AZURE_OPENAI_API_ENDPOINT" := "https://example.openai.azure.com";
     "AZURE_OPENAI_API_VERSION" := "2024-06-01";
     "AZURE_AOAI_CHAT_MODEL_NAME_DEPLOYMENT_ID" := "gpt-4o" ]}.

(** An environment without the key, and with an empty endpoint. *)
Definition broken_environ : gmap string string :=
  <["AZURE_OPENAI_API_ENDPOINT" := ""]> (delete "AZURE_OPENAI_KEY" environ).

(** A provider stub that answers every request with [responses]. *)
Definition answering (responses : list ChatMessageContent)
    : AzureChatCompletion.t -> Request.t -> Reply :=
  fun _ _ => mkReply (inr responses) [].

(** A provider stub that fails every request with [e]. *)
Definition failing (e : exn) : AzureChatCompletion.t -> Request.t -> Reply :=
  fun _ _ => mkReply (inl e) [].

Definition four : ChatMessageContent := mkMessage ASSISTANT "4".

Definition timed_out : exn := ExternalError "request timed out".

(** One bundle on disk, under the working directory [/app]. *)
Definition bundle_at (location : string) : option (list string) :=
  if String.eqb location "/app/src/agenticai/plugins/plugins_store/retrieval"
  then Some ["classify_query"; "icd10_lookup"]
  else None.

Definition plugin_from_directory (parent_directory plugin_name : string)
    : exn + KernelPlugin :=
  match bundle_at (path_join parent_directory plugin_name) with
  | Some fs => inr (mkPlugin plugin_name fs)
  | None => inl (ExternalError "plugin directory does not exist")
  end.

Definition service_fault (_ : AzureChatCompletion.t) : option exn := None.

(** The bounds the library declares for the fields of the settings
    object: temperature in [0, 2], top_p in [0, 1], the two penalties in
    [-2, 2], max_tokens above 0, number_of_responses in 1..128; the other
    fields have none. *)
Definition within (lo hi v : Q) : bool := Qle_bool lo v && Qle_bool v hi.

Definition rejected (field : string) : option exn :=
  Some (ExternalError ("ValidationError: " +:+ field)).

Definition assignment_fault (_ : AzureChatPromptExecutionSettings) (a : Assignment)
    : option exn :=
  match a with
  | Assign_temperature v => if within (0 # 1) (2 # 1) v then None else rejected "temperature"
  | Assign_top_p v => if within (0 # 1) (1 # 1) v then None else rejected "top_p"
  | Assign_presence_penalty v =>
      if within (-2 # 1) (2 # 1) v then None else rejected "presence_penalty"
  | Assign_frequency_penalty v =>
      if within (-2 # 1) (2 # 1) v then None else rejected "frequency_penalty"
  | Assign_max_tokens v => if (0 <? v)%Z then None else rejected "max_tokens"
  | Assign_number_of_responses v =>
      if (1 <=? v)%Z && (v <=? 128)%Z then None else rejected "number_of_responses"
  | _ => None
  end.

(** What the constructor of a policy accepts: a type that is [None],
    ["auto"], ["none"] or ["required"], and filters under the four keys the
    library knows; the number of attempts is not bounded. *)
Definition known_type (type_ : option string) : bool :=
  match type_ with
  | None => true
  | Some s => String.eqb s "auto" || String.eqb s "none" || String.eqb s "required"
  end.

Definition known_filters (filters : option (gmap string (list string))) : bool :=
  match filters with
  | None => true
  | Some m =>
      forallb
        (fun key =>
           String.eqb key "excluded_plugins" || String.eqb key "included_plugins"
           || String.eqb key "excluded_functions" || String.eqb key "included_functions")
        (map fst (map_to_list m))
  end.

Definition behavior_fault (enable_kernel_functions : bool)
    (maximum_auto_invoke_attempts : Z) (filters : option (gmap string (list string)))
    (type_ : option string) : option exn :=
  if known_type type_ && known_filters filters then None
  else rejected "FunctionChoiceBehavior".

Definition cwd : string := "/app".

Definition service : AzureChatCompletion.t :=
  AzureChatCompletion.mk "openai-chat" (Some "gpt-4o") (Some "secret")
    (Some "https://example.openai.azure.com") (Some "2024-06-01").

(** The agent built from [environ] with description "You are helpful" and
    instructions "Be concise" (see [Sample_agent_constructed]). *)
Definition agent : ChatAgent.t :=
  ChatAgent.mk None false "49382716" (Some "You are helpful") (Some "Be concise")
    (mkHistory [mkMessage SYSTEM "You are helpful"; mkMessage USER "Be concise"])
    (Some "secret") (Some "https://example.openai.azure.com") (Some "2024-06-01")
    (Some "gpt-4o") "openai-chat" (mkKernel [service] ∅)
    (ChatAgent._configure_planner_config) (Some FunctionChoiceBehavior_Auto)
    (mkSkills "/app/src/agenticai/plugins/plugins_store" ∅) ∅ None None.

(** The sample agent with default arguments [{"x": 0, "y": 2}]. *)
Definition agent_xy : ChatAgent.t :=
  ChatAgent.final
    (ChatAgent.configure_kernel_arguments
       (Some {[ "x" := VInt 0; "y" := VInt 2 ]}) None agent).

(** Call-level arguments [{"x": 1}] and [{"input": "ignored"}]. *)
Definition x1 : gmap string value := {[ "x" := VInt 1 ]}.
Definition ignored_input : gmap string value := {[ "input" := VStr "ignored" ]}.

(** The request [run(user_prompt="2+2?")] sends from [agent]. *)
Definition request_2plus2 : Request.t :=
  Request.mk
    (mkHistory [mkMessage SYSTEM "You are helpful"; mkMessage USER "Be concise";
                mkMessage USER "2+2?"])
    ChatAgent._configure_planner_config (mkKernel [service] ∅)
    (mkArguments None {[ "input" := VStr "2+2?" ]}).

(** The request [run(system_prompt="Answer in French", user_prompt="2+2?")]
    sends from [agent]. *)
Definition request_french : Request.t :=
  Request.mk
    (mkHistory [mkMessage SYSTEM "You are helpful"; mkMessage USER "Be concise";
                mkMessage SYSTEM "Answer in French"; mkMessage USER "2+2?"])
    ChatAgent._configure_planner_config (mkKernel [service] ∅)
    (mkArguments None {[ "input" := VStr "2+2?" ]}).

(** The request [run(run_arguments={"x": 1})] sends from [agent_xy]. *)
Definition request_xy : Request.t :=
  Request.mk
    (mkHistory [mkMessage SYSTEM "You are helpful"; mkMessage USER "Be concise"])
    ChatAgent._configure_planner_config (mkKernel [service] ∅)
    (mkArguments None {[ "x" := VInt 1; "y" := VInt 2; "input" := VNone ]}).

(** Two settings objects that differ in their temperature. *)
Definition cold : AzureChatPromptExecutionSettings :=
  set_temperature (Some (0 # 1)%Q) AzureChatPromptExecutionSettings_new.
Definition warm : AzureChatPromptExecutionSettings :=
  set_temperature (Some (7 # 10)%Q) AzureChatPromptExecutionSettings_new.

(** The request [run(user_prompt="2+2?", run_settings=warm)] sends from
    [agent] once its default settings are [cold]. *)
Definition request_warm : Request.t :=
  Request.mk
    (mkHistory [mkMessage SYSTEM "You are helpful"; mkMessage USER "Be concise";
                mkMessage USER "2+2?"])
    ChatAgent._configure_planner_config (mkKernel [service] ∅)
    (mkArguments (Some (Single warm)) {[ "input" := VStr "2+2?" ]}).

(** The sample agent with default settings [cold]. *)
Definition agent_cold : ChatAgent.t :=
  ChatAgent.final (ChatAgent.configure_kernel_arguments None (Some (Single cold)) agent).
End Sample.

(** The assignments a call of [set_planner_execution_settings] makes when
    none is rejected, in the order it makes them: one for each supplied
    field, then the one to [stream]. *)
Definition supplied {A} (assign : A -> Assignment) (o : option A) : list Assignment :=
  match o with
  | Some v => [assign v]
  | None => []
  end.

Definition assignments
    (temperature top_p presence_penalty frequency_penalty : option Q)
    (max_tokens number_of_responses : option Z)
    (stop_sequences : option (list string))
    (stream : option bool)
    (user function_call : option string) : list Assignment :=
  supplied Assign_temperature temperature
  ++ supplied Assign_top_p top_p
  ++ supplied Assign_presence_penalty presence_penalty
  ++ supplied Assign_frequency_penalty frequency_penalty
  ++ supplied Assign_max_tokens max_tokens
  ++ supplied Assign_number_of_responses number_of_responses
  ++ supplied Assign_stop stop_sequences
  ++ supplied Assign_user user
  ++ supplied Assign_function_call function_call
  ++ [Assign_stream (default false stream)].

(** What a settings object holds once the assignments [l] are stored. *)
Definition stores (l : list Assignment) (c : AzureChatPromptExecutionSettings)
    : AzureChatPromptExecutionSettings :=
  foldl (fun c a => store a c) c l.

(** Of the values two calls in a row supply for a field, the one that
    counts: the second call's, where it supplies one. *)
Definition later {A} (second first : option A) : option A :=
  match second with Some _ => second | None => first end.

(** The turns the constructor seeds the history with: the description and
    the instructions, each only if it is truthy. *)
Definition seed_turns (description instructions : option string) : list ChatMessageContent :=
  (if truthy description then [mkMessage SYSTEM (default "" description)] else [])
  ++ (if truthy instructions then [mkMessage USER (default "" instructions)] else []).

(** The completion service the constructor registers. *)
Definition constructed_service (environ : gmap string string)
    (service_id azure_openai_key azure_openai_endpoint azure_openai_api_version
       azure_openai_chat_deployment_id : option string) : AzureChatCompletion.t :=
  AzureChatCompletion.mk (py_or_str service_id "openai-chat")
    (py_or azure_openai_chat_deployment_id
       (environ !! "AZURE_AOAI_CHAT_MODEL_NAME_DEPLOYMENT_ID"))
    (py_or azure_openai_key (environ !! "AZURE_OPENAI_KEY"))
    (py_or azure_openai_endpoint (environ !! "AZURE_OPENAI_API_ENDPOINT"))
    (py_or azure_openai_api_version (environ !! "AZURE_OPENAI_API_VERSION")).

(** No character of [s] is a slash. *)
Fixpoint slash_free (s : string) : bool :=
  match s with
  | EmptyString => true
  | String c r => negb (Ascii.eqb c slash) && slash_free r
  end.

(** The last character of [s] is a slash. *)
Fixpoint ends_in_slash (s : string) : bool :=
  match s with
  | EmptyString => false
  | String c EmptyString => Ascii.eqb c slash
  | String _ r => ends_in_slash r
  end.

(** ** Further scenarios *)

Module Scenario.
(** Call-level arguments that use the keyword of [KernelArguments] itself. *)
Definition settings_key : gmap string value := {[ "settings" := VInt 1 ]}.

(** A service other than the one in the sample agent's kernel, and the
    sample agent bound to it. *)
Definition other_service : AzureChatCompletion.t :=
  AzureChatCompletion.mk "other-chat" (Some "gpt-4o-mini") (Some "secret")
    (Some "https://example.openai.azure.com") (Some "2024-06-01").

Definition agent_bound : ChatAgent.t :=
  ChatAgent.with_chat_completion (Some other_service) Sample.agent.

(** The sample registry once ["retrieval"] is loaded and a later name has
    been rejected. *)
Definition registry_after_failure : Skills :=
  mkSkills "/app/src/agenticai/plugins/plugins_store"
    {[ "retrieval" :=
         mkSkill "/app/src/agenticai/plugins/plugins_store/retrieval"
           ["classify_query"; "icd10_lookup"] ]}.
(** Lower-casing and stripping of spaces on ASCII text. *)
Definition lower_ascii (c : ascii) : ascii :=
  let n := nat_of_ascii c in
  if (65 <=? n)%nat && (n <=? 90)%nat then ascii_of_nat (n + 32) else c.

Fixpoint lower (s : string) : string :=
  match s with
  | EmptyString => EmptyString
  | String c rest => String (lower_ascii c) (lower rest)
  end.

Fixpoint lstrip (s : string) : string :=
  match s with
  | String " " rest => lstrip rest
  | _ => s
  end.

Definition strip (s : string) : string :=
  String.rev (lstrip (String.rev (lstrip s))).

(** An environment with the three variables of the plugins, a client
    constructor that accepts them, and a client that answers every request
    with [" Keyword "]. *)
Definition plugin_environ : gmap string string :=
  {[ "AZURE_AOAI_CHAT_MODEL_NAME_DEPLOYMENT_ID" := "gpt-4o";
     "AZURE_OPENAI_KEY" := "secret";
     "AZURE_OPENAI_API_ENDPOINT" := "https://example.openai.azure.com" ]}.

Definition keyword_client : Plugin.Client :=
  Plugin.mkClient (fun _ => inr (JDict [("response", JStr " Keyword ")])).

Definition AzureOpenAIManager (api_key completion_model_name azure_endpoint : option string)
    : Plugin.exc + Plugin.Client :=
  inr keyword_client.

(** A prompt manager that renders every template to its own name. *)
Definition echo_prompts : Plugin.PromptManager :=
  Plugin.mkPromptManager (fun template_name _ => inr template_name).

Definition default_prompt_manager : Plugin.exc + Plugin.PromptManager :=
  inr echo_prompts.

Definition classifier : Plugin.PluginObject :=
  Plugin.mkPlugin (Some echo_prompts) keyword_client.

(** What the constructors build without a prompt manager (the classifier)
    and with one (the formulator and the evaluator). *)
Definition classifier_by_default : Plugin.PluginObject :=
  Plugin.mkPlugin None keyword_client.

Definition formulator : Plugin.PluginObject :=
  Plugin.mkPlugin None keyword_client.

(** A Foundry project whose state counts the calls made; a thread holds a
    question, two answers of the agent and a message that ends in an image;
    another thread holds no text at all. *)
Definition conversation : list AzureAIAgents.ThreadMessage :=
  [AzureAIAgents.mkThreadMessage AzureAIAgents.USER
     [AzureAIAgents.MessageTextContent "What is 2+2?"];
   AzureAIAgents.mkThreadMessage AzureAIAgents.AGENT
     [AzureAIAgents.MessageTextContent "Let me think."];
   AzureAIAgents.mkThreadMessage AzureAIAgents.AGENT
     [AzureAIAgents.MessageOtherContent; AzureAIAgents.MessageTextContent "4"];
   AzureAIAgents.mkThreadMessage AzureAIAgents.AGENT
     [AzureAIAgents.MessageTextContent "chart"; AzureAIAgents.MessageOtherContent]].

Definition pictures : list AzureAIAgents.ThreadMessage :=
  [AzureAIAgents.mkThreadMessage AzureAIAgents.USER [];
   AzureAIAgents.mkThreadMessage AzureAIAgents.AGENT [AzureAIAgents.MessageOtherContent]].

Definition project : AzureAIAgents.Agents nat :=
  AzureAIAgents.mkAgents nat
    (fun n => (inr "thread-1", S n))
    (fun _ _ _ n => (inr "msg-1", S n))
    (fun _ _ n => (inr "failed", S n))
    (fun thread_id n =>
       (inr (if String.eqb thread_id "thread-1" then conversation else pictures), S n)).

Definition foundry_agent : list (string * json) :=
  [("name", JStr "helper"); ("id", JStr "asst-1")].
End Scenario.

(** * Properties of the agent *)

(** ** Paths *)

Example basename_bundle :
  basename "/app/src/agenticai/plugins/plugins_store/retrieval" = "retrieval".
Proof. reflexivity. Qed.

Example dirname_bundle :
  dirname "/app/src/agenticai/plugins/plugins_store/retrieval"
  = "/app/src/agenticai/plugins/plugins_store".
Proof. reflexivity. Qed.

Example dirname_root : dirname "/retrieval" = "/" /\ dirname "retrieval" = "".
Proof. split; reflexivity. Qed.

Example path_join_bundle :
  path_join "/app/plugins_store" "retrieval" = "/app/plugins_store/retrieval"
  /\ path_join "/app/plugins_store/" "retrieval" = "/app/plugins_store/retrieval"
  /\ path_join "" "retrieval" = "retrieval"
  /\ path_join "/app" "/abs" = "/abs".
Proof. repeat split; reflexivity. Qed.

(** ** [run] *)

Section RunProperties.
Variable get_chat_message_contents : AzureChatCompletion.t -> Request.t -> Reply.

Abbreviation run := (ChatAgent.run get_chat_message_contents).

Lemma prompted_messages sp up self :
  messages (ChatAgent.chat_history (prompted sp up self))
  = messages (ChatAgent.chat_history self) ++ prompt_turns sp up.
Proof.
  destruct sp, up; cbn; rewrite <- ?app_assoc, ?app_nil_r; reflexivity.
Qed.

Lemma prompted_frame sp up self :
  ChatAgent._default_kernel_arguments (prompted sp up self)
    = ChatAgent._default_kernel_arguments self
  /\ ChatAgent._default_kernel_settings (prompted sp up self)
    = ChatAgent._default_kernel_settings self
  /\ ChatAgent.chat_completion (prompted sp up self) = ChatAgent.chat_completion self
  /\ ChatAgent.kernel (prompted sp up self) = ChatAgent.kernel self
  /\ ChatAgent.planner_config (prompted sp up self) = ChatAgent.planner_config self.
Proof. destruct sp, up; cbn; auto. Qed.

(** What [run] does once the prompts are in: the one lemma the claims
    about [run] rest on. *)
Lemma run_inversion sp up ra rs self service request :
  (service, request) ∈ ChatAgent.calls (run sp up ra rs self) ->
  let self1 := prompted sp up self in
  let reply := get_chat_message_contents service request in
  exists ka,
    KernelArguments_new
      (match rs with Some s => Some s | None => ChatAgent._default_kernel_settings self end)
      (match ra with
       | Some extra => extra ∪ ChatAgent._default_kernel_arguments self
       | None => ChatAgent._default_kernel_arguments self
       end) = inr ka
    /\ bound_service self = inr service
    /\ request = Request.mk (ChatAgent.chat_history self1) (ChatAgent.planner_config self)
                   (ChatAgent.kernel self) (setitem "input" (of_optional_str up) ka)
    /\ ChatAgent.calls (run sp up ra rs self) = [(service, request)]
    /\ ChatAgent.result (run sp up ra rs self)
       = match reply_result reply with
         | inl e => inl e
         | inr (first :: _) => inr (VMessage first)
         | inr [] => inr (VStr "")
         end
    /\ messages (ChatAgent.chat_history (ChatAgent.final (run sp up ra rs self)))
       = messages (ChatAgent.chat_history self1) ++ reply_appended reply.
Proof.
  intros Hin self1 reply. revert Hin. subst self1 reply.
  unfold prompted, bound_service.
  destruct sp as [s|], up as [u|];
    unfold ChatAgent.run, ChatAgent.if_given, ChatAgent.add_system_message,
         ChatAgent.add_user_message, ChatAgent.call_provider, ChatAgent.dict_update,
         ChatAgent.try_except, ChatAgent.bind, ChatAgent.get, ChatAgent.lift,
         ChatAgent.ret, ChatAgent.raise, ChatAgent.modify;
    cbn [ChatAgent.with_chat_history ChatAgent.with_chat_completion
         ChatAgent.result ChatAgent.final ChatAgent.calls
         ChatAgent._default_kernel_arguments ChatAgent._default_kernel_settings
         ChatAgent.chat_completion ChatAgent.kernel ChatAgent.chat_history
         ChatAgent.planner_config app].
  all: destruct (KernelArguments_new _ _) as [e|ka] eqn:Hka;
    [cbn [ChatAgent.calls]; intros Hin; inversion Hin|].
  all: destruct (ChatAgent.chat_completion self) as [svc|] eqn:Hcc;
    [|destruct (get_service _) as [e|svc] eqn:Hgs;
      [cbn [ChatAgent.calls]; intros Hin; inversion Hin|]].
  all: cbn [ChatAgent.with_chat_history ChatAgent.with_chat_completion
         ChatAgent.result ChatAgent.final ChatAgent.calls
         ChatAgent.chat_completion ChatAgent.kernel ChatAgent.chat_history
         ChatAgent.planner_config app].
  all: destruct (reply_result _) as [e|[|first rest]] eqn:Hr;
    cbn [ChatAgent.result ChatAgent.final ChatAgent.calls ChatAgent.with_chat_history
         ChatAgent.chat_history messages app];
    intros Hin; apply list_elem_of_singleton in Hin; inversion Hin; subst service request;
    exists ka; cbn [of_optional_str] in *; rewrite Hr; auto 10.
Qed.

(** [run] does send its request whenever the argument dictionary can be
    built and a service is at hand. *)
Lemma run_dispatches sp up ra rs self ka service :
  KernelArguments_new
    (match rs with Some s => Some s | None => ChatAgent._default_kernel_settings self end)
    (match ra with
     | Some extra => extra ∪ ChatAgent._default_kernel_arguments self
     | None => ChatAgent._default_kernel_arguments self
     end) = inr ka ->
  bound_service self = inr service ->
  ChatAgent.calls (run sp up ra rs self)
  = [(service,
      Request.mk (ChatAgent.chat_history (prompted sp up self))
        (ChatAgent.planner_config self) (ChatAgent.kernel self)
        (setitem "input" (of_optional_str up) ka))].
Proof.
  unfold prompted, bound_service. intros Hka Hsvc.
  destruct sp as [s|], up as [u|];
    unfold ChatAgent.run, ChatAgent.if_given, ChatAgent.add_system_message,
         ChatAgent.add_user_message, ChatAgent.call_provider, ChatAgent.dict_update,
         ChatAgent.try_except, ChatAgent.bind, ChatAgent.get, ChatAgent.lift,
         ChatAgent.ret, ChatAgent.raise, ChatAgent.modify;
    cbn [ChatAgent.with_chat_history ChatAgent.with_chat_completion
         ChatAgent.result ChatAgent.final ChatAgent.calls
         ChatAgent._default_kernel_arguments ChatAgent._default_kernel_settings
         ChatAgent.chat_completion ChatAgent.kernel ChatAgent.chat_history
         ChatAgent.planner_config app].
  all: rewrite Hka.
  all: destruct (ChatAgent.chat_completion self) as [svc|];
    [|destruct (get_service _) as [e|svc]; [discriminate|]].
  all: injection Hsvc as ->.
  all: cbn [ChatAgent.with_chat_history ChatAgent.with_chat_completion
         ChatAgent.result ChatAgent.final ChatAgent.calls
         ChatAgent.chat_completion ChatAgent.kernel ChatAgent.chat_history
         ChatAgent.planner_config app].
  all: destruct (reply_result _) as [e|[|first rest]]; reflexivity.
Qed.

(** The request's own [settings=] keyword is the planner configuration in
    every call, whatever [run_settings] is. *)
Lemma run_request_settings sp up ra rs self service request :
  (service, request) ∈ ChatAgent.calls (run sp up ra rs self) ->
  Request.settings request = ChatAgent.planner_config self.
Proof.
  intros Hin. destruct (run_inversion _ _ _ _ _ _ _ Hin) as (ka & _ & _ & -> & _).
  reflexivity.
Qed.

(** C1. Whatever list of responses the provider returns for the request
    [run] sent, [run] returns its first element; for the empty list it
    returns the empty string, and does not raise. *)
Theorem run_returns_first_response sp up ra rs self service request responses :
  (service, request) ∈ ChatAgent.calls (run sp up ra rs self) ->
  reply_result (get_chat_message_contents service request) = inr responses ->
  (forall first rest, responses = first :: rest ->
     ChatAgent.result (run sp up ra rs self) = inr (VMessage first))
  /\ (responses = [] -> ChatAgent.result (run sp up ra rs self) = inr (VStr "")).
Proof.
  intros Hin Hreply.
  destruct (run_inversion _ _ _ _ _ _ _ Hin) as (ka & _ & _ & _ & _ & Hres & _).
  rewrite Hreply in Hres. rewrite Hres.
  split; [intros first rest ->|intros ->]; reflexivity.
Qed.

(** C2, as amended. The arguments [run] passes to the provider are the
    union of the default and the call-level mapping, the call-level value
    taken on every shared key, with the entry ["input"] then set to the
    call's [user_prompt]. *)
Theorem run_arguments_union_then_input sp up ra rs self service request :
  (service, request) ∈ ChatAgent.calls (run sp up ra rs self) ->
  items (Request.arguments request)
  = <["input" := of_optional_str up]>
      (default ∅ ra ∪ ChatAgent._default_kernel_arguments self).
Proof.
  intros Hin.
  destruct (run_inversion _ _ _ _ _ _ _ Hin) as (ka & Hka & _ & -> & _).
  unfold KernelArguments_new in Hka.
  destruct (_ !! "settings"); [discriminate|].
  destruct (_ !! "self"); [discriminate|]. injection Hka as <-.
  destruct ra as [extra|]; cbn [default setitem items Request.arguments].
  - reflexivity.
  - by rewrite (left_id_L ∅ (∪)).
Qed.

(** C6. When the provider fails on the request [run] sent, [run] raises
    that very exception, and the history still holds, after what it held
    before the call, the prompts appended at the start of the call. *)
Theorem run_provider_failure_keeps_prompts sp up ra rs self service request e :
  (service, request) ∈ ChatAgent.calls (run sp up ra rs self) ->
  reply_result (get_chat_message_contents service request) = inl e ->
  ChatAgent.result (run sp up ra rs self) = inl e
  /\ messages (ChatAgent.chat_history (ChatAgent.final (run sp up ra rs self)))
     = messages (ChatAgent.chat_history self) ++ prompt_turns sp up
       ++ reply_appended (get_chat_message_contents service request).
Proof.
  intros Hin Hreply.
  destruct (run_inversion _ _ _ _ _ _ _ Hin) as (ka & _ & _ & _ & _ & Hres & Hhist).
  rewrite Hreply in Hres. split; [exact Hres|].
  rewrite Hhist, prompted_messages, <- app_assoc. reflexivity.
Qed.

(** C7, as amended. The settings carried by the arguments [run]
    dispatches are the call's [run_settings] as a whole when it is supplied,
    and the agent's default settings, unchanged, when it is not.  The
    settings the provider call itself is dispatched with, its [settings=]
    keyword, are the agent's planner configuration in every call:
    [run_settings] and the default settings play no part in them. *)
Theorem run_settings_whole_override sp up ra rs self service request :
  (service, request) ∈ ChatAgent.calls (run sp up ra rs self) ->
  (forall s, rs = Some s -> settings_arg (Request.arguments request) = Some s)
  /\ (rs = None ->
      settings_arg (Request.arguments request) = ChatAgent._default_kernel_settings self)
  /\ Request.settings request = ChatAgent.planner_config self.
Proof.
  intros Hin.
  destruct (run_inversion _ _ _ _ _ _ _ Hin) as (ka & Hka & _ & -> & _).
  unfold KernelArguments_new in Hka.
  destruct (_ !! "settings"); [discriminate|].
  destruct (_ !! "self"); [discriminate|]. injection Hka as <-.
  split; [intros s ->; reflexivity|]. split; [intros ->; reflexivity|reflexivity].
Qed.

(** C10. In the arguments [run] dispatches, the entry ["input"] is the
    call's [user_prompt] ([None] when there is none), whatever the merged
    default and call-level arguments held under that key. *)
Theorem run_input_overwritten sp up ra rs self service request :
  (service, request) ∈ ChatAgent.calls (run sp up ra rs self) ->
  items (Request.arguments request) !! "input" = Some (of_optional_str up).
Proof.
  intros Hin.
  destruct (run_inversion _ _ _ _ _ _ _ Hin) as (ka & _ & _ & -> & _).
  cbn [Request.arguments setitem items]. apply lookup_insert_eq.
Qed.
End RunProperties.

(** ** [run] on the sample agent *)

Lemma run_returns_first_response_witness :
  ChatAgent.result
    (ChatAgent.run (Sample.answering [Sample.four]) None (Some "2+2?") None None Sample.agent)
  = inr (VMessage Sample.four)
  /\ ChatAgent.result
       (ChatAgent.run (Sample.answering []) None (Some "2+2?") None None Sample.agent)
     = inr (VStr "").
Proof.
  split.
  - apply (proj1 (run_returns_first_response (Sample.answering [Sample.four])
             None (Some "2+2?") None None Sample.agent Sample.service
             Sample.request_2plus2 [Sample.four]
             ltac:(vm_compute; left) eq_refl) Sample.four [] eq_refl).
  - apply (proj2 (run_returns_first_response (Sample.answering [])
             None (Some "2+2?") None None Sample.agent Sample.service
             Sample.request_2plus2 []
             ltac:(vm_compute; left) eq_refl) eq_refl).
Defined.

(** C2, as stated, fails on its own example: with defaults [{"x": 0, "y": 2}]
    and call arguments [{"x": 1}] the provider receives a third entry,
    ["input"], so the arguments passed are not the union [{"x": 1, "y": 2}]. *)
Lemma run_arguments_not_bare_union :
  exists service request,
    ChatAgent.calls
      (ChatAgent.run (Sample.answering []) None None (Some Sample.x1) None
         Sample.agent_xy)
    = [(service, request)]
    /\ items (Request.arguments request)
       <> Sample.x1 ∪ ChatAgent._default_kernel_arguments Sample.agent_xy
    /\ items (Request.arguments request) <> {[ "x" := VInt 1; "y" := VInt 2 ]}
    /\ items (Request.arguments request) !! "input" = Some VNone.
Proof.
  exists Sample.service, Sample.request_xy.
  split; [vm_compute; reflexivity|].
  split; [|split]; [intros H|intros H|reflexivity];
    apply (f_equal (fun m : gmap string value => m !! "input")) in H;
    vm_compute in H; discriminate H.
Qed.

Lemma run_arguments_union_then_input_witness :
  items (Request.arguments Sample.request_xy)
  = {[ "x" := VInt 1; "y" := VInt 2; "input" := VNone ]}.
Proof.
  rewrite (run_arguments_union_then_input (Sample.answering [])
             None None (Some Sample.x1) None Sample.agent_xy
             Sample.service Sample.request_xy ltac:(vm_compute; left)).
  vm_compute. reflexivity.
Defined.

Lemma run_provider_failure_keeps_prompts_witness :
  ChatAgent.result
    (ChatAgent.run (Sample.failing Sample.timed_out) (Some "Answer in French")
       (Some "2+2?") None None Sample.agent)
  = inl Sample.timed_out
  /\ messages (ChatAgent.chat_history (ChatAgent.final
       (ChatAgent.run (Sample.failing Sample.timed_out) (Some "Answer in French")
          (Some "2+2?") None None Sample.agent)))
     = [mkMessage SYSTEM "You are helpful"; mkMessage USER "Be concise";
        mkMessage SYSTEM "Answer in French"; mkMessage USER "2+2?"].
Proof.
  pose proof (run_provider_failure_keeps_prompts (Sample.failing Sample.timed_out)
                (Some "Answer in French") (Some "2+2?") None None Sample.agent
                Sample.service
                Sample.request_french
                Sample.timed_out ltac:(vm_compute; left) eq_refl) as [Hres Hhist].
  split; [exact Hres|]. rewrite Hhist. reflexivity.
Defined.

(** C7, as stated, fails: the sample agent with default settings [cold],
    run with [run_settings=warm], dispatches one request, and the settings
    that request is dispatched with are the agent's planner configuration,
    not [warm]. *)
Lemma run_settings_not_the_dispatch_settings :
  let o :=
    ChatAgent.run (Sample.answering [Sample.four]) None (Some "2+2?") None
      (Some (Single Sample.warm)) Sample.agent_cold in
  ChatAgent.calls o = [(Sample.service, Sample.request_warm)]
  /\ Request.settings Sample.request_warm = ChatAgent.planner_config Sample.agent_cold
  /\ Request.settings Sample.request_warm <> Sample.warm.
Proof. repeat split. vm_compute. discriminate. Qed.

Lemma run_settings_whole_override_witness :
  settings_arg (Request.arguments Sample.request_warm) = Some (Single Sample.warm)
  /\ Request.settings Sample.request_warm = ChatAgent.planner_config Sample.agent_cold
  /\ settings_arg (Request.arguments Sample.request_2plus2) = None.
Proof.
  pose proof (run_settings_whole_override (Sample.answering [Sample.four])
                None (Some "2+2?") None (Some (Single Sample.warm)) Sample.agent_cold
                Sample.service Sample.request_warm ltac:(vm_compute; left))
    as (Hwarm & _ & Hplanner).
  pose proof (run_settings_whole_override (Sample.answering [Sample.four])
                None (Some "2+2?") None None Sample.agent
                Sample.service Sample.request_2plus2 ltac:(vm_compute; left))
    as (_ & Hdefault & _).
  split; [exact (Hwarm (Single Sample.warm) eq_refl)|].
  split; [exact Hplanner|exact (Hdefault eq_refl)].
Defined.

Lemma run_input_overwritten_witness :
  items (Request.arguments Sample.request_2plus2) !! "input" = Some (VStr "2+2?").
Proof.
  apply (run_input_overwritten (Sample.answering [Sample.four])
           None (Some "2+2?") (Some Sample.ignored_input) None Sample.agent
           Sample.service Sample.request_2plus2 ltac:(vm_compute; left)).
Defined.

(** ** Planner configuration *)

Lemma with_planner_config_twice c c' a :
  ChatAgent.with_planner_config c (ChatAgent.with_planner_config c' a)
  = ChatAgent.with_planner_config c a.
Proof. by destruct a. Qed.

Lemma planner_config_with c a :
  ChatAgent.planner_config (ChatAgent.with_planner_config c a) = c.
Proof. reflexivity. Qed.

Lemma with_planner_config_same a :
  ChatAgent.with_planner_config (ChatAgent.planner_config a) a = a.
Proof. by destruct a. Qed.

(** A field that no assignment of [l] is to holds its value. *)
Lemma stores_keeps {B} (field : AzureChatPromptExecutionSettings -> B) l c :
  Forall (fun a => forall c, field (store a c) = field c) l ->
  field (stores l c) = field c.
Proof.
  unfold stores. revert c. induction l as [|a l IH]; intros c Hl; [reflexivity|].
  inversion_clear Hl as [|? ? Ha Hrest]. cbn [foldl]. by rewrite IH, Ha.
Qed.

Lemma Forall_supplied {A} (P : Assignment -> Prop) (assign : A -> Assignment) o :
  (forall v, P (assign v)) -> Forall P (supplied assign o).
Proof. intros H. destruct o; repeat constructor. apply H. Qed.

(** What the assignments of a call store, field by field. *)
Lemma stores_assignments
    (t p pp fp : option Q) (mt n : option Z) (ss : option (list string))
    (st : option bool) (u fc : option string) c :
  stores (assignments t p pp fp mt n ss st u fc) c
  = mkSettings
      (match t with Some _ => t | None => temperature c end)
      (match p with Some _ => p | None => top_p c end)
      (match pp with Some _ => pp | None => presence_penalty c end)
      (match fp with Some _ => fp | None => frequency_penalty c end)
      (match mt with Some _ => mt | None => max_tokens c end)
      (match n with Some _ => n | None => number_of_responses c end)
      (match ss with Some _ => ss | None => stop c end)
      (default false st)
      (match u with Some _ => u | None => user c end)
      (match fc with Some _ => fc | None => function_call c end)
      (function_choice_behavior c).
Proof. destruct c. destruct t, p, pp, fp, mt, n, ss, u, fc; reflexivity. Qed.

(** The assignment to [stream] is the last one. *)
Lemma assignments_stream_last
    (t p pp fp : option Q) (mt n : option Z) (ss : option (list string))
    (st : option bool) (u fc : option string) :
  exists fields,
    assignments t p pp fp mt n ss st u fc = fields ++ [Assign_stream (default false st)]
    /\ Forall (fun a => forall c, stream (store a c) = stream c) fields.
Proof.
  exists (supplied Assign_temperature t ++ supplied Assign_top_p p
          ++ supplied Assign_presence_penalty pp ++ supplied Assign_frequency_penalty fp
          ++ supplied Assign_max_tokens mt ++ supplied Assign_number_of_responses n
          ++ supplied Assign_stop ss ++ supplied Assign_user u
          ++ supplied Assign_function_call fc).
  split; [unfold assignments; by rewrite <- !app_assoc|].
  repeat first [ apply Forall_app_2 | by apply Forall_supplied ].
Qed.

(** What comes before an element of [fields ++ [z]] is part of [fields]. *)
Lemma before_last {A} (P : A -> Prop) (front : list A) a rest fields z :
  front ++ a :: rest = fields ++ [z] -> Forall P fields -> Forall P front.
Proof.
  intros Heq Hfields.
  assert (length front <= length fields)%nat as Hlen.
  { apply (f_equal length) in Heq. rewrite !length_app in Heq. cbn in Heq. lia. }
  replace front with (take (length front) (fields ++ [z]))
    by (rewrite <- Heq; apply take_app_length).
  rewrite take_app_le by exact Hlen. by apply Forall_take.
Qed.

Section PlannerProperties.
Variable assignment_fault : AzureChatPromptExecutionSettings -> Assignment -> option exn.
Variable behavior_fault :
  bool -> Z -> option (gmap string (list string)) -> option string -> option exn.
Implicit Types (t p pp fp : option Q) (mt n : option Z) (ss : option (list string)).
Implicit Types (st : option bool) (u fc : option string) (self : ChatAgent.t).

Abbreviation assign := (ChatAgent.assign_planner_config assignment_fault).

(** One guarded assignment, then the assignments [l]. *)
Lemma if_given_assign {A} (field : A -> Assignment) (o : option A)
    (k : ChatAgent.M unit) l :
  (forall s, k s = ChatAgent.for_each l assign s) ->
  forall self,
    ChatAgent.bind (ChatAgent.if_given o (fun v => assign (field v))) (fun _ => k) self
    = ChatAgent.for_each (supplied field o ++ l) assign self.
Proof.
  intros Hk self. destruct o as [v|];
    cbn [supplied app ChatAgent.for_each ChatAgent.if_given]; unfold ChatAgent.bind.
  - destruct (assign (field v) self) as [[e|[]] s sent]; [reflexivity|]. by rewrite Hk.
  - unfold ChatAgent.ret. rewrite Hk. by destruct (ChatAgent.for_each l assign self).
Qed.

(** The method makes its assignments one after the other. *)
Lemma set_planner_execution_settings_eq t p pp fp mt n ss st u fc self :
  ChatAgent.set_planner_execution_settings assignment_fault t p pp fp mt n ss st u fc self
  = ChatAgent.for_each (assignments t p pp fp mt n ss st u fc) assign self.
Proof.
  unfold ChatAgent.set_planner_execution_settings, assignments. cbv zeta.
  revert self. do 9 apply if_given_assign.
  intros self. cbn [ChatAgent.for_each]. unfold ChatAgent.bind, ChatAgent.ret.
  unfold ChatAgent.assign_planner_config.
  by destruct (assignment_fault _ _).
Qed.

(** The first of several assignments. *)
Lemma for_each_assign_cons a l self :
  ChatAgent.for_each (a :: l) assign self
  = match assignment_fault (ChatAgent.planner_config self) a with
    | Some e => ChatAgent.mkOutcome (inl e) self []
    | None =>
        ChatAgent.for_each l assign
          (ChatAgent.with_planner_config (store a (ChatAgent.planner_config self)) self)
    end.
Proof.
  cbn [ChatAgent.for_each]. unfold ChatAgent.bind, ChatAgent.assign_planner_config.
  destruct (assignment_fault _ _); [reflexivity|].
  by destruct (ChatAgent.for_each l _ _).
Qed.

(** Assignments made in a row: those before the first rejected one are
    stored, and nothing else of the agent is touched. *)
Lemma for_each_assign_outcome l self :
  let o := ChatAgent.for_each l assign self in
  ChatAgent.calls o = []
  /\ exists front,
       ChatAgent.final o
       = ChatAgent.with_planner_config (stores front (ChatAgent.planner_config self)) self
       /\ ((ChatAgent.result o = inr tt /\ front = l)
           \/ exists e a rest,
                ChatAgent.result o = inl e
                /\ l = front ++ a :: rest
                /\ assignment_fault (stores front (ChatAgent.planner_config self)) a
                   = Some e).
Proof.
  cbv zeta. revert self. induction l as [|a l IH]; intros self.
  { cbn [ChatAgent.for_each]. unfold ChatAgent.ret.
    cbn [ChatAgent.calls ChatAgent.final ChatAgent.result].
    split; [done|]. exists []. unfold stores. cbn [foldl].
    rewrite with_planner_config_same. split; [done|]. by left. }
  rewrite !for_each_assign_cons.
  destruct (assignment_fault (ChatAgent.planner_config self) a) as [e|] eqn:Ha.
  { cbn [ChatAgent.calls ChatAgent.final ChatAgent.result].
    split; [done|]. exists []. unfold stores. cbn [foldl].
    rewrite with_planner_config_same. split; [done|]. right. by exists e, a, l. }
  specialize (IH (ChatAgent.with_planner_config
                    (store a (ChatAgent.planner_config self)) self)).
  destruct (ChatAgent.for_each l assign _) as [r s' sent'].
  cbn [ChatAgent.calls ChatAgent.final ChatAgent.result] in *.
  destruct IH as (-> & front & -> & Hcase). split; [done|].
  exists (a :: front). rewrite planner_config_with, with_planner_config_twice.
  split; [done|]. rewrite planner_config_with in Hcase.
  destruct Hcase as [[-> ->]|(e & a' & rest & -> & -> & Hfault)]; [by left|].
  right. by exists e, a', rest.
Qed.

(** Every outcome of [set_planner_execution_settings]. *)
Lemma set_planner_execution_settings_outcome t p pp fp mt n ss st u fc self :
  let o :=
    ChatAgent.set_planner_execution_settings assignment_fault t p pp fp mt n ss st u fc
      self in
  let l := assignments t p pp fp mt n ss st u fc in
  ChatAgent.calls o = []
  /\ exists front,
       ChatAgent.final o
       = ChatAgent.with_planner_config (stores front (ChatAgent.planner_config self)) self
       /\ ((ChatAgent.result o = inr tt /\ front = l)
           \/ exists e a rest,
                ChatAgent.result o = inl e
                /\ l = front ++ a :: rest
                /\ assignment_fault (stores front (ChatAgent.planner_config self)) a
                   = Some e).
Proof. cbv zeta. rewrite set_planner_execution_settings_eq. apply for_each_assign_outcome. Qed.

(** What a call that returns normally leaves in [planner_config]: every
    supplied field is assigned, [stream] is assigned in any case, and
    nothing else of the agent is touched. *)
Lemma set_planner_execution_settings_final t p pp fp mt n ss st u fc self :
  let before := ChatAgent.planner_config self in
  let o :=
    ChatAgent.set_planner_execution_settings assignment_fault t p pp fp mt n ss st u fc
      self in
  ChatAgent.result o = inr tt ->
  ChatAgent.final o
  = ChatAgent.with_planner_config
      (mkSettings
         (match t with Some _ => t | None => temperature before end)
         (match p with Some _ => p | None => top_p before end)
         (match pp with Some _ => pp | None => presence_penalty before end)
         (match fp with Some _ => fp | None => frequency_penalty before end)
         (match mt with Some _ => mt | None => max_tokens before end)
         (match n with Some _ => n | None => number_of_responses before end)
         (match ss with Some _ => ss | None => stop before end)
         (default false st)
         (match u with Some _ => u | None => user before end)
         (match fc with Some _ => fc | None => function_call before end)
         (function_choice_behavior before))
      self.
Proof.
  cbv zeta. intros Hres.
  destruct (set_planner_execution_settings_outcome t p pp fp mt n ss st u fc self)
    as (_ & front & -> & [[_ ->]|(e & a & rest & He & _)]).
  - by rewrite stores_assignments.
  - rewrite He in Hres. discriminate.
Qed.

(** The call returns normally when the settings object rejects none of
    its assignments. *)
Lemma set_planner_execution_settings_returns t p pp fp mt n ss st u fc self :
  Forall (fun a => forall c, assignment_fault c a = None)
    (assignments t p pp fp mt n ss st u fc) ->
  ChatAgent.result
    (ChatAgent.set_planner_execution_settings assignment_fault t p pp fp mt n ss st u fc
       self)
  = inr tt.
Proof.
  intros Hok.
  destruct (set_planner_execution_settings_outcome t p pp fp mt n ss st u fc self)
    as (_ & front & _ & [[-> _]|(e & a & rest & _ & Hl & Hfault)]); [done|].
  rewrite Hl in Hok. apply Forall_app in Hok as [_ Hok].
  inversion_clear Hok as [|? ? Ha _]. rewrite Ha in Hfault. discriminate.
Qed.

(** C4, as amended. In every outcome of [set_planner_execution_settings],
    a normal return or the exception of a value the settings object
    rejects, each of the nine fields temperature, top_p, presence_penalty,
    frequency_penalty, max_tokens, number_of_responses, stop, user and
    function_call that the call did not supply holds its prior value.
    [stream] is the exception: a call that returns normally has assigned it,
    the supplied value, or [False] when the call leaves it out; a call that
    raises has not touched it. *)
Theorem set_planner_execution_settings_frame t p pp fp mt n ss st u fc self :
  let o :=
    ChatAgent.set_planner_execution_settings assignment_fault t p pp fp mt n ss st u fc
      self in
  let before := ChatAgent.planner_config self in
  let after := ChatAgent.planner_config (ChatAgent.final o) in
  (t = None -> temperature after = temperature before)
  /\ (p = None -> top_p after = top_p before)
  /\ (pp = None -> presence_penalty after = presence_penalty before)
  /\ (fp = None -> frequency_penalty after = frequency_penalty before)
  /\ (mt = None -> max_tokens after = max_tokens before)
  /\ (n = None -> number_of_responses after = number_of_responses before)
  /\ (ss = None -> stop after = stop before)
  /\ (u = None -> user after = user before)
  /\ (fc = None -> function_call after = function_call before)
  /\ (ChatAgent.result o = inr tt -> stream after = default false st)
  /\ (forall e, ChatAgent.result o = inl e -> stream after = stream before).
Proof.
  cbv zeta.
  destruct (set_planner_execution_settings_outcome t p pp fp mt n ss st u fc self)
    as (_ & front & -> & Hcase).
  rewrite planner_config_with.
  assert (forall P : Assignment -> Prop,
            Forall P (assignments t p pp fp mt n ss st u fc) -> Forall P front) as Hfront.
  { intros P HP. destruct Hcase as [[_ ->]|(e & a & rest & _ & Hl & _)]; [done|].
    rewrite Hl in HP. by apply Forall_app in HP as [? _]. }
  repeat match goal with
         | |- (_ = None -> _) /\ _ =>
             split;
             [intros ->; apply stores_keeps, Hfront; unfold assignments;
              repeat first [ apply Forall_app_2 | by apply Forall_supplied
                           | by repeat constructor ]|]
         end.
  split.
  - intros Hres. destruct Hcase as [[_ ->]|(e & a & rest & He & _)].
    + by rewrite stores_assignments.
    + rewrite He in Hres. discriminate.
  - intros e Hres. destruct Hcase as [[He _]|(e' & a & rest & _ & Hl & _)].
    + rewrite He in Hres. discriminate.
    + destruct (assignments_stream_last t p pp fp mt n ss st u fc)
        as (fields & Hfields & Hkeep).
      rewrite Hfields in Hl. symmetry in Hl.
      by apply stores_keeps, (before_last _ front a rest fields _ Hl).
Qed.

(** In a call that returns normally, a supplied field is assigned the
    supplied value, and the policy is as before. *)
Lemma set_planner_execution_settings_assigns t p pp fp mt n ss st u fc self :
  let o :=
    ChatAgent.set_planner_execution_settings assignment_fault t p pp fp mt n ss st u fc
      self in
  let after := ChatAgent.planner_config (ChatAgent.final o) in
  ChatAgent.result o = inr tt ->
  (forall v, t = Some v -> temperature after = Some v)
  /\ (forall v, p = Some v -> top_p after = Some v)
  /\ (forall v, pp = Some v -> presence_penalty after = Some v)
  /\ (forall v, fp = Some v -> frequency_penalty after = Some v)
  /\ (forall v, mt = Some v -> max_tokens after = Some v)
  /\ (forall v, n = Some v -> number_of_responses after = Some v)
  /\ (forall v, ss = Some v -> stop after = Some v)
  /\ (forall v, u = Some v -> user after = Some v)
  /\ (forall v, fc = Some v -> function_call after = Some v)
  /\ function_choice_behavior after
     = function_choice_behavior (ChatAgent.planner_config self).
Proof.
  cbv zeta. intros Hres. rewrite set_planner_execution_settings_final by exact Hres.
  rewrite planner_config_with.
  cbn [temperature top_p presence_penalty frequency_penalty
       max_tokens number_of_responses stop stream user function_call
       function_choice_behavior].
  repeat split; intros v ->; reflexivity.
Qed.

(** Every outcome of [set_planner_behavior]. *)
Lemma set_planner_behavior_eq enable attempts filters behavior_type self :
  ChatAgent.set_planner_behavior assignment_fault behavior_fault enable attempts filters
    behavior_type self
  = match behavior_fault enable attempts filters behavior_type with
    | Some e => ChatAgent.mkOutcome (inl e) self []
    | None =>
        let policy := mkBehavior enable attempts filters behavior_type in
        match
          assignment_fault (ChatAgent.planner_config self)
            (Assign_function_choice_behavior policy)
        with
        | Some e => ChatAgent.mkOutcome (inl e) self []
        | None =>
            ChatAgent.mkOutcome (inr tt)
              (ChatAgent.with_planner_config
                 (set_function_choice_behavior (Some policy)
                    (ChatAgent.planner_config self)) self) []
        end
    end.
Proof.
  unfold ChatAgent.set_planner_behavior, ChatAgent.FunctionChoiceBehavior_new,
    ChatAgent.bind, ChatAgent.lift, ChatAgent.assign_planner_config.
  destruct (behavior_fault _ _ _ _); [reflexivity|]. cbv zeta.
  by destruct (assignment_fault _ _).
Qed.

(** C5, as amended. [set_planner_behavior] makes no check of its own,
    on [max_auto_invoke_attempts] or on anything else: how a call ends is
    the library's verdict on the policy.  When the constructor and the
    settings object accept it, the call returns normally and the
    function-choice policy is the one built from the four arguments of the
    call, the rest of the agent as before; when either rejects it, the call
    raises that error and the agent, its previous policy included, is as it
    was. *)
Theorem set_planner_behavior_replaces enable attempts filters behavior_type self :
  let o :=
    ChatAgent.set_planner_behavior assignment_fault behavior_fault enable attempts filters
      behavior_type self in
  let policy := mkBehavior enable attempts filters behavior_type in
  (behavior_fault enable attempts filters behavior_type = None ->
   assignment_fault (ChatAgent.planner_config self)
     (Assign_function_choice_behavior policy) = None ->
   ChatAgent.result o = inr tt)
  /\ (ChatAgent.result o = inr tt ->
      function_choice_behavior (ChatAgent.planner_config (ChatAgent.final o))
      = Some policy
      /\ ChatAgent.final o
         = ChatAgent.with_planner_config
             (set_function_choice_behavior (Some policy) (ChatAgent.planner_config self))
             self)
  /\ (forall e, ChatAgent.result o = inl e ->
      ChatAgent.final o = self
      /\ (behavior_fault enable attempts filters behavior_type = Some e
          \/ assignment_fault (ChatAgent.planner_config self)
               (Assign_function_choice_behavior policy) = Some e)).
Proof.
  cbv zeta. rewrite set_planner_behavior_eq. cbv zeta.
  destruct (behavior_fault _ _ _ _) as [e|];
    [|destruct (assignment_fault _ _) as [e|]];
    cbn [ChatAgent.result ChatAgent.final].
  - split; [discriminate|]. split; [discriminate|]. intros e' [= <-]. split; [done|by left].
  - split; [discriminate|]. split; [discriminate|]. intros e' [= <-]. split; [done|by right].
  - split; [done|]. split; [|discriminate]. intros _. by rewrite planner_config_with.
Qed.
End PlannerProperties.

(** The sample agent after [set_planner_execution_settings(stream=True)]. *)
Lemma streaming_agent_streams :
  stream (ChatAgent.planner_config (ChatAgent.final
    (ChatAgent.set_planner_execution_settings Sample.assignment_fault None None None None
       None None None (Some true) None None Sample.agent))) = true.
Proof. reflexivity. Qed.

(** C4, as stated, fails for [stream]: on an agent whose configuration
    streams, a call that supplies the temperature only resets [stream] to
    [False]. *)
Lemma stream_reset_when_not_supplied :
  let streaming :=
    ChatAgent.final
      (ChatAgent.set_planner_execution_settings Sample.assignment_fault None None None
         None None None None (Some true) None None Sample.agent) in
  let o :=
    ChatAgent.set_planner_execution_settings Sample.assignment_fault (Some (7 # 10)%Q)
      None None None None None None None None None streaming in
  stream (ChatAgent.planner_config streaming) = true
  /\ ChatAgent.result o = inr tt
  /\ stream (ChatAgent.planner_config (ChatAgent.final o)) = false.
Proof. repeat split. Qed.

(** A value the settings object rejects: with a [top_p] of 1.5 the call
    raises at that assignment; the temperature, assigned before it, is
    stored, and [stream], supplied as [True], is not reached. *)
Example set_planner_execution_settings_rejected :
  let o :=
    ChatAgent.set_planner_execution_settings Sample.assignment_fault (Some (7 # 10)%Q)
      (Some (3 # 2)%Q) None None None None None (Some true) None None Sample.agent in
  ChatAgent.result o = inl (ExternalError "ValidationError: top_p")
  /\ temperature (ChatAgent.planner_config (ChatAgent.final o)) = Some (7 # 10)%Q
  /\ top_p (ChatAgent.planner_config (ChatAgent.final o)) = None
  /\ stream (ChatAgent.planner_config (ChatAgent.final o)) = false.
Proof. repeat split. Qed.

Lemma set_planner_execution_settings_frame_witness :
  let o :=
    ChatAgent.set_planner_execution_settings Sample.assignment_fault (Some (7 # 10)%Q)
      None None None (Some 256) None None None None None Sample.agent in
  top_p (ChatAgent.planner_config (ChatAgent.final o))
    = top_p (ChatAgent.planner_config Sample.agent)
  /\ user (ChatAgent.planner_config (ChatAgent.final o))
    = user (ChatAgent.planner_config Sample.agent)
  /\ stream (ChatAgent.planner_config (ChatAgent.final o)) = false.
Proof.
  pose proof (set_planner_execution_settings_frame Sample.assignment_fault
                (Some (7 # 10)%Q) None None None (Some 256) None None None None None
                Sample.agent)
    as (_ & Hp & _ & _ & _ & _ & _ & Hu & _ & Hs & _).
  split; [exact (Hp eq_refl)|]. split; [exact (Hu eq_refl)|exact (Hs eq_refl)].
Defined.

(** C5, as stated, fails: on the sample agent, whose policy is [Auto()] with
    five attempts, [set_planner_behavior(max_auto_invoke_attempts=-1)]
    returns normally and the policy is no longer the previous one. *)
Lemma set_planner_behavior_accepts_negative :
  let o :=
    ChatAgent.set_planner_behavior Sample.assignment_fault Sample.behavior_fault
      true (-1) None None Sample.agent in
  ChatAgent.result o = inr tt
  /\ function_choice_behavior (ChatAgent.planner_config (ChatAgent.final o))
     = Some (mkBehavior true (-1) None None)
  /\ function_choice_behavior (ChatAgent.planner_config (ChatAgent.final o))
     <> function_choice_behavior (ChatAgent.planner_config Sample.agent).
Proof. repeat split. cbn. discriminate. Qed.

(** A policy the constructor rejects: ["Auto"] is not one of the types
    it knows, the call raises and the agent keeps its policy. *)
Example set_planner_behavior_rejected :
  let o :=
    ChatAgent.set_planner_behavior Sample.assignment_fault Sample.behavior_fault
      true 5 None (Some "Auto") Sample.agent in
  ChatAgent.result o = inl (ExternalError "ValidationError: FunctionChoiceBehavior")
  /\ ChatAgent.final o = Sample.agent.
Proof. repeat split. Qed.

Lemma set_planner_behavior_replaces_witness :
  let o :=
    ChatAgent.set_planner_behavior Sample.assignment_fault Sample.behavior_fault
      true (-1) None (Some "required") Sample.agent in
  ChatAgent.result o = inr tt
  /\ function_choice_behavior (ChatAgent.planner_config (ChatAgent.final o))
     = Some (mkBehavior true (-1) None (Some "required")).
Proof.
  pose proof (set_planner_behavior_replaces Sample.assignment_fault Sample.behavior_fault
                true (-1) None (Some "required") Sample.agent) as (Hreturns & Hnew & _).
  cbv zeta in *. specialize (Hreturns eq_refl eq_refl).
  split; [exact Hreturns|]. exact (proj1 (Hnew Hreturns)).
Defined.

(** ** Skills *)

(** A loop keeps what each round keeps. *)
Lemma for_each_invariant {A} (P : ChatAgent.t -> Prop) (body : A -> ChatAgent.M unit)
    (l : list A) :
  (forall x self, P self -> P (ChatAgent.final (body x self))) ->
  forall self, P self -> P (ChatAgent.final (ChatAgent.for_each l body self)).
Proof.
  intros Hbody. induction l as [|x l IH]; intros self HP; [exact HP|].
  cbn [ChatAgent.for_each]. unfold ChatAgent.bind.
  specialize (Hbody x self HP).
  destruct (body x self) as [[e|[]] s sent]; cbn [ChatAgent.final] in *; [exact Hbody|].
  specialize (IH s Hbody).
  destruct (ChatAgent.for_each l body s) as [r s' sent']. exact IH.
Qed.

(** Projections of an agent that was just assigned to. *)
Ltac agent_simpl :=
  cbn [ChatAgent._skills_manager ChatAgent.with_skills_manager ChatAgent.with_kernel
       ChatAgent.kernel ChatAgent.final ChatAgent.result ChatAgent.calls
       services plugins].

Section SkillProperties.
Variable plugin_from_directory : string -> string -> exn + KernelPlugin.
Variable bundle_at : string -> option (list string).

Abbreviation load_skills := (ChatAgent.load_skills plugin_from_directory bundle_at).
Abbreviation load_skills_body := (ChatAgent.load_skills_body plugin_from_directory).

(** One round of the loop, spelled out. *)
Lemma load_skills_body_eq skill_name self :
  load_skills_body skill_name self
  = match Skills_get_skill skill_name (ChatAgent._skills_manager self) with
    | inl e => ChatAgent.mkOutcome (inl e) self []
    | inr plugin =>
        let name := basename (directory plugin) in
        if String.eqb name "" then
          ChatAgent.mkOutcome
            (inl (ValueError "plugin_name must be provided if a plugin is not supplied."))
            self []
        else
          match plugin_from_directory (dirname (directory plugin)) name with
          | inl e => ChatAgent.mkOutcome (inl e) self []
          | inr p =>
              ChatAgent.mkOutcome (inr tt)
                (ChatAgent.with_kernel
                   (mkKernel (services (ChatAgent.kernel self))
                      (<[name := p]> (plugins (ChatAgent.kernel self)))) self)
                []
          end
    end.
Proof.
  unfold ChatAgent.load_skills_body, ChatAgent.bind, ChatAgent.get, ChatAgent.lift,
    ChatAgent.try_except, ChatAgent.kernel_add_plugin, ChatAgent.raise.
  destruct (Skills_get_skill _ _) as [e|plugin]; [reflexivity|].
  cbv zeta. destruct (String.eqb _ ""); [reflexivity|].
  unfold ChatAgent.bind, ChatAgent.lift, ChatAgent.modify.
  destruct (plugin_from_directory _ _) as [e|p]; reflexivity.
Qed.

(** Loading skills touches the registry and the kernel only; in
    particular the history is as before, whether loading fails or not. *)
Lemma load_skills_chat_history names self :
  ChatAgent.chat_history (ChatAgent.final (load_skills names self))
  = ChatAgent.chat_history self.
Proof.
  unfold ChatAgent.load_skills, ChatAgent.bind at 1, ChatAgent.skills_manager_load_skills.
  destruct (Skills_load_skills bundle_at names (ChatAgent._skills_manager self))
    as [[e|[]] registry]; [reflexivity|].
  pose proof (for_each_invariant
    (fun a => ChatAgent.chat_history a = ChatAgent.chat_history self)
    load_skills_body names) as H.
  cbv beta in H.
  specialize (fun Hb => H Hb (ChatAgent.with_skills_manager registry self) eq_refl).
  destruct (ChatAgent.for_each names load_skills_body _) as [r s' sent'].
  apply H. clear. intros skill_name a Ha.
  rewrite load_skills_body_eq.
  destruct (Skills_get_skill _ _) as [e|plugin]; [exact Ha|].
  cbv zeta. destruct (String.eqb _ ""); [exact Ha|].
  destruct (plugin_from_directory _ _) as [e|p]; exact Ha.
Qed.

(** [load_skills([name])], spelled out. *)
Lemma load_skills_single name self :
  load_skills [name] self
  = match Skills_load_skill bundle_at name (ChatAgent._skills_manager self) with
    | (inl e, registry) =>
        ChatAgent.mkOutcome (inl e) (ChatAgent.with_skills_manager registry self) []
    | (inr _, registry) =>
        let o := load_skills_body name (ChatAgent.with_skills_manager registry self) in
        ChatAgent.mkOutcome (ChatAgent.result o) (ChatAgent.final o) []
    end.
Proof.
  unfold ChatAgent.load_skills, ChatAgent.bind at 1, ChatAgent.skills_manager_load_skills.
  cbn [Skills_load_skills ChatAgent.for_each].
  destruct (Skills_load_skill bundle_at name _) as [[e|[]] registry]; [reflexivity|].
  unfold ChatAgent.bind, ChatAgent.ret. rewrite load_skills_body_eq.
  destruct (Skills_get_skill _ _) as [e|plugin]; [reflexivity|].
  cbv zeta. destruct (String.eqb _ ""); [reflexivity|].
  destruct (plugin_from_directory _ _) as [e|p]; reflexivity.
Qed.

(** The registry after a load of [name], successful or not, answers a
    second load of [name] the same way and is left as it is. *)
Lemma Skills_load_skill_again name registry r registry' :
  Skills_load_skill bundle_at name registry = (r, registry') ->
  Skills_load_skill bundle_at name registry' = (r, registry').
Proof.
  unfold Skills_load_skill.
  destruct (loaded registry !! name) as [sk|] eqn:Hsk.
  - intros [= <- <-]. by rewrite Hsk.
  - destruct (bundle_at _) as [[|c caps]|] eqn:Hb.
    + intros [= <- <-]. by rewrite Hsk, Hb.
    + intros [= <- <-]. cbn [loaded]. by rewrite lookup_insert_eq.
    + intros [= <- <-]. by rewrite Hsk, Hb.
Qed.

(** C9. Loading a skill name a second time changes nothing: the agent
    after the second load, with its registry of activated skills and the
    plugins registered in its kernel, is the agent after the first, and the
    second load ends as the first did. *)
Theorem load_skills_idempotent name self :
  let once := load_skills [name] self in
  let twice := load_skills [name] (ChatAgent.final once) in
  ChatAgent.final twice = ChatAgent.final once
  /\ ChatAgent.result twice = ChatAgent.result once
  /\ Skills_activated (ChatAgent._skills_manager (ChatAgent.final twice))
     = Skills_activated (ChatAgent._skills_manager (ChatAgent.final once))
  /\ plugins (ChatAgent.kernel (ChatAgent.final twice))
     = plugins (ChatAgent.kernel (ChatAgent.final once)).
Proof.
  cbv zeta.
  assert (ChatAgent.final (load_skills [name] (ChatAgent.final (load_skills [name] self)))
          = ChatAgent.final (load_skills [name] self)
          /\ ChatAgent.result (load_skills [name] (ChatAgent.final (load_skills [name] self)))
            = ChatAgent.result (load_skills [name] self)) as [Hfinal Hresult];
    [|by rewrite Hfinal].
  rewrite (load_skills_single name self).
  destruct (Skills_load_skill bundle_at name (ChatAgent._skills_manager self))
    as [r registry] eqn:Hload.
  apply Skills_load_skill_again in Hload.
  destruct self as [? ? ? ? ? ? ? ? ? ? ? [svcs plugs] ? ? manager ? ? ?].
  cbn [ChatAgent._skills_manager ChatAgent.with_skills_manager] in *.
  destruct r as [e|[]].
  - agent_simpl. rewrite load_skills_single. agent_simpl. rewrite Hload. by agent_simpl.
  - rewrite !load_skills_body_eq. agent_simpl.
    destruct (Skills_get_skill name registry) as [e|plugin] eqn:Hget.
    + agent_simpl. rewrite load_skills_single. agent_simpl. rewrite Hload.
      rewrite load_skills_body_eq. agent_simpl. rewrite Hget. by agent_simpl.
    + cbv zeta. destruct (String.eqb (basename (directory plugin)) "") eqn:Hname.
      * agent_simpl. rewrite load_skills_single. agent_simpl. rewrite Hload.
        rewrite load_skills_body_eq. agent_simpl. rewrite Hget. cbv zeta.
        rewrite Hname. by agent_simpl.
      * destruct (plugin_from_directory _ _) as [e|p] eqn:Hp.
        -- agent_simpl. rewrite load_skills_single. agent_simpl. rewrite Hload.
           rewrite load_skills_body_eq. agent_simpl. rewrite Hget. cbv zeta.
           rewrite Hname, Hp. by agent_simpl.
        -- agent_simpl. rewrite load_skills_single. agent_simpl. rewrite Hload.
           rewrite load_skills_body_eq. agent_simpl. rewrite Hget. cbv zeta.
           rewrite Hname, Hp. agent_simpl. by rewrite insert_insert_eq.
Qed.
End SkillProperties.

(** ** Construction *)

Lemma append_assoc (a b c : string) : (a +:+ b) +:+ c = a +:+ b +:+ c.
Proof.
  induction a as [|x a IH]; [reflexivity|].
  change (String x ((a +:+ b) +:+ c) = String x (a +:+ b +:+ c)). by rewrite IH.
Qed.

Lemma append_nil_r (a : string) : a +:+ "" = a.
Proof.
  induction a as [|x a IH]; [reflexivity|].
  change (String x (a +:+ "") = String x a). by rewrite IH.
Qed.

Lemma names_append_r (msg key suffix : string) : names msg key -> names (msg +:+ suffix) key.
Proof.
  intros (before & after & ->). exists before, (after +:+ suffix).
  by rewrite !append_assoc.
Qed.

Lemma names_append_l (prefix msg key : string) : names msg key -> names (prefix +:+ msg) key.
Proof.
  intros (before & after & ->). exists (prefix +:+ before), after.
  by rewrite !append_assoc.
Qed.

Lemma join_names (sep : string) (l : list string) (key : string) :
  key ∈ l -> names (join sep l) key.
Proof.
  induction l as [|x [|y rest] IH]; intros Hin.
  - by apply elem_of_nil in Hin.
  - apply list_elem_of_singleton in Hin as ->. exists "", "".
    change (x = x +:+ ""). by rewrite append_nil_r.
  - apply elem_of_cons in Hin as [->|Hin].
    + exists "", (sep +:+ join sep (y :: rest)). reflexivity.
    + change (names (x +:+ sep +:+ join sep (y :: rest)) key).
      by apply names_append_l, names_append_l, IH.
Qed.

Lemma missing_message_names (missing : list string) (key : string) :
  key ∈ missing -> names (ChatAgent.missing_message missing) key.
Proof.
  intros Hin. unfold ChatAgent.missing_message.
  apply names_append_l. apply (names_append_r (join ", " missing)).
  by apply join_names.
Qed.

Lemma truthy_false (v : option string) : truthy v = false <-> unset_or_empty v.
Proof.
  unfold unset_or_empty. destruct v as [s|]; cbn; [|naive_solver].
  destruct (String.eqb_spec s "") as [->|Hne]; cbn; [naive_solver|].
  split; [discriminate|]. intros [|[= ->]]; congruence.
Qed.

Lemma elem_of_missing_vars (vars : list (string * option string)) (key : string) :
  key ∈ ChatAgent.missing_vars vars
  <-> exists value, (key, value) ∈ vars /\ unset_or_empty value.
Proof.
  unfold ChatAgent.missing_vars.
  rewrite list_elem_of_In, in_map_iff. split.
  - intros ([k v] & <- & Hin). apply filter_In in Hin as [Hin Hv].
    exists v. split; [by apply list_elem_of_In|].
    apply truthy_false. cbn in Hv. by destruct (truthy v).
  - intros (v & Hin & Hv). exists (key, v). split; [done|].
    apply filter_In. split; [by apply list_elem_of_In|].
    apply truthy_false in Hv. cbn. by rewrite Hv.
Qed.

Section Construction.
Variable plugin_from_directory : string -> string -> exn + KernelPlugin.
Variable bundle_at : string -> option (list string).
Variable service_fault : AzureChatCompletion.t -> option exn.
Variable cwd : string.

Abbreviation __init__ :=
  (ChatAgent.__init__ plugin_from_directory bundle_at service_fault cwd).

(** C3. Whatever the explicit values and the environment, if at least one
    of the four required settings resolves to an unset or empty value, the
    constructor raises the error for missing settings, and its message
    names every setting that is missing. *)
Theorem init_reports_every_missing_setting
    environ generated_id service_id name id description instructions skills
    planner_config planner_behavior tracing_enabled key endpoint version deployment :
  let resolved := resolved_vars environ key endpoint version deployment in
  (exists k v, (k, v) ∈ resolved /\ unset_or_empty v) ->
  exists msg,
    __init__ environ generated_id service_id name id description instructions skills
      planner_config planner_behavior tracing_enabled key endpoint version deployment
    = inl (ValueError msg)
    /\ forall k v, (k, v) ∈ resolved -> unset_or_empty v -> names msg k.
Proof.
  intros resolved (k0 & v0 & Hin0 & Hv0).
  unfold ChatAgent.__init__. fold (resolved_vars environ key endpoint version deployment).
  fold resolved.
  assert (k0 ∈ ChatAgent.missing_vars resolved) as Hk0
    by (apply elem_of_missing_vars; eauto).
  destruct (ChatAgent.missing_vars resolved) as [|m rest] eqn:Hmissing.
  - by apply elem_of_nil in Hk0.
  - exists (ChatAgent.missing_message (m :: rest)). split; [reflexivity|].
    intros k v Hin Hv. apply missing_message_names.
    rewrite <- Hmissing. apply elem_of_missing_vars. eauto.
Qed.

(** The message is the fixed text around the missing settings, and those
    only, joined in the order of the dictionary. *)
Lemma init_missing_message
    environ generated_id service_id name id description instructions skills
    planner_config planner_behavior tracing_enabled key endpoint version deployment :
  let missing :=
    ChatAgent.missing_vars (resolved_vars environ key endpoint version deployment) in
  missing <> [] ->
  __init__ environ generated_id service_id name id description instructions skills
    planner_config planner_behavior tracing_enabled key endpoint version deployment
  = inl (ValueError (ChatAgent.missing_message missing)).
Proof.
  intros missing Hne. unfold ChatAgent.__init__.
  fold (resolved_vars environ key endpoint version deployment). fold missing.
  by destruct missing.
Qed.

Lemma seed_supplied r text h :
  text <> "" -> ChatAgent.seed r (Some text) h = history_add r text h.
Proof.
  intros Hne. unfold ChatAgent.seed, truthy.
  by destruct (String.eqb_spec text "").
Qed.

(** C8, as amended. When construction succeeds with a description and
    instructions that are both supplied and not empty, the history is
    the description as a system message, then the instructions as a user
    message, and nothing else. *)
Theorem init_seeds_history
    environ generated_id service_id name id description instructions skills
    planner_config planner_behavior tracing_enabled key endpoint version deployment agent :
  description <> "" ->
  instructions <> "" ->
  __init__ environ generated_id service_id name id (Some description) (Some instructions)
    skills planner_config planner_behavior tracing_enabled key endpoint version deployment
  = inr agent ->
  messages (ChatAgent.chat_history agent)
  = [mkMessage SYSTEM description; mkMessage USER instructions].
Proof.
  intros Hd Hi. unfold ChatAgent.__init__.
  rewrite (seed_supplied SYSTEM description _ Hd), (seed_supplied USER instructions _ Hi).
  destruct (ChatAgent.missing_vars _); [|discriminate].
  destruct (ChatAgent._initialize_kernel _ _ _ _ _ _) as [e|kernel]; [discriminate|].
  destruct skills as [[|skill rest]|].
  - by intros [= <-].
  - match goal with
    | |- context [ChatAgent.load_skills _ _ ?l ?s] =>
        pose proof (load_skills_chat_history plugin_from_directory bundle_at l s) as Hh;
        destruct (ChatAgent.load_skills plugin_from_directory bundle_at l s)
          as [[e|[]] s' sent]
    end; [discriminate|].
    intros [= <-]. cbn [ChatAgent.final] in Hh. by rewrite Hh.
  - by intros [= <-].
Qed.
End Construction.

(** The sample agent is the one the constructor builds. *)
Lemma Sample_agent_constructed :
  ChatAgent.__init__ Sample.plugin_from_directory Sample.bundle_at Sample.service_fault
    Sample.cwd Sample.environ "49382716" None None None
    (Some "You are helpful") (Some "Be concise") None None None false None None None None
  = inr Sample.agent.
Proof. vm_compute. reflexivity. Qed.

(** With the key missing from the environment and the endpoint empty there,
    and neither passed explicitly, the message lists the two settings, in the
    order of the dictionary. *)
Lemma init_two_missing :
  ChatAgent.__init__ Sample.plugin_from_directory Sample.bundle_at Sample.service_fault
    Sample.cwd Sample.broken_environ "49382716" None None None
    None None None None None false None None None None
  = inl (ValueError
      ("Missing the following required Azure OpenAI settings: "
       +:+ "AZURE_OPENAI_KEY, AZURE_OPENAI_API_ENDPOINT. "
       +:+ "Check environment variables or pass them explicitly.")).
Proof. vm_compute. reflexivity. Qed.

Lemma init_reports_every_missing_setting_witness :
  exists msg,
    ChatAgent.__init__ Sample.plugin_from_directory Sample.bundle_at Sample.service_fault
      Sample.cwd Sample.broken_environ "49382716" None None None
      None None None None None false None None None None
    = inl (ValueError msg)
    /\ names msg "AZURE_OPENAI_KEY" /\ names msg "AZURE_OPENAI_API_ENDPOINT".
Proof.
  destruct (init_reports_every_missing_setting Sample.plugin_from_directory
              Sample.bundle_at Sample.service_fault Sample.cwd
              Sample.broken_environ "49382716" None None None
              None None None None None false None None None None
              ltac:(exists "AZURE_OPENAI_KEY", None; split; [vm_compute; left|by left]))
    as (msg & Hinit & Hnames).
  exists msg. split; [exact Hinit|]. split.
  - apply (Hnames "AZURE_OPENAI_KEY" None); [vm_compute; left|by left].
  - apply (Hnames "AZURE_OPENAI_API_ENDPOINT" (Some ""));
      [vm_compute; right; left|by right].
Defined.

(** C8, as stated, fails for a description that is supplied but empty: the
    constructor skips it, and the history holds the instructions only. *)
Lemma init_skips_empty_description :
  exists agent,
    ChatAgent.__init__ Sample.plugin_from_directory Sample.bundle_at Sample.service_fault
      Sample.cwd Sample.environ "49382716" None None None
      (Some "") (Some "Be concise") None None None false None None None None
    = inr agent
    /\ messages (ChatAgent.chat_history agent) = [mkMessage USER "Be concise"]
    /\ messages (ChatAgent.chat_history agent)
       <> [mkMessage SYSTEM ""; mkMessage USER "Be concise"].
Proof.
  eexists. split; [vm_compute; reflexivity|]. split; [reflexivity|discriminate].
Qed.

Lemma init_seeds_history_witness :
  messages (ChatAgent.chat_history Sample.agent)
  = [mkMessage SYSTEM "You are helpful"; mkMessage USER "Be concise"].
Proof.
  apply (init_seeds_history Sample.plugin_from_directory Sample.bundle_at
           Sample.service_fault Sample.cwd Sample.environ "49382716" None None None
           "You are helpful" "Be concise" None None None false None None None None
           Sample.agent);
    [discriminate|discriminate|vm_compute; reflexivity].
Defined.

(** Loading the sample bundle registers it once, however often it is loaded. *)
Lemma load_retrieval_twice :
  let once :=
    ChatAgent.load_skills Sample.plugin_from_directory Sample.bundle_at ["retrieval"]
      Sample.agent in
  let twice :=
    ChatAgent.load_skills Sample.plugin_from_directory Sample.bundle_at ["retrieval"]
      (ChatAgent.final once) in
  ChatAgent.result once = inr tt
  /\ Skills_activated (ChatAgent._skills_manager (ChatAgent.final twice)) = {[ "retrieval" ]}
  /\ plugins (ChatAgent.kernel (ChatAgent.final twice))
     = {[ "retrieval" := mkPlugin "retrieval" ["classify_query"; "icd10_lookup"] ]}.
Proof. vm_compute. repeat split. Qed.

(** * Further properties *)

(** ** [run], case by case *)

Section RunCases.
Variable get_chat_message_contents : AzureChatCompletion.t -> Request.t -> Reply.

Abbreviation run' := (ChatAgent.run get_chat_message_contents).

(** Every outcome of [run]: the prompts go in first; the call then fails
    before sending anything (the arguments cannot be built, or there is no
    service), or sends one request and ends as the provider's reply says. *)
Lemma run_eq sp up ra rs self :
  run' sp up ra rs self
  = let self1 := prompted sp up self in
    match KernelArguments_new (final_settings self rs) (final_args self ra) with
    | inl e => ChatAgent.mkOutcome (inl e) self1 []
    | inr ka =>
        match bound_service self with
        | inl e => ChatAgent.mkOutcome (inl e) self1 []
        | inr service =>
            let request :=
              Request.mk (ChatAgent.chat_history self1) (ChatAgent.planner_config self)
                (ChatAgent.kernel self) (setitem "input" (of_optional_str up) ka) in
            let reply := get_chat_message_contents service request in
            ChatAgent.mkOutcome
              (match reply_result reply with
               | inl e => inl e
               | inr (first :: _) => inr (VMessage first)
               | inr [] => inr (VStr "")
               end)
              (ChatAgent.with_chat_history
                 (mkHistory (messages (ChatAgent.chat_history self1) ++ reply_appended reply))
                 (ChatAgent.with_chat_completion (Some service) self1))
              [(service, request)]
        end
    end.
Proof.
  unfold prompted, bound_service, final_settings, final_args.
  destruct self as [? ? ? ? ? ? ? ? ? ? ? ? ? ? ? dargs dsettings cc].
  destruct sp as [s|], up as [u|];
    unfold ChatAgent.run, ChatAgent.if_given, ChatAgent.add_system_message,
         ChatAgent.add_user_message, ChatAgent.call_provider, ChatAgent.dict_update,
         ChatAgent.try_except, ChatAgent.bind, ChatAgent.get, ChatAgent.lift,
         ChatAgent.ret, ChatAgent.raise, ChatAgent.modify;
    cbn [ChatAgent.with_chat_history ChatAgent.with_chat_completion
         ChatAgent.result ChatAgent.final ChatAgent.calls
         ChatAgent._default_kernel_arguments ChatAgent._default_kernel_settings
         ChatAgent.chat_completion ChatAgent.kernel ChatAgent.chat_history
         ChatAgent.planner_config app].
  all: destruct (KernelArguments_new _ _) as [e|ka]; [reflexivity|].
  all: destruct cc as [svc|]; [|destruct (get_service _) as [e|svc]; [reflexivity|]].
  all: cbn [ChatAgent.with_chat_history ChatAgent.with_chat_completion
         ChatAgent.result ChatAgent.final ChatAgent.calls
         ChatAgent.chat_completion ChatAgent.kernel ChatAgent.chat_history
         ChatAgent.planner_config app].
  all: destruct (reply_result _) as [e|[|first rest]]; reflexivity.
Qed.
End RunCases.

Section RunEffects.
Variable get_chat_message_contents : AzureChatCompletion.t -> Request.t -> Reply.
Variable assignment_fault : AzureChatPromptExecutionSettings -> Assignment -> option exn.
Variable behavior_fault :
  bool -> Z -> option (gmap string (list string)) -> option string -> option exn.

Abbreviation run'' := (ChatAgent.run get_chat_message_contents).

(** The outcomes of [run], one goal per way the call can end. *)
Ltac run_cases sp up ra rs self :=
  rewrite (run_eq get_chat_message_contents sp up ra rs self); cbv zeta;
  destruct (KernelArguments_new (final_settings self rs) (final_args self ra)) as [?e|?ka] eqn:?Hka;
  [|destruct (bound_service self) as [?e|?service] eqn:?Hservice];
  cbn [ChatAgent.result ChatAgent.final ChatAgent.calls].

(** Every request [run] sends, spelled out. *)
Lemma run_requests sp up ra rs self :
  Forall
    (fun c =>
       bound_service self = inr (fst c)
       /\ exists ka,
           KernelArguments_new (final_settings self rs) (final_args self ra) = inr ka
           /\ snd c
              = Request.mk (ChatAgent.chat_history (prompted sp up self))
                  (ChatAgent.planner_config self) (ChatAgent.kernel self)
                  (setitem "input" (of_optional_str up) ka))
    (ChatAgent.calls (run'' sp up ra rs self)).
Proof. run_cases sp up ra rs self; repeat constructor. by exists ka. Qed.

(** The arguments of a request, once built. *)
Lemma KernelArguments_new_inr s kwargs ka :
  KernelArguments_new s kwargs = inr ka -> ka = mkArguments s kwargs.
Proof.
  unfold KernelArguments_new.
  destruct (_ !! "settings"); [discriminate|].
  destruct (_ !! "self"); [discriminate|]. by intros [= <-].
Qed.

(** X1. [run] only ever appends to the history: after the call, whether it
    returned or raised, the history is the one before it, then the prompts
    of the call, then the turns the provider itself added; the response
    [run] returns is not recorded. *)
Theorem run_history_grows sp up ra rs self :
  let o := run'' sp up ra rs self in
  messages (ChatAgent.chat_history (ChatAgent.final o))
  = messages (ChatAgent.chat_history self) ++ prompt_turns sp up
    ++ provider_turns get_chat_message_contents (ChatAgent.calls o).
Proof.
  cbv zeta. run_cases sp up ra rs self.
  - by rewrite prompted_messages, app_nil_r.
  - by rewrite prompted_messages, app_nil_r.
  - cbn [ChatAgent.with_chat_history ChatAgent.chat_history messages provider_turns
         flat_map fst snd].
    by rewrite prompted_messages, app_nil_r, <- app_assoc.
Qed.

(** X2. [run] sends at most one request, whatever the provider answers: a
    failed request is not sent again. *)
Theorem run_sends_at_most_one sp up ra rs self :
  (length (ChatAgent.calls (ChatAgent.run get_chat_message_contents sp up ra rs self))
   <= 1)%nat.
Proof. run_cases sp up ra rs self; cbn; lia. Qed.

(** X3. When the merged arguments hold the key ["settings"], the name of
    the keyword [run] itself passes to [KernelArguments], the call raises
    [TypeError] and sends nothing to the provider; the prompts of the call
    are in the history all the same. *)
Theorem run_settings_key_collides sp up ra rs self :
  is_Some (final_args self ra !! "settings") ->
  let o := run'' sp up ra rs self in
  (exists msg, ChatAgent.result o = inl (TypeError msg))
  /\ ChatAgent.calls o = []
  /\ messages (ChatAgent.chat_history (ChatAgent.final o))
     = messages (ChatAgent.chat_history self) ++ prompt_turns sp up.
Proof.
  intros [v Hv]. cbv zeta.
  rewrite (run_eq get_chat_message_contents sp up ra rs self). cbv zeta.
  unfold KernelArguments_new. rewrite Hv.
  cbn [ChatAgent.result ChatAgent.final ChatAgent.calls].
  split; [by eexists|]. split; [done|]. apply prompted_messages.
Qed.

(** X4. [run] changes nothing of the agent but its history and the service
    it is bound to: with these two put back, the agent is the one before the
    call.  Default arguments, default settings, planner configuration,
    kernel and skills are as they were, in every outcome. *)
Theorem run_frame sp up ra rs self :
  let o := run'' sp up ra rs self in
  ChatAgent.with_chat_history (ChatAgent.chat_history self)
    (ChatAgent.with_chat_completion (ChatAgent.chat_completion self) (ChatAgent.final o))
  = self.
Proof.
  cbv zeta. run_cases sp up ra rs self.
  all: destruct self; by destruct sp, up.
Qed.

(** X5. The service is bound once.  A call that sends a request leaves the
    agent bound to the service it went through; and an agent that is bound
    stays bound to that service and sends every request through it, whatever
    its kernel holds. *)
Theorem run_binds_service_once sp up ra rs self :
  let o := ChatAgent.run get_chat_message_contents sp up ra rs self in
  Forall (fun c => ChatAgent.chat_completion (ChatAgent.final o) = Some (fst c))
    (ChatAgent.calls o)
  /\ (forall bound, ChatAgent.chat_completion self = Some bound ->
      ChatAgent.chat_completion (ChatAgent.final o) = Some bound
      /\ Forall (fun c => fst c = bound) (ChatAgent.calls o)).
Proof.
  cbv zeta. run_cases sp up ra rs self.
  - split; [constructor|]. intros bound Hb. split; [|constructor].
    by destruct (prompted_frame sp up self) as (_ & _ & -> & _).
  - split; [constructor|]. intros bound Hb. split; [|constructor].
    by destruct (prompted_frame sp up self) as (_ & _ & -> & _).
  - split; [by repeat constructor|]. intros bound Hb.
    unfold bound_service in Hservice. rewrite Hb in Hservice.
    injection Hservice as <-. by repeat constructor.
Qed.

(** X6. The request [run] sends carries the history as it is once the
    prompts of the call are appended (the history before, then the prompts),
    and the agent's kernel. *)
Theorem run_request_history sp up ra rs self :
  Forall
    (fun c =>
       messages (Request.chat_history (snd c))
       = messages (ChatAgent.chat_history self) ++ prompt_turns sp up
       /\ Request.kernel (snd c) = ChatAgent.kernel self)
    (ChatAgent.calls (run'' sp up ra rs self)).
Proof.
  eapply Forall_impl; [apply run_requests|].
  intros [service request] (_ & ka & _ & ->). split; [|reflexivity].
  apply prompted_messages.
Qed.

(** X7. After [clear_chat_history], the next request carries the prompts
    of its own call and nothing else: the description and instructions seeded
    at construction are gone from the history and are not put back. *)
Theorem run_after_clear sp up ra rs self :
  let cleared := ChatAgent.final (ChatAgent.clear_chat_history self) in
  messages (ChatAgent.chat_history cleared) = []
  /\ Forall (fun c => messages (Request.chat_history (snd c)) = prompt_turns sp up)
       (ChatAgent.calls (run'' sp up ra rs cleared)).
Proof.
  cbv zeta. split; [reflexivity|].
  eapply Forall_impl; [apply run_requests|].
  intros [service request] (_ & ka & _ & ->).
  cbn [snd Request.chat_history]. by rewrite prompted_messages.
Qed.

(** X8. A sampling update that returns normally reaches the provider: the
    request of a [run] that follows [set_planner_execution_settings] carries,
    as its [settings], the supplied value in every field the update supplied,
    the earlier value in the others, and for [stream] the supplied value or
    [False]. *)
Theorem run_after_sampling_update t p pp fp mt n ss st u fc sp up ra rs self :
  let before := ChatAgent.planner_config self in
  let update :=
    ChatAgent.set_planner_execution_settings assignment_fault t p pp fp mt n ss st u fc
      self in
  ChatAgent.result update = inr tt ->
  Forall
    (fun c =>
       Request.settings (snd c)
       = mkSettings
           (match t with Some _ => t | None => temperature before end)
           (match p with Some _ => p | None => top_p before end)
           (match pp with Some _ => pp | None => presence_penalty before end)
           (match fp with Some _ => fp | None => frequency_penalty before end)
           (match mt with Some _ => mt | None => max_tokens before end)
           (match n with Some _ => n | None => number_of_responses before end)
           (match ss with Some _ => ss | None => stop before end)
           (default false st)
           (match u with Some _ => u | None => user before end)
           (match fc with Some _ => fc | None => function_call before end)
           (function_choice_behavior before))
    (ChatAgent.calls (run'' sp up ra rs (ChatAgent.final update))).
Proof.
  cbv zeta. intros Hres.
  rewrite (set_planner_execution_settings_final assignment_fault
             t p pp fp mt n ss st u fc self Hres).
  eapply Forall_impl; [apply run_requests|].
  intros [service request] (_ & ka & _ & ->). reflexivity.
Qed.

(** X9. A function-choice policy set through [set_planner_behavior]
    reaches the provider as it was given: when the update returns normally,
    the request of a [run] that follows carries that policy, a negative
    [max_auto_invoke_attempts] included, and the sampling fields as they
    were; when the update raises, the request carries the planner
    configuration as it was before the update. *)
Theorem run_after_behavior_update enable attempts filters behavior_type sp up ra rs self :
  let update :=
    ChatAgent.set_planner_behavior assignment_fault behavior_fault enable attempts filters
      behavior_type self in
  (ChatAgent.result update = inr tt ->
   Forall
     (fun c =>
        Request.settings (snd c)
        = set_function_choice_behavior
            (Some (mkBehavior enable attempts filters behavior_type))
            (ChatAgent.planner_config self))
     (ChatAgent.calls (run'' sp up ra rs (ChatAgent.final update))))
  /\ (forall e, ChatAgent.result update = inl e ->
      Forall (fun c => Request.settings (snd c) = ChatAgent.planner_config self)
        (ChatAgent.calls (run'' sp up ra rs (ChatAgent.final update)))).
Proof.
  cbv zeta. rewrite set_planner_behavior_eq. cbv zeta.
  destruct (behavior_fault _ _ _ _) as [e|];
    [|destruct (assignment_fault _ _) as [e|]];
    cbn [ChatAgent.result ChatAgent.final].
  1,2: split; [discriminate|]; intros _ _.
  3: split; [intros _|discriminate].
  all: eapply Forall_impl; [apply run_requests|].
  all: intros [service request] (_ & ka & _ & ->); reflexivity.
Qed.

(** X10. [configure_kernel_arguments] replaces the defaults wholesale:
    the request of a [run] that follows merges the call's arguments with the
    configured ones only ([None] configured meaning none), then sets
    ["input"]; its settings are the call's, else the configured ones.  What
    the defaults were before the configuration plays no part. *)
Theorem run_after_configure arguments settings sp up ra rs self :
  let configured :=
    ChatAgent.final (ChatAgent.configure_kernel_arguments arguments settings self) in
  Forall
    (fun c =>
       items (Request.arguments (snd c))
       = <["input" := of_optional_str up]> (default ∅ ra ∪ default ∅ arguments)
       /\ settings_arg (Request.arguments (snd c))
          = match rs with Some s => Some s | None => settings end)
    (ChatAgent.calls (run'' sp up ra rs configured)).
Proof.
  cbv zeta. eapply Forall_impl; [apply run_requests|].
  intros [service request] (_ & ka & Hka & ->).
  apply KernelArguments_new_inr in Hka as ->.
  cbn [snd Request.arguments setitem items settings_arg].
  unfold final_args, final_settings.
  cbn [ChatAgent.configure_kernel_arguments ChatAgent.bind ChatAgent.modify ChatAgent.final
       ChatAgent.with_default_kernel_arguments ChatAgent.with_default_kernel_settings
       ChatAgent._default_kernel_arguments ChatAgent._default_kernel_settings].
  split; [|reflexivity].
  destruct ra as [extra|]; cbn [default]; [reflexivity|].
  by rewrite (left_id_L ∅ (∪)).
Qed.
End RunEffects.

Lemma run_settings_key_collides_witness :
  let o :=
    ChatAgent.run (Sample.answering [Sample.four]) None (Some "2+2?")
      (Some Scenario.settings_key) None Sample.agent in
  (exists msg, ChatAgent.result o = inl (TypeError msg))
  /\ ChatAgent.calls o = []
  /\ messages (ChatAgent.chat_history (ChatAgent.final o))
     = [mkMessage SYSTEM "You are helpful"; mkMessage USER "Be concise";
        mkMessage USER "2+2?"].
Proof.
  apply (run_settings_key_collides (Sample.answering [Sample.four]) None (Some "2+2?")
           (Some Scenario.settings_key) None Sample.agent).
  vm_compute. by eexists.
Defined.

Lemma run_binds_service_once_witness :
  let o :=
    ChatAgent.run (Sample.answering [Sample.four]) None (Some "2+2?") None None
      Scenario.agent_bound in
  ChatAgent.chat_completion (ChatAgent.final o) = Some Scenario.other_service
  /\ Forall (fun c => fst c = Scenario.other_service) (ChatAgent.calls o).
Proof.
  apply (proj2 (run_binds_service_once (Sample.answering [Sample.four]) None
                  (Some "2+2?") None None Scenario.agent_bound)
           Scenario.other_service eq_refl).
Defined.

Lemma run_after_sampling_update_witness :
  Forall
    (fun c =>
       Request.settings (snd c)
       = mkSettings (Some (7 # 10)%Q) None None None (Some 256%Z) None None false None None
           (Some FunctionChoiceBehavior_Auto))
    (ChatAgent.calls
       (ChatAgent.run (Sample.answering [Sample.four]) None (Some "2+2?") None None
          (ChatAgent.final
             (ChatAgent.set_planner_execution_settings Sample.assignment_fault
                (Some (7 # 10)%Q) None None None (Some 256%Z) None None None None None
                Sample.agent)))).
Proof.
  apply (run_after_sampling_update (Sample.answering [Sample.four])
           Sample.assignment_fault (Some (7 # 10)%Q) None None None (Some 256%Z) None None
           None None None None (Some "2+2?") None None Sample.agent).
  vm_compute. reflexivity.
Defined.

Lemma run_after_behavior_update_witness :
  Forall
    (fun c =>
       Request.settings (snd c)
       = set_function_choice_behavior (Some (mkBehavior true (-1) None (Some "required")))
           (ChatAgent.planner_config Sample.agent))
    (ChatAgent.calls
       (ChatAgent.run (Sample.answering [Sample.four]) None (Some "2+2?") None None
          (ChatAgent.final
             (ChatAgent.set_planner_behavior Sample.assignment_fault Sample.behavior_fault
                true (-1) None (Some "required") Sample.agent)))).
Proof.
  apply (proj1 (run_after_behavior_update (Sample.answering [Sample.four])
                  Sample.assignment_fault Sample.behavior_fault true (-1) None
                  (Some "required") None (Some "2+2?") None None Sample.agent)).
  vm_compute. reflexivity.
Defined.

(** ** History and planner configuration, call after call *)

Lemma with_chat_history_twice h h' a :
  ChatAgent.with_chat_history h (ChatAgent.with_chat_history h' a)
  = ChatAgent.with_chat_history h a.
Proof. by destruct a. Qed.

Lemma with_chat_history_same a :
  ChatAgent.with_chat_history (ChatAgent.chat_history a) a = a.
Proof. by destruct a. Qed.

(** X11. History calls take effect in the order they are made: after any
    sequence of [add_system_message] and [add_user_message] calls the history
    is the one before, followed by one turn per call, in call order; no call
    fails and nothing else of the agent changes. *)
Theorem history_calls_in_order (calls : list HistoryCall) (self : ChatAgent.t) :
  let o := ChatAgent.for_each calls perform self in
  ChatAgent.result o = inr tt
  /\ messages (ChatAgent.chat_history (ChatAgent.final o))
     = messages (ChatAgent.chat_history self) ++ map turn_of calls
  /\ ChatAgent.with_chat_history (ChatAgent.chat_history self) (ChatAgent.final o) = self.
Proof.
  cbv zeta. revert self. induction calls as [|c calls IH]; intros self.
  - cbn [ChatAgent.for_each map ChatAgent.ret ChatAgent.result ChatAgent.final].
    by rewrite app_nil_r, with_chat_history_same.
  - cbn [ChatAgent.for_each map]. unfold ChatAgent.bind.
    assert (perform c self
            = ChatAgent.mkOutcome (inr tt)
                (ChatAgent.with_chat_history
                   (mkHistory (messages (ChatAgent.chat_history self) ++ [turn_of c])) self)
                []) as -> by (by destruct c).
    specialize (IH (ChatAgent.with_chat_history
                      (mkHistory (messages (ChatAgent.chat_history self) ++ [turn_of c]))
                      self)).
    destruct (ChatAgent.for_each calls perform _) as [r s sent].
    cbn [ChatAgent.result ChatAgent.final ChatAgent.with_chat_history
         ChatAgent.chat_history messages] in *.
    destruct IH as (-> & -> & Hframe). split; [done|].
    split; [by rewrite <- app_assoc|].
    apply (f_equal (ChatAgent.with_chat_history (ChatAgent.chat_history self))) in Hframe.
    by rewrite !with_chat_history_twice, with_chat_history_same in Hframe.
Qed.

(** Putting the policy back undoes an assignment of the policy. *)
Lemma set_function_choice_behavior_back new c :
  set_function_choice_behavior (function_choice_behavior c)
    (set_function_choice_behavior new c) = c.
Proof. by destruct c. Qed.

Lemma set_function_choice_behavior_same c :
  set_function_choice_behavior (function_choice_behavior c) c = c.
Proof. by destruct c. Qed.

Section PlannerAlgebra.
Variable assignment_fault : AzureChatPromptExecutionSettings -> Assignment -> option exn.
Variable behavior_fault :
  bool -> Z -> option (gmap string (list string)) -> option string -> option exn.
Implicit Types (t p pp fp : option Q) (mt n : option Z) (ss : option (list string)).
Implicit Types (st : option bool) (u fc : option string) (self : ChatAgent.t).

(** X12. Two sampling updates in a row that both return normally amount
    to one: each field holds the value of the second call where it supplies
    one, else that of the first call where it supplies one, else its value
    before; [stream] is that of the second call.  The single call that
    supplies these values, when it returns normally too, leaves the same
    agent. *)
Theorem sampling_updates_compose
    t p pp fp mt n ss st u fc t' p' pp' fp' mt' n' ss' st' u' fc' self :
  let before := ChatAgent.planner_config self in
  let first :=
    ChatAgent.set_planner_execution_settings assignment_fault t p pp fp mt n ss st u fc
      self in
  let second :=
    ChatAgent.set_planner_execution_settings assignment_fault t' p' pp' fp' mt' n' ss' st'
      u' fc' (ChatAgent.final first) in
  let merged :=
    ChatAgent.set_planner_execution_settings assignment_fault (later t' t) (later p' p)
      (later pp' pp) (later fp' fp) (later mt' mt) (later n' n) (later ss' ss) st'
      (later u' u) (later fc' fc) self in
  ChatAgent.result first = inr tt ->
  ChatAgent.result second = inr tt ->
  ChatAgent.final second
  = ChatAgent.with_planner_config
      (mkSettings
         (later t' (later t (temperature before)))
         (later p' (later p (top_p before)))
         (later pp' (later pp (presence_penalty before)))
         (later fp' (later fp (frequency_penalty before)))
         (later mt' (later mt (max_tokens before)))
         (later n' (later n (number_of_responses before)))
         (later ss' (later ss (stop before)))
         (default false st')
         (later u' (later u (user before)))
         (later fc' (later fc (function_call before)))
         (function_choice_behavior before))
      self
  /\ (ChatAgent.result merged = inr tt -> ChatAgent.final merged = ChatAgent.final second).
Proof.
  cbv zeta. intros Hfirst Hsecond.
  rewrite (set_planner_execution_settings_final assignment_fault
             t' p' pp' fp' mt' n' ss' st' u' fc' _ Hsecond).
  rewrite (set_planner_execution_settings_final assignment_fault
             t p pp fp mt n ss st u fc self Hfirst).
  rewrite planner_config_with, with_planner_config_twice.
  cbn [temperature top_p presence_penalty frequency_penalty max_tokens
       number_of_responses stop stream user function_call function_choice_behavior].
  split.
  - done.
  - intros Hmerged.
    rewrite (set_planner_execution_settings_final assignment_fault
               _ _ _ _ _ _ _ _ _ _ self Hmerged).
    unfold later. f_equal. f_equal; repeat case_match; congruence.
Qed.

(** X13. Sampling updates and policy updates do not interfere.  The
    policy survives a sampling update, in every outcome of the update; the
    sampling fields survive a policy update, in every outcome: with the
    policy of before put back, the planner configuration is the one before.
    And when the two updates return normally in either order, both orders
    leave the same agent. *)
Theorem sampling_and_behavior_commute
    t p pp fp mt n ss st u fc enable attempts filters behavior_type self :
  let sampling :=
    ChatAgent.set_planner_execution_settings assignment_fault t p pp fp mt n ss st u fc in
  let policy :=
    ChatAgent.set_planner_behavior assignment_fault behavior_fault enable attempts filters
      behavior_type in
  function_choice_behavior (ChatAgent.planner_config (ChatAgent.final (sampling self)))
  = function_choice_behavior (ChatAgent.planner_config self)
  /\ set_function_choice_behavior (function_choice_behavior (ChatAgent.planner_config self))
       (ChatAgent.planner_config (ChatAgent.final (policy self)))
     = ChatAgent.planner_config self
  /\ (ChatAgent.result (sampling self) = inr tt ->
      ChatAgent.result (policy (ChatAgent.final (sampling self))) = inr tt ->
      ChatAgent.result (policy self) = inr tt ->
      ChatAgent.result (sampling (ChatAgent.final (policy self))) = inr tt ->
      ChatAgent.final (policy (ChatAgent.final (sampling self)))
      = ChatAgent.final (sampling (ChatAgent.final (policy self)))).
Proof.
  cbv zeta. split; [|split].
  - destruct (set_planner_execution_settings_outcome assignment_fault
                t p pp fp mt n ss st u fc self) as (_ & front & -> & Hcase).
    rewrite planner_config_with. apply stores_keeps.
    assert (Forall (fun a => forall c,
                      function_choice_behavior (store a c) = function_choice_behavior c)
              (assignments t p pp fp mt n ss st u fc)) as Hall.
    { unfold assignments.
      repeat first [ apply Forall_app_2 | by apply Forall_supplied
                   | by repeat constructor ]. }
    destruct Hcase as [[_ ->]|(e & a & rest & _ & Hl & _)]; [done|].
    rewrite Hl in Hall. by apply Forall_app in Hall as [? _].
  - rewrite set_planner_behavior_eq. cbv zeta.
    destruct (behavior_fault _ _ _ _) as [e|];
      [|destruct (assignment_fault _ _) as [e|]];
      cbn [ChatAgent.final].
    + apply set_function_choice_behavior_same.
    + apply set_function_choice_behavior_same.
    + rewrite planner_config_with. apply set_function_choice_behavior_back.
  - intros Hs Hps Hp Hsp.
    rewrite (set_planner_execution_settings_final assignment_fault
               t p pp fp mt n ss st u fc _ Hsp).
    rewrite set_planner_behavior_eq in Hps, Hp |- *.
    rewrite (set_planner_behavior_eq _ _ enable attempts filters behavior_type self).
    destruct (behavior_fault _ _ _ _) as [e|]; [discriminate|]. cbv zeta in *.
    destruct (assignment_fault (ChatAgent.planner_config self) _) as [e|];
      [discriminate|].
    destruct (assignment_fault (ChatAgent.planner_config (ChatAgent.final _)) _) as [e|];
      [discriminate|].
    cbn [ChatAgent.final].
    rewrite (set_planner_execution_settings_final assignment_fault
               t p pp fp mt n ss st u fc self Hs).
    rewrite !planner_config_with, !with_planner_config_twice.
    reflexivity.
Qed.
End PlannerAlgebra.

Lemma sampling_updates_compose_witness :
  ChatAgent.planner_config
    (ChatAgent.final
       (ChatAgent.set_planner_execution_settings Sample.assignment_fault None
          (Some (9 # 10)%Q) None None None None None None None None
          (ChatAgent.final
             (ChatAgent.set_planner_execution_settings Sample.assignment_fault
                (Some (7 # 10)%Q) None None None None None None (Some true) None None
                Sample.agent))))
  = mkSettings (Some (7 # 10)%Q) (Some (9 # 10)%Q) None None None None None false None None
      (Some FunctionChoiceBehavior_Auto).
Proof.
  rewrite (proj1 (sampling_updates_compose Sample.assignment_fault
                    (Some (7 # 10)%Q) None None None None None None (Some true) None None
                    None (Some (9 # 10)%Q) None None None None None None None None
                    Sample.agent ltac:(vm_compute; reflexivity)
                    ltac:(vm_compute; reflexivity))).
  reflexivity.
Defined.

Lemma sampling_and_behavior_commute_witness :
  ChatAgent.final
    (ChatAgent.set_planner_behavior Sample.assignment_fault Sample.behavior_fault
       false 0 None (Some "none")
       (ChatAgent.final
          (ChatAgent.set_planner_execution_settings Sample.assignment_fault
             (Some (7 # 10)%Q) None None None None None None None None None
             Sample.agent)))
  = ChatAgent.final
      (ChatAgent.set_planner_execution_settings Sample.assignment_fault
         (Some (7 # 10)%Q) None None None None None None None None None
         (ChatAgent.final
            (ChatAgent.set_planner_behavior Sample.assignment_fault Sample.behavior_fault
               false 0 None (Some "none") Sample.agent))).
Proof.
  apply (proj2 (proj2 (sampling_and_behavior_commute Sample.assignment_fault
                         Sample.behavior_fault (Some (7 # 10)%Q) None None None None None
                         None None None None false 0 None (Some "none") Sample.agent)));
    vm_compute; reflexivity.
Defined.

(** ** Loading skills, and construction, in more detail *)

Lemma with_kernel_twice k k' a :
  ChatAgent.with_kernel k (ChatAgent.with_kernel k' a) = ChatAgent.with_kernel k a.
Proof. by destruct a. Qed.

Section SkillEffects.
Variable plugin_from_directory : string -> string -> exn + KernelPlugin.
Variable bundle_at : string -> option (list string).

Abbreviation load_skills' := (ChatAgent.load_skills plugin_from_directory bundle_at).
Abbreviation load_skills_body' := (ChatAgent.load_skills_body plugin_from_directory).

(** Whatever [load_skills] does, it does to the registry and to the
    plugins of the kernel. *)
Lemma load_skills_reach names self :
  exists registry plugs,
    ChatAgent.final (load_skills' names self)
    = ChatAgent.with_kernel (mkKernel (services (ChatAgent.kernel self)) plugs)
        (ChatAgent.with_skills_manager registry self).
Proof.
  unfold ChatAgent.load_skills, ChatAgent.bind at 1, ChatAgent.skills_manager_load_skills.
  destruct (Skills_load_skills bundle_at names (ChatAgent._skills_manager self))
    as [[e|[]] registry].
  - exists registry, (plugins (ChatAgent.kernel self)).
    by destruct self as [? ? ? ? ? ? ? ? ? ? ? [? ?] ? ? ? ? ? ?].
  - pose proof (for_each_invariant
      (fun a => exists plugs,
         a = ChatAgent.with_kernel (mkKernel (services (ChatAgent.kernel self)) plugs)
               (ChatAgent.with_skills_manager registry self))
      load_skills_body' names) as H.
    cbv beta in H.
    specialize (fun Hb => H Hb (ChatAgent.with_skills_manager registry self)).
    destruct (ChatAgent.for_each names load_skills_body' _) as [r s' sent'].
    cbn [ChatAgent.final] in *. exists registry. apply H.
    + clear. intros skill_name a [plugs ->].
      rewrite load_skills_body_eq.
      destruct (Skills_get_skill _ _) as [e|plugin]; [by exists plugs|].
      cbv zeta. destruct (String.eqb _ ""); [by exists plugs|].
      destruct (plugin_from_directory _ _) as [e|p]; [by exists plugs|].
      cbn [ChatAgent.final]. eexists. by rewrite with_kernel_twice.
    + exists (plugins (ChatAgent.kernel self)).
      by destruct self as [? ? ? ? ? ? ? ? ? ? ? [? ?] ? ? ? ? ? ?].
Qed.

(** [load_skills] sends nothing to the provider. *)
Lemma load_skills_sends_nothing names self :
  ChatAgent.calls (load_skills' names self) = [].
Proof.
  unfold ChatAgent.load_skills, ChatAgent.bind at 1, ChatAgent.skills_manager_load_skills.
  destruct (Skills_load_skills bundle_at names (ChatAgent._skills_manager self))
    as [[e|[]] registry]; [reflexivity|].
  assert (forall s, ChatAgent.calls (ChatAgent.for_each names load_skills_body' s) = [])
    as Hloop.
  { induction names as [|skill_name names IH]; intros s; [reflexivity|].
    cbn [ChatAgent.for_each]. unfold ChatAgent.bind. rewrite load_skills_body_eq.
    destruct (Skills_get_skill _ _) as [e|plugin]; [reflexivity|].
    cbv zeta. destruct (String.eqb _ ""); [reflexivity|].
    destruct (plugin_from_directory _ _) as [e|p]; [reflexivity|].
    specialize (IH (ChatAgent.with_kernel
                      (mkKernel (services (ChatAgent.kernel s))
                         (<[basename (directory plugin) := p]>
                            (plugins (ChatAgent.kernel s)))) s)).
    destruct (ChatAgent.for_each names load_skills_body' _) as [r s' sent'].
    exact IH. }
  specialize (Hloop (ChatAgent.with_skills_manager registry self)).
  destruct (ChatAgent.for_each names load_skills_body' _) as [r s' sent'].
  exact Hloop.
Qed.

(** X14. [load_skills] reaches nothing but the skill registry and the
    plugins of the kernel: in every outcome nothing is sent to the provider,
    and the history, the planner configuration and behaviour, the default
    arguments and settings, the bound service and the services of the kernel
    are as before. *)
Theorem load_skills_frame names self :
  let o := load_skills' names self in
  ChatAgent.calls o = []
  /\ ChatAgent.chat_history (ChatAgent.final o) = ChatAgent.chat_history self
  /\ ChatAgent.planner_config (ChatAgent.final o) = ChatAgent.planner_config self
  /\ ChatAgent.planner_behavior (ChatAgent.final o) = ChatAgent.planner_behavior self
  /\ ChatAgent._default_kernel_arguments (ChatAgent.final o)
     = ChatAgent._default_kernel_arguments self
  /\ ChatAgent._default_kernel_settings (ChatAgent.final o)
     = ChatAgent._default_kernel_settings self
  /\ ChatAgent.chat_completion (ChatAgent.final o) = ChatAgent.chat_completion self
  /\ services (ChatAgent.kernel (ChatAgent.final o)) = services (ChatAgent.kernel self).
Proof.
  cbv zeta. split; [apply load_skills_sends_nothing|].
  destruct (load_skills_reach names self) as (registry & plugs & ->).
  by destruct self.
Qed.
End SkillEffects.

Section ConstructionFacts.
Variable plugin_from_directory : string -> string -> exn + KernelPlugin.
Variable bundle_at : string -> option (list string).
Variable service_fault : AzureChatCompletion.t -> option exn.
Variable cwd : string.
Variable assignment_fault : AzureChatPromptExecutionSettings -> Assignment -> option exn.
Variable behavior_fault :
  bool -> Z -> option (gmap string (list string)) -> option string -> option exn.

Abbreviation init :=
  (ChatAgent.__init__ plugin_from_directory bundle_at service_fault cwd).

(** What a successful construction has gone through, and what it built. *)
Lemma init_inr
    environ generated_id service_id name id description instructions skills
    planner_config planner_behavior tracing_enabled key endpoint version deployment agent :
  init environ generated_id service_id name id description instructions skills
    planner_config planner_behavior tracing_enabled key endpoint version deployment
  = inr agent ->
  let service := constructed_service environ service_id key endpoint version deployment in
  let config := default ChatAgent._configure_planner_config planner_config in
  ChatAgent.missing_vars (resolved_vars environ key endpoint version deployment) = []
  /\ service_fault service = None
  /\ exists registry plugs,
      agent
      = ChatAgent.mk name tracing_enabled (default generated_id id) description instructions
          (ChatAgent.seed USER instructions
             (ChatAgent.seed SYSTEM description ChatHistory_new))
          (AzureChatCompletion.api_key service) (AzureChatCompletion.endpoint service)
          (AzureChatCompletion.api_version service)
          (AzureChatCompletion.deployment_name service)
          (AzureChatCompletion.service_id service)
          (mkKernel [service] plugs) config
          (match planner_behavior with
           | Some b => Some b
           | None => function_choice_behavior config
           end)
          registry ∅ None None.
Proof.
  unfold ChatAgent.__init__, constructed_service.
  fold (resolved_vars environ key endpoint version deployment).
  destruct (ChatAgent.missing_vars _); [|discriminate].
  unfold ChatAgent._initialize_kernel.
  destruct (service_fault _); [discriminate|].
  cbv zeta. intros H. split; [done|]. split; [done|].
  destruct skills as [[|skill rest]|].
  - injection H as <-. by eexists _, _.
  - match type of H with
    | context [ChatAgent.load_skills _ _ ?l ?a] =>
        destruct (load_skills_reach plugin_from_directory bundle_at l a)
          as (registry & plugs & Hreach);
        destruct (ChatAgent.load_skills plugin_from_directory bundle_at l a)
          as [[e|[]] s' sent]
    end; [discriminate|].
    cbn [ChatAgent.result ChatAgent.final] in *. injection H as <-.
    exists registry, plugs. by rewrite Hreach.
  - injection H as <-. by eexists _, _.
Qed.

Lemma missing_vars_nil vars k v :
  ChatAgent.missing_vars vars = [] -> (k, v) ∈ vars -> truthy v = true.
Proof.
  intros Hnil Hin. destruct (truthy v) eqn:Hv; [done|].
  assert (k ∈ ChatAgent.missing_vars vars) as Hk.
  { apply elem_of_missing_vars. exists v. by rewrite <- truthy_false. }
  rewrite Hnil in Hk. by apply elem_of_nil in Hk.
Qed.

(** X15. An agent that was constructed holds the four settings resolved,
    each the explicit argument where that is truthy and the environment's
    value otherwise, and none of them unset or empty. *)
Theorem init_settings_resolved
    environ generated_id service_id name id description instructions skills
    planner_config planner_behavior tracing_enabled key endpoint version deployment agent :
  init environ generated_id service_id name id description instructions skills
    planner_config planner_behavior tracing_enabled key endpoint version deployment
  = inr agent ->
  (ChatAgent.AZURE_OPENAI_KEY agent = py_or key (environ !! "AZURE_OPENAI_KEY")
   /\ ChatAgent.AZURE_OPENAI_API_ENDPOINT agent
      = py_or endpoint (environ !! "AZURE_OPENAI_API_ENDPOINT")
   /\ ChatAgent.AZURE_OPENAI_API_VERSION agent
      = py_or version (environ !! "AZURE_OPENAI_API_VERSION")
   /\ ChatAgent.AZURE_AOAI_CHAT_MODEL_NAME_DEPLOYMENT_ID agent
      = py_or deployment (environ !! "AZURE_AOAI_CHAT_MODEL_NAME_DEPLOYMENT_ID"))
  /\ (~ unset_or_empty (ChatAgent.AZURE_OPENAI_KEY agent)
      /\ ~ unset_or_empty (ChatAgent.AZURE_OPENAI_API_ENDPOINT agent)
      /\ ~ unset_or_empty (ChatAgent.AZURE_OPENAI_API_VERSION agent)
      /\ ~ unset_or_empty (ChatAgent.AZURE_AOAI_CHAT_MODEL_NAME_DEPLOYMENT_ID agent)).
Proof.
  intros H. apply init_inr in H as (Hmissing & _ & registry & plugs & ->).
  cbn [ChatAgent.AZURE_OPENAI_KEY ChatAgent.AZURE_OPENAI_API_ENDPOINT
       ChatAgent.AZURE_OPENAI_API_VERSION ChatAgent.AZURE_AOAI_CHAT_MODEL_NAME_DEPLOYMENT_ID
       constructed_service AzureChatCompletion.api_key AzureChatCompletion.endpoint
       AzureChatCompletion.api_version AzureChatCompletion.deployment_name].
  split; [done|].
  assert (forall k v,
            (k, v) ∈ resolved_vars environ key endpoint version deployment ->
            ~ unset_or_empty v) as Hset.
  { intros k v Hin. rewrite <- truthy_false.
    by rewrite (missing_vars_nil _ k v Hmissing Hin). }
  unfold resolved_vars, ChatAgent.required_vars in Hset.
  repeat split.
  - apply (Hset "AZURE_OPENAI_KEY"). rewrite !elem_of_cons. auto.
  - apply (Hset "AZURE_OPENAI_API_ENDPOINT"). rewrite !elem_of_cons. auto.
  - apply (Hset "AZURE_OPENAI_API_VERSION"). rewrite !elem_of_cons. auto.
  - apply (Hset "AZURE_AOAI_CHAT_MODEL_NAME_DEPLOYMENT_ID"). rewrite !elem_of_cons. auto.
Qed.

(** X16. An agent that was constructed always has a completion service at
    hand: its kernel holds exactly one service, made of the resolved settings
    under the given service id (["openai-chat"] when that is [None] or
    empty); the agent is not bound yet, and every request of its first [run]
    goes through that service. *)
Theorem init_service_available
    environ generated_id service_id name id description instructions skills
    planner_config planner_behavior tracing_enabled key endpoint version deployment agent :
  init environ generated_id service_id name id description instructions skills
    planner_config planner_behavior tracing_enabled key endpoint version deployment
  = inr agent ->
  let service := constructed_service environ service_id key endpoint version deployment in
  services (ChatAgent.kernel agent) = [service]
  /\ ChatAgent.chat_completion agent = None
  /\ bound_service agent = inr service
  /\ forall provider sp up ra rs,
      Forall (fun c => fst c = service)
        (ChatAgent.calls (ChatAgent.run provider sp up ra rs agent)).
Proof.
  intros H. apply init_inr in H as (_ & _ & registry & plugs & ->). cbv zeta.
  split; [done|]. split; [done|]. split; [done|].
  intros provider sp up ra rs.
  eapply Forall_impl; [apply run_requests|].
  intros [service request] (Hs & _). by injection Hs.
Qed.

(** X17. The history of an agent that was constructed holds exactly the
    truthy ones of description and instructions, the description first: a
    value that is [None] or empty leaves no turn, and loading skills at
    construction adds none. *)
Theorem init_history_seeds
    environ generated_id service_id name id description instructions skills
    planner_config planner_behavior tracing_enabled key endpoint version deployment agent :
  init environ generated_id service_id name id description instructions skills
    planner_config planner_behavior tracing_enabled key endpoint version deployment
  = inr agent ->
  messages (ChatAgent.chat_history agent) = seed_turns description instructions.
Proof.
  intros H. apply init_inr in H as (_ & _ & registry & plugs & ->).
  cbn [ChatAgent.chat_history]. unfold seed_turns, ChatAgent.seed.
  by destruct (truthy description), (truthy instructions).
Qed.

(** X18. The attribute [planner_behavior] does not follow
    [set_planner_behavior].  On an agent constructed without a planner
    configuration and behaviour it is [Auto()], and after a policy update,
    however the update ends, it is still [Auto()], while after an update
    that returns normally the planner configuration holds the new policy. *)
Theorem planner_behavior_attribute_is_stale
    environ generated_id service_id name id description instructions skills
    tracing_enabled key endpoint version deployment agent
    enable attempts filters behavior_type :
  init environ generated_id service_id name id description instructions skills
    None None tracing_enabled key endpoint version deployment
  = inr agent ->
  let o :=
    ChatAgent.set_planner_behavior assignment_fault behavior_fault enable attempts filters
      behavior_type agent in
  ChatAgent.planner_behavior agent = Some FunctionChoiceBehavior_Auto
  /\ ChatAgent.planner_behavior (ChatAgent.final o) = Some FunctionChoiceBehavior_Auto
  /\ (ChatAgent.result o = inr tt ->
      function_choice_behavior (ChatAgent.planner_config (ChatAgent.final o))
      = Some (mkBehavior enable attempts filters behavior_type)).
Proof.
  intros H. apply init_inr in H as (_ & _ & registry & plugs & ->). cbv zeta.
  rewrite set_planner_behavior_eq. cbv zeta.
  destruct (behavior_fault _ _ _ _) as [e|];
    [|destruct (assignment_fault _ _) as [e|]];
    cbn [ChatAgent.result ChatAgent.final];
    (split; [reflexivity|]); (split; [reflexivity|]); first [discriminate|reflexivity].
Qed.

(** X19. Construction succeeds when none of the four settings resolves to
    an unset or empty value, the service constructor does not fault and no
    skill is asked for ([None] or the empty list).  The agent then has no
    default arguments or settings, no plugin, no active skill and no bound
    service, and its id is the given one, or the generated one. *)
Theorem init_succeeds
    environ generated_id service_id name id description instructions skills
    planner_config planner_behavior tracing_enabled key endpoint version deployment :
  (forall k v, (k, v) ∈ resolved_vars environ key endpoint version deployment ->
               ~ unset_or_empty v) ->
  service_fault (constructed_service environ service_id key endpoint version deployment)
  = None ->
  skills = None \/ skills = Some [] ->
  exists agent,
    init environ generated_id service_id name id description instructions skills
      planner_config planner_behavior tracing_enabled key endpoint version deployment
    = inr agent
    /\ ChatAgent._default_kernel_arguments agent = ∅
    /\ ChatAgent._default_kernel_settings agent = None
    /\ plugins (ChatAgent.kernel agent) = ∅
    /\ Skills_activated (ChatAgent._skills_manager agent) = ∅
    /\ ChatAgent.chat_completion agent = None
    /\ ChatAgent.id agent = default generated_id id.
Proof.
  intros Hset Hfault Hskills.
  unfold ChatAgent.__init__.
  fold (resolved_vars environ key endpoint version deployment).
  assert (ChatAgent.missing_vars (resolved_vars environ key endpoint version deployment)
          = []) as ->.
  { destruct (ChatAgent.missing_vars _) as [|k rest] eqn:Hm; [done|].
    assert (k ∈ ChatAgent.missing_vars
                  (resolved_vars environ key endpoint version deployment)) as Hk
      by (rewrite Hm; left).
    apply elem_of_missing_vars in Hk as (v & Hin & Hv). by destruct (Hset k v Hin). }
  unfold ChatAgent._initialize_kernel, constructed_service in *. rewrite Hfault.
  destruct Hskills as [-> | ->]; eexists; (split; [reflexivity|]);
    cbn [ChatAgent._default_kernel_arguments ChatAgent._default_kernel_settings
         ChatAgent.kernel ChatAgent._skills_manager ChatAgent.chat_completion ChatAgent.id
         add_service Kernel_new plugins services app Skills_activated loaded];
    repeat split; apply dom_empty_L.
Qed.
End ConstructionFacts.

Lemma init_settings_resolved_witness :
  ChatAgent.AZURE_OPENAI_KEY Sample.agent = Some "secret"
  /\ ~ unset_or_empty (ChatAgent.AZURE_OPENAI_KEY Sample.agent).
Proof.
  pose proof (init_settings_resolved Sample.plugin_from_directory Sample.bundle_at
                Sample.service_fault Sample.cwd Sample.environ "49382716" None None None
                (Some "You are helpful") (Some "Be concise") None None None false
                None None None None Sample.agent ltac:(vm_compute; reflexivity))
    as ((Hkey & _) & (Hset & _)).
  split; [|exact Hset]. rewrite Hkey. reflexivity.
Defined.

Lemma init_service_available_witness :
  bound_service Sample.agent = inr Sample.service.
Proof.
  apply (init_service_available Sample.plugin_from_directory Sample.bundle_at
           Sample.service_fault Sample.cwd Sample.environ "49382716" None None None
           (Some "You are helpful") (Some "Be concise") None None None false
           None None None None Sample.agent ltac:(vm_compute; reflexivity)).
Defined.

Lemma init_history_seeds_witness :
  exists agent,
    ChatAgent.__init__ Sample.plugin_from_directory Sample.bundle_at Sample.service_fault
      Sample.cwd Sample.environ "49382716" None None None
      (Some "") None None None None false None None None None
    = inr agent
    /\ messages (ChatAgent.chat_history agent) = [].
Proof.
  eexists. split; [vm_compute; reflexivity|].
  apply (init_history_seeds Sample.plugin_from_directory Sample.bundle_at
           Sample.service_fault Sample.cwd Sample.environ "49382716" None None None
           (Some "") None None None None false None None None None).
  vm_compute. reflexivity.
Defined.

Lemma planner_behavior_attribute_is_stale_witness :
  let o :=
    ChatAgent.set_planner_behavior Sample.assignment_fault Sample.behavior_fault
      false 0 None (Some "none") Sample.agent in
  ChatAgent.planner_behavior (ChatAgent.final o) = Some FunctionChoiceBehavior_Auto
  /\ function_choice_behavior (ChatAgent.planner_config (ChatAgent.final o))
     = Some (mkBehavior false 0 None (Some "none")).
Proof.
  pose proof (planner_behavior_attribute_is_stale Sample.plugin_from_directory
                Sample.bundle_at Sample.service_fault Sample.cwd Sample.assignment_fault
                Sample.behavior_fault Sample.environ "49382716" None None None
                (Some "You are helpful") (Some "Be concise") None false
                None None None None Sample.agent false 0 None (Some "none")
                ltac:(vm_compute; reflexivity)) as (_ & Hstale & Hnew).
  split; [exact Hstale|]. apply Hnew. vm_compute. reflexivity.
Defined.

Lemma init_succeeds_witness :
  exists agent,
    ChatAgent.__init__ Sample.plugin_from_directory Sample.bundle_at Sample.service_fault
      Sample.cwd Sample.environ "49382716" None None (Some "agent-7")
      None None (Some []) None None false None None None None
    = inr agent
    /\ ChatAgent.id agent = "agent-7"
    /\ plugins (ChatAgent.kernel agent) = ∅.
Proof.
  destruct (init_succeeds Sample.plugin_from_directory Sample.bundle_at
              Sample.service_fault Sample.cwd Sample.environ "49382716" None None
              (Some "agent-7") None None (Some []) None None false None None None None)
    as (agent & Hinit & _ & _ & Hplugins & _ & _ & Hid).
  - intros k v Hin Hv. apply truthy_false in Hv. revert Hin Hv.
    unfold resolved_vars, ChatAgent.required_vars.
    rewrite !elem_of_cons, elem_of_nil.
    intros [Heq|[Heq|[Heq|[Heq|[]]]]]; injection Heq as -> ->; vm_compute; discriminate.
  - reflexivity.
  - by right.
  - exists agent. by rewrite Hinit, Hid, Hplugins.
Defined.

(** ** Paths, in more detail *)

Lemma rsplit_slash_free s : slash_free s = true -> rsplit_slash s = None.
Proof.
  induction s as [|c r IH]; [done|]. cbn [slash_free rsplit_slash].
  intros [Hc Hr]%andb_true_iff. rewrite (IH Hr).
  by destruct (Ascii.eqb c slash).
Qed.

Lemma rsplit_slash_app a t :
  rsplit_slash t = None ->
  rsplit_slash (a +:+ String slash t) = Some (a +:+ String slash EmptyString, t).
Proof.
  intros Ht. induction a as [|c a IH].
  - change (rsplit_slash (String slash t) = Some (String slash EmptyString, t)).
    cbn [rsplit_slash]. by rewrite Ht.
  - change (rsplit_slash (String c (a +:+ String slash t))
            = Some (String c (a +:+ String slash EmptyString), t)).
    cbn [rsplit_slash]. by rewrite IH.
Qed.

Lemma rstrip_slash_app_slash a :
  rstrip_slash (a +:+ String slash EmptyString) = rstrip_slash a.
Proof.
  induction a as [|c a IH]; [reflexivity|].
  change (rstrip_slash (String c (a +:+ String slash EmptyString))
          = rstrip_slash (String c a)).
  cbn [rstrip_slash]. by rewrite IH.
Qed.

Lemma rstrip_slash_id a : ends_in_slash a = false -> rstrip_slash a = a.
Proof.
  induction a as [|c a IH]; [done|]. intros H.
  cbn [rstrip_slash]. destruct a as [|d a].
  - cbn in *. by rewrite H.
  - rewrite IH; [done|]. exact H.
Qed.

Lemma rsplit_slash_ends s h :
  rsplit_slash s = Some (h, EmptyString) -> ends_in_slash s = true.
Proof.
  revert h. induction s as [|c r IH]; [done|]. intros h. cbn [rsplit_slash].
  destruct (rsplit_slash r) as [[h' t']|] eqn:Hr.
  - intros [= <- ->]. destruct r as [|d r]; [done|]. by apply (IH h').
  - destruct (Ascii.eqb c slash) eqn:Hc; [|done]. intros [= <- ->]. exact Hc.
Qed.

(** The path of a bundle under a root, by the convention [root/name]. *)
Lemma path_join_bundle_path root name :
  slash_free name = true -> name <> "" -> root <> "" -> ends_in_slash root = false ->
  path_join root name = root +:+ String slash name.
Proof.
  intros Hfree Hname Hroot Hend. unfold path_join.
  destruct name as [|c name]; [done|].
  cbn [slash_free] in Hfree. apply andb_true_iff in Hfree as [Hc _].
  apply negb_true_iff in Hc. rewrite Hc.
  destruct (String.eqb_spec root ""); [done|].
  destruct (rsplit_slash root) as [[h [|d t]]|] eqn:Hsplit; [|done|done].
  apply rsplit_slash_ends in Hsplit. congruence.
Qed.

(** X20. Path round trip.  For a bundle location [root/name], where [name]
    is not empty and has no slash and [root] is not empty and does not end in
    a slash, the directory and base name that [load_skills] splits the
    location into are [root] and [name] again. *)
Theorem bundle_path_splits_back root name :
  slash_free name = true -> name <> "" -> root <> "" -> ends_in_slash root = false ->
  dirname (path_join root name) = root /\ basename (path_join root name) = name.
Proof.
  intros Hfree Hname Hroot Hend.
  rewrite (path_join_bundle_path root name Hfree Hname Hroot Hend).
  unfold dirname, basename.
  rewrite (rsplit_slash_app root name (rsplit_slash_free name Hfree)).
  rewrite rstrip_slash_app_slash, (rstrip_slash_id root Hend).
  by destruct root.
Qed.

Lemma bundle_path_splits_back_witness :
  dirname (path_join "/app/src/agenticai/plugins/plugins_store" "retrieval")
  = "/app/src/agenticai/plugins/plugins_store"
  /\ basename (path_join "/app/src/agenticai/plugins/plugins_store" "retrieval")
     = "retrieval".
Proof.
  apply (bundle_path_splits_back "/app/src/agenticai/plugins/plugins_store" "retrieval");
    [reflexivity|discriminate|discriminate|reflexivity].
Defined.

(** ** Skills and plugins, in more detail *)

Section PluginEffects.
Variable plugin_from_directory : string -> string -> exn + KernelPlugin.
Variable bundle_at : string -> option (list string).

Abbreviation load_skills'' := (ChatAgent.load_skills plugin_from_directory bundle_at).
Abbreviation load_skills_body'' := (ChatAgent.load_skills_body plugin_from_directory).
Abbreviation add_plugin' := (ChatAgent.add_plugin plugin_from_directory).

(** [load_skills], in its two phases. *)
Lemma load_skills_eq names self :
  load_skills'' names self
  = match Skills_load_skills bundle_at names (ChatAgent._skills_manager self) with
    | (inl e, registry) =>
        ChatAgent.mkOutcome (inl e) (ChatAgent.with_skills_manager registry self) []
    | (inr _, registry) =>
        ChatAgent.for_each names load_skills_body''
          (ChatAgent.with_skills_manager registry self)
    end.
Proof.
  unfold ChatAgent.load_skills, ChatAgent.bind, ChatAgent.skills_manager_load_skills.
  destruct (Skills_load_skills bundle_at names (ChatAgent._skills_manager self))
    as [[e|[]] registry]; [reflexivity|].
  by destruct (ChatAgent.for_each names _ _) as [r s sent].
Qed.

(** X21. The registry is asked first, for every name, and the kernel only
    then: when the registry rejects the list, [load_skills] raises the
    registry's error and no plugin has been added to the kernel, not even for
    the names the registry accepted before the one it rejected. *)
Theorem load_skills_registry_failure names self e registry :
  Skills_load_skills bundle_at names (ChatAgent._skills_manager self) = (inl e, registry) ->
  let o := load_skills'' names self in
  ChatAgent.result o = inl e
  /\ ChatAgent.kernel (ChatAgent.final o) = ChatAgent.kernel self
  /\ ChatAgent._skills_manager (ChatAgent.final o) = registry.
Proof.
  intros H. cbv zeta. rewrite load_skills_eq, H. by destruct self.
Qed.

(** What a run of the loop that ends normally has done. *)
Lemma load_skills_loop_success names a :
  ChatAgent.result (ChatAgent.for_each names load_skills_body'' a) = inr tt ->
  let a' := ChatAgent.final (ChatAgent.for_each names load_skills_body'' a) in
  ChatAgent._skills_manager a' = ChatAgent._skills_manager a
  /\ (forall k, is_Some (plugins (ChatAgent.kernel a) !! k) ->
                is_Some (plugins (ChatAgent.kernel a') !! k))
  /\ forall name, name ∈ names ->
       exists skill,
         loaded (ChatAgent._skills_manager a) !! name = Some skill
         /\ is_Some (plugins (ChatAgent.kernel a') !! basename (directory skill)).
Proof.
  revert a. induction names as [|x names IH]; intros a.
  - intros _. cbn. split; [done|]. split; [done|]. intros name Hin.
    by apply elem_of_nil in Hin.
  - cbn [ChatAgent.for_each]. unfold ChatAgent.bind.
    rewrite load_skills_body_eq. unfold Skills_get_skill.
    destruct (loaded (ChatAgent._skills_manager a) !! x) as [skill|] eqn:Hx; [|done].
    cbv zeta. destruct (String.eqb (basename (directory skill)) ""); [done|].
    destruct (plugin_from_directory _ _) as [e|p]; [done|].
    set (a1 := ChatAgent.with_kernel _ a).
    specialize (IH a1).
    destruct (ChatAgent.for_each names load_skills_body'' a1) as [r s sent].
    cbn [ChatAgent.result ChatAgent.final] in *.
    intros ->. destruct (IH eq_refl) as (Hreg & Hkeep & Hall).
    assert (ChatAgent._skills_manager a1 = ChatAgent._skills_manager a) as Ha1
      by (by destruct a).
    assert (plugins (ChatAgent.kernel a1)
            = <[basename (directory skill) := p]> (plugins (ChatAgent.kernel a))) as Hp1
      by (by destruct a).
    split; [congruence|]. split.
    + intros k Hk. apply Hkeep. rewrite Hp1.
      destruct (decide (basename (directory skill) = k)) as [->|Hne].
      * by rewrite lookup_insert_eq.
      * by rewrite lookup_insert_ne.
    + intros name [->|Hin]%elem_of_cons.
      * exists skill. split; [done|]. apply Hkeep. rewrite Hp1.
        by rewrite lookup_insert_eq.
      * destruct (Hall name Hin) as (sk & Hsk & Hplug). exists sk.
        split; [congruence|done].
Qed.

(** X22. When [load_skills] returns normally, every skill of the list is
    loaded in the registry and the kernel holds a plugin under the base name
    of that skill's directory. *)
Theorem load_skills_registers_every_skill names self :
  let o := load_skills'' names self in
  ChatAgent.result o = inr tt ->
  forall name, name ∈ names ->
    exists skill,
      loaded (ChatAgent._skills_manager (ChatAgent.final o)) !! name = Some skill
      /\ is_Some (plugins (ChatAgent.kernel (ChatAgent.final o))
                    !! basename (directory skill)).
Proof.
  cbv zeta. rewrite load_skills_eq.
  destruct (Skills_load_skills bundle_at names (ChatAgent._skills_manager self))
    as [[e|[]] registry]; [done|].
  pose proof (load_skills_loop_success names
                (ChatAgent.with_skills_manager registry self)) as H.
  destruct (ChatAgent.for_each names load_skills_body'' _) as [r s sent].
  cbn [ChatAgent.result ChatAgent.final] in *.
  intros ->. destruct (H eq_refl) as (Hreg & _ & Hall).
  intros name Hin. destruct (Hall name Hin) as (skill & Hskill & Hplug).
  exists skill. split; [|exact Hplug]. rewrite Hreg. exact Hskill.
Qed.

(** X23. [add_plugin] either registers the plugin read from the directory
    under the given name, leaving every other plugin and the rest of the
    agent as they were, or raises and leaves the agent as it was; an empty
    plugin name is refused. *)
Theorem add_plugin_registers_or_leaves parent_directory plugin_name self :
  let o := add_plugin' parent_directory plugin_name self in
  match ChatAgent.result o with
  | inr _ =>
      plugin_name <> ""
      /\ (exists plugin,
            plugin_from_directory parent_directory plugin_name = inr plugin
            /\ plugins (ChatAgent.kernel (ChatAgent.final o)) !! plugin_name = Some plugin)
      /\ (forall other, other <> plugin_name ->
            plugins (ChatAgent.kernel (ChatAgent.final o)) !! other
            = plugins (ChatAgent.kernel self) !! other)
      /\ services (ChatAgent.kernel (ChatAgent.final o)) = services (ChatAgent.kernel self)
      /\ ChatAgent.with_kernel (ChatAgent.kernel self) (ChatAgent.final o) = self
  | inl _ => ChatAgent.final o = self
  end.
Proof.
  cbv zeta.
  unfold ChatAgent.add_plugin, ChatAgent.try_except, ChatAgent.kernel_add_plugin,
    ChatAgent.raise.
  destruct (String.eqb_spec plugin_name "") as [->|Hne]; [reflexivity|].
  unfold ChatAgent.bind, ChatAgent.lift, ChatAgent.modify.
  destruct (plugin_from_directory parent_directory plugin_name) as [e|plugin];
    [reflexivity|].
  cbn [ChatAgent.result ChatAgent.final].
  destruct self as [? ? ? ? ? ? ? ? ? ? ? [svcs plugs] ? ? ? ? ? ?].
  cbn [ChatAgent.with_kernel ChatAgent.kernel services plugins].
  split; [done|]. split; [exists plugin; by rewrite lookup_insert_eq|].
  split; [intros other Hother; by rewrite lookup_insert_ne|]. done.
Qed.
End PluginEffects.

Lemma load_skills_registry_failure_witness :
  let o :=
    ChatAgent.load_skills Sample.plugin_from_directory Sample.bundle_at
      ["retrieval"; "rewriting"] Sample.agent in
  ChatAgent.result o = inl (SkillNotFoundError "rewriting")
  /\ plugins (ChatAgent.kernel (ChatAgent.final o)) = ∅
  /\ Skills_activated (ChatAgent._skills_manager (ChatAgent.final o)) = {[ "retrieval" ]}.
Proof.
  destruct (load_skills_registry_failure Sample.plugin_from_directory Sample.bundle_at
              ["retrieval"; "rewriting"] Sample.agent (SkillNotFoundError "rewriting")
              Scenario.registry_after_failure ltac:(vm_compute; reflexivity))
    as (Hres & Hkernel & Hreg).
  split; [exact Hres|]. rewrite Hkernel, Hreg. split; vm_compute; reflexivity.
Defined.

Lemma load_skills_registers_every_skill_witness :
  exists skill,
    loaded (ChatAgent._skills_manager (ChatAgent.final
      (ChatAgent.load_skills Sample.plugin_from_directory Sample.bundle_at ["retrieval"]
         Sample.agent))) !! "retrieval" = Some skill
    /\ is_Some (plugins (ChatAgent.kernel (ChatAgent.final
         (ChatAgent.load_skills Sample.plugin_from_directory Sample.bundle_at ["retrieval"]
            Sample.agent))) !! basename (directory skill)).
Proof.
  apply (load_skills_registers_every_skill Sample.plugin_from_directory Sample.bundle_at
           ["retrieval"] Sample.agent ltac:(vm_compute; reflexivity) "retrieval").
  left.
Defined.

(** ** The plugins of the plugin store *)

Section PluginStore.
Variable strip : string -> string.
Variable lower : string -> string.
Variable AzureOpenAIManager :
  option string -> option string -> option string -> Plugin.exc + Plugin.Client.
Variable default_prompt_manager : Plugin.exc + Plugin.PromptManager.

#[local] Abbreviation classify_query' := (Plugin.classify_query strip lower).
#[local] Abbreviation generate_expanded_query' := (Plugin.generate_expanded_query strip).

#[local] Ltac plugin_unfold :=
  unfold Plugin.classify_query, Plugin.generate_expanded_query, Plugin.evaluate_policies,
    Plugin.try_return, Plugin.the_prompt_manager, Plugin.ask, Plugin.lift, Plugin.ret,
    Plugin.bind.

(** The classifier's request, once both prompts are rendered. *)
Lemma classify_query_eq self query_text :
  classify_query' self query_text
  = match Plugin.prompt_manager self with
    | None => (Plugin.semantic_fallback, [])
    | Some pm =>
        match Plugin.get_prompt pm "query_classifier_system_prompt.jinja" [] with
        | inl _ => (Plugin.semantic_fallback, [])
        | inr system_prompt =>
            match Plugin.create_prompt_query_classifier_user pm query_text with
            | inl _ => (Plugin.semantic_fallback, [])
            | inr user_prompt =>
                let request :=
                  Plugin.mkChatRequest user_prompt system_prompt [] "json_object" 20
                    (0 # 1) in
                (match
                   Plugin.generate_chat_response (Plugin.azure_openai_client self) request
                 with
                 | inr response =>
                     match Plugin.getitem response "response" with
                     | inr (JStr reply) =>
                         if String.eqb (lower (strip reply)) "keyword"
                         then JDict [("classification", JStr "keyword")]
                         else Plugin.semantic_fallback
                     | _ => Plugin.semantic_fallback
                     end
                 | inl _ => Plugin.semantic_fallback
                 end, [request])
            end
        end
    end.
Proof.
  plugin_unfold. unfold Plugin.str_strip, Plugin.semantic_fallback.
  destruct (Plugin.prompt_manager self) as [pm|]; [|reflexivity].
  destruct (Plugin.get_prompt pm _ _) as [|system_prompt]; [reflexivity|].
  destruct (Plugin.create_prompt_query_classifier_user pm _) as [|user_prompt];
    [reflexivity|].
  cbv zeta.
  destruct (Plugin.generate_chat_response _ _) as [|response]; [reflexivity|].
  destruct (Plugin.getitem response _) as [|[| | |reply| |]]; try reflexivity.
  cbn [app].
  destruct (String.eqb_spec (lower (strip reply)) "keyword") as [->|_]; [reflexivity|].
  cbn [orb].
  by destruct (String.eqb_spec (lower (strip reply)) "semantic") as [->|_].
Qed.

(** X24 ([classify_query]): what the method returns is a dictionary with
    the single key ["classification"] whose value is ["keyword"] or
    ["semantic"], whether the prompt manager and the client answered or
    raised an [Exception], and at most one request has been sent to the
    client.  (What is no [Exception], a cancellation of the awaited call for
    one, is not caught by the handler and is not part of [Plugin.exc].) *)
Theorem classify_query_label self query_text :
  exists label,
    fst (Plugin.classify_query strip lower self query_text)
    = JDict [("classification", JStr label)]
    /\ (label = "keyword" \/ label = "semantic")
    /\ (length (snd (Plugin.classify_query strip lower self query_text)) <= 1)%nat.
Proof.
  rewrite classify_query_eq. unfold Plugin.semantic_fallback.
  assert (forall sent : list Plugin.ChatRequest, (length sent <= 1)%nat ->
            exists label,
              fst (JDict [("classification", JStr "semantic")], sent)
              = JDict [("classification", JStr label)]
              /\ (label = "keyword" \/ label = "semantic")
              /\ (length (snd (JDict [("classification", JStr "semantic")], sent)) <= 1)%nat)
    as Hsemantic.
  { intros sent Hsent. exists "semantic". cbn [fst snd]. auto. }
  destruct (Plugin.prompt_manager self) as [pm|]; [|by apply Hsemantic; cbn; lia].
  destruct (Plugin.get_prompt pm _ _) as [|system_prompt];
    [by apply Hsemantic; cbn; lia|].
  destruct (Plugin.create_prompt_query_classifier_user pm _) as [|user_prompt];
    [by apply Hsemantic; cbn; lia|].
  cbv zeta.
  destruct (Plugin.generate_chat_response _ _) as [|response];
    [by apply Hsemantic; cbn; lia|].
  destruct (Plugin.getitem response _) as [|[| | |reply| |]];
    try (by apply Hsemantic; cbn; lia).
  destruct (String.eqb _ _); [|by apply Hsemantic; cbn; lia].
  exists "keyword". cbn [fst snd length]. auto.
Qed.

(** X25 ([classify_query]): the label ["keyword"] is returned only when
    both prompts were rendered, the client answered the one request built
    from them (no history, format [json_object], 20 tokens, temperature 0)
    with an object whose ["response"] is a string, and that string, stripped
    and lower-cased, is ["keyword"]. *)
Theorem classify_query_keyword self query_text :
  fst (classify_query' self query_text) = JDict [("classification", JStr "keyword")] ->
  exists pm system_prompt user_prompt response reply,
    Plugin.prompt_manager self = Some pm
    /\ Plugin.get_prompt pm "query_classifier_system_prompt.jinja" [] = inr system_prompt
    /\ Plugin.get_prompt pm "query_classificator_user_prompt.jinja"
         [("query", JStr query_text)] = inr user_prompt
    /\ snd (classify_query' self query_text)
       = [Plugin.mkChatRequest user_prompt system_prompt [] "json_object" 20 (0 # 1)]
    /\ Plugin.generate_chat_response (Plugin.azure_openai_client self)
         (Plugin.mkChatRequest user_prompt system_prompt [] "json_object" 20 (0 # 1))
       = inr response
    /\ Plugin.getitem response "response" = inr (JStr reply)
    /\ lower (strip reply) = "keyword".
Proof.
  rewrite classify_query_eq. unfold Plugin.semantic_fallback.
  unfold Plugin.create_prompt_query_classifier_user.
  destruct (Plugin.prompt_manager self) as [pm|]; [|discriminate].
  destruct (Plugin.get_prompt pm "query_classifier_system_prompt.jinja" [])
    as [|system_prompt] eqn:Hsystem; [discriminate|].
  destruct (Plugin.get_prompt pm "query_classificator_user_prompt.jinja" _)
    as [|user_prompt] eqn:Huser; [discriminate|].
  cbv zeta. cbn [fst snd].
  destruct (Plugin.generate_chat_response _ _) as [|response] eqn:Hcall; [discriminate|].
  destruct (Plugin.getitem response _) as [|[| | |reply| |]] eqn:Hget; try discriminate.
  destruct (String.eqb_spec (lower (strip reply)) "keyword") as [Hkw|_]; [|discriminate].
  intros _. by exists pm, system_prompt, user_prompt, response, reply.
Qed.

(** X26 ([AIQueryClassificationPlugin.__init__], [classify_query]): a
    classifier constructed without a prompt manager, which is the default,
    answers ["semantic"] to every query and never consults the client. *)
Theorem classify_query_without_prompt_manager environ self :
  Plugin.AIQueryClassificationPlugin AzureOpenAIManager environ None = inr self ->
  forall query_text,
    classify_query' self query_text = (Plugin.semantic_fallback, []).
Proof.
  unfold Plugin.AIQueryClassificationPlugin.
  destruct (Plugin.connect _ _) as [|client]; [discriminate|].
  intros [= <-] query_text. by rewrite classify_query_eq.
Qed.

(** The formulation method, by cases. *)
Lemma generate_expanded_query_eq self diagnosis medication_or_procedure code dosage
    duration rationale :
  generate_expanded_query' self diagnosis medication_or_procedure code dosage duration
    rationale
  = match Plugin.prompt_manager self with
    | None => (Plugin.query_error_fallback, [])
    | Some pm =>
        match Plugin.get_prompt pm "formulator_system_prompt.jinja" [] with
        | inl _ => (Plugin.query_error_fallback, [])
        | inr system_prompt =>
            match
              Plugin.create_prompt_formulator_user pm diagnosis medication_or_procedure
                code dosage duration rationale
            with
            | inl _ => (Plugin.query_error_fallback, [])
            | inr user_prompt =>
                if String.eqb (strip diagnosis) ""
                   || String.eqb (strip medication_or_procedure) ""
                then (Plugin.need_more_information, [])
                else
                  let request :=
                    Plugin.mkChatRequest user_prompt system_prompt [] "json_object" 1000
                      (7 # 10) in
                  (match
                     Plugin.generate_chat_response (Plugin.azure_openai_client self)
                       request
                   with
                   | inr response =>
                       match Plugin.getitem response "response" with
                       | inr llm_reply => llm_reply
                       | inl _ => Plugin.query_error_fallback
                       end
                   | inl _ => Plugin.query_error_fallback
                   end, [request])
            end
        end
    end.
Proof.
  plugin_unfold.
  destruct (Plugin.prompt_manager self) as [pm|]; [|reflexivity].
  destruct (Plugin.get_prompt pm _ _) as [|system_prompt]; [reflexivity|].
  destruct (Plugin.create_prompt_formulator_user pm _ _ _ _ _ _) as [|user_prompt];
    [reflexivity|].
  destruct (_ || _); [reflexivity|]. cbv zeta.
  destruct (Plugin.generate_chat_response _ _) as [|response]; [reflexivity|].
  by destruct (Plugin.getitem response _).
Qed.

(** X27 ([generate_expanded_query]): when the diagnosis or the medication
    is blank once stripped, the client is never consulted, and the answer is
    the request for more information exactly when the plugin has a prompt
    manager that renders both prompts: the prompts are rendered before the
    blank fields are looked at, so a failure to render turns the answer into
    the error fallback. *)
Theorem generate_expanded_query_blank self diagnosis medication_or_procedure code dosage
    duration rationale :
  strip diagnosis = "" \/ strip medication_or_procedure = "" ->
  let out :=
    generate_expanded_query' self diagnosis medication_or_procedure code dosage duration
      rationale in
  snd out = []
  /\ (fst out = Plugin.need_more_information \/ fst out = Plugin.query_error_fallback)
  /\ (fst out = Plugin.need_more_information <->
      exists pm system_prompt user_prompt,
        Plugin.prompt_manager self = Some pm
        /\ Plugin.get_prompt pm "formulator_system_prompt.jinja" [] = inr system_prompt
        /\ Plugin.create_prompt_formulator_user pm diagnosis medication_or_procedure code
             dosage duration rationale = inr user_prompt).
Proof.
  intros Hblank. cbv zeta. rewrite generate_expanded_query_eq.
  assert (String.eqb (strip diagnosis) "" || String.eqb (strip medication_or_procedure) ""
          = true) as Hb.
  { destruct Hblank as [-> | ->]; [reflexivity|]. by rewrite orb_true_r. }
  destruct (Plugin.prompt_manager self) as [pm|] eqn:Hpm; cbn [fst snd].
  2:{ split; [done|]. split; [by right|]. split; [discriminate|].
      intros (? & ? & ? & ? & _). discriminate. }
  destruct (Plugin.get_prompt pm _ _) as [|system_prompt] eqn:Hsystem; cbn [fst snd].
  { split; [done|]. split; [by right|]. split; [discriminate|].
    intros (pm' & ? & ? & [= <-] & Hsystem' & _). congruence. }
  destruct (Plugin.create_prompt_formulator_user pm _ _ _ _ _ _)
    as [|user_prompt] eqn:Huser; cbn [fst snd].
  { split; [done|]. split; [by right|]. split; [discriminate|].
    intros (pm' & ? & ? & [= <-] & _ & Huser'). congruence. }
  rewrite Hb. cbn [fst snd]. split; [done|]. split; [by left|].
  split; [|done]. intros _. by exists pm, system_prompt, user_prompt.
Qed.

(** X28 ([AIQueryFormulationPlugin.__init__], [generate_expanded_query]):
    the constructor stores a prompt manager only when none is passed, so a
    plugin constructed with one has no prompt manager at all: every call
    returns the error fallback and the client is never consulted. *)
Theorem formulation_drops_supplied_prompt_manager environ pm self :
  Plugin.AIQueryFormulationPlugin AzureOpenAIManager default_prompt_manager environ
    (Some pm) = inr self ->
  forall diagnosis medication_or_procedure code dosage duration rationale,
    generate_expanded_query' self diagnosis medication_or_procedure code dosage duration
      rationale
    = (Plugin.query_error_fallback, []).
Proof.
  unfold Plugin.AIQueryFormulationPlugin.
  destruct (Plugin.connect _ _) as [|client]; [discriminate|].
  intros [= <-] *. by rewrite generate_expanded_query_eq.
Qed.

(** X29 ([AIPolicyEvaluationPlugin.__init__], [evaluate_policies]): the
    same holds of the evaluator: constructed with a prompt manager, it
    answers every evaluation with the fallback (no policy, a retry asked
    for), without consulting the client. *)
Theorem evaluation_drops_supplied_prompt_manager environ pm self :
  Plugin.AIPolicyEvaluationPlugin AzureOpenAIManager default_prompt_manager environ
    (Some pm) = inr self ->
  forall query search_results,
    Plugin.evaluate_policies self query search_results = (Plugin.evaluation_fallback, []).
Proof.
  unfold Plugin.AIPolicyEvaluationPlugin, Plugin.AIQueryFormulationPlugin.
  destruct (Plugin.connect _ _) as [|client]; [discriminate|].
  intros [= <-] *. by plugin_unfold.
Qed.
End PluginStore.

Lemma classify_query_keyword_witness :
  exists pm system_prompt user_prompt response reply,
    Plugin.prompt_manager Scenario.classifier = Some pm
    /\ Plugin.get_prompt pm "query_classifier_system_prompt.jinja" [] = inr system_prompt
    /\ Plugin.get_prompt pm "query_classificator_user_prompt.jinja"
         [("query", JStr "humira policy")] = inr user_prompt
    /\ snd (Plugin.classify_query Scenario.strip Scenario.lower Scenario.classifier
              "humira policy")
       = [Plugin.mkChatRequest user_prompt system_prompt [] "json_object" 20 (0 # 1)]
    /\ Plugin.generate_chat_response (Plugin.azure_openai_client Scenario.classifier)
         (Plugin.mkChatRequest user_prompt system_prompt [] "json_object" 20 (0 # 1))
       = inr response
    /\ Plugin.getitem response "response" = inr (JStr reply)
    /\ Scenario.lower (Scenario.strip reply) = "keyword".
Proof.
  apply (classify_query_keyword Scenario.strip Scenario.lower Scenario.classifier
           "humira policy").
  vm_compute. reflexivity.
Defined.

Lemma classify_query_without_prompt_manager_witness :
  Plugin.classify_query Scenario.strip Scenario.lower Scenario.classifier_by_default
    "humira policy"
  = (Plugin.semantic_fallback, []).
Proof.
  apply (classify_query_without_prompt_manager Scenario.strip Scenario.lower
           Scenario.AzureOpenAIManager Scenario.plugin_environ
           Scenario.classifier_by_default).
  vm_compute. reflexivity.
Defined.

Lemma generate_expanded_query_blank_witness :
  let out :=
    Plugin.generate_expanded_query Scenario.strip Scenario.classifier "  " "Humira"
      "L40.0" "40mg" "6 months" "plaque psoriasis" in
  snd out = [] /\ fst out = Plugin.need_more_information.
Proof.
  destruct (generate_expanded_query_blank Scenario.strip Scenario.classifier "  "
              "Humira" "L40.0" "40mg" "6 months" "plaque psoriasis"
              ltac:(left; vm_compute; reflexivity)) as (Hsent & _ & Hiff).
  split; [exact Hsent|]. apply Hiff.
  exists Scenario.echo_prompts, "formulator_system_prompt.jinja",
    "formulator_user_prompt.jinja".
  repeat split.
Defined.

Lemma formulation_drops_supplied_prompt_manager_witness :
  Plugin.generate_expanded_query Scenario.strip Scenario.formulator "psoriasis" "Humira"
    "L40.0" "40mg" "6 months" "plaque psoriasis"
  = (Plugin.query_error_fallback, []).
Proof.
  apply (formulation_drops_supplied_prompt_manager Scenario.strip
           Scenario.AzureOpenAIManager Scenario.default_prompt_manager
           Scenario.plugin_environ Scenario.echo_prompts Scenario.formulator).
  vm_compute. reflexivity.
Defined.

Lemma evaluation_drops_supplied_prompt_manager_witness :
  Plugin.evaluate_policies Scenario.formulator "humira policy" []
  = (Plugin.evaluation_fallback, []).
Proof.
  apply (evaluation_drops_supplied_prompt_manager Scenario.AzureOpenAIManager
           Scenario.default_prompt_manager Scenario.plugin_environ Scenario.echo_prompts
           Scenario.formulator ltac:(vm_compute; reflexivity) "humira policy" []).
Defined.

(** ** The Azure AI Foundry helper *)

(** The loop raises at the first message it meets that ends in text, and
    ends normally, with the text it started with, when there is none. *)
Lemma scan_spec messages default :
  (Exists AzureAIAgents.ends_in_text messages
   /\ AzureAIAgents.scan messages default = inl (Plugin.AttributeError "ASSISTANT"))
  \/ (Forall (fun msg => ~ AzureAIAgents.ends_in_text msg) messages
      /\ AzureAIAgents.scan messages default = inr default).
Proof.
  induction messages as [|msg rest IH]; [right; by split|].
  cbn [AzureAIAgents.scan].
  destruct (last (AzureAIAgents.content msg)) as [[content_text|]|] eqn:Hlast.
  - left. split; [|reflexivity]. left. by exists content_text.
  - destruct IH as [[Hex Hscan]|[Hall Hscan]].
    + left. split; [by right|exact Hscan].
    + right. split; [|exact Hscan]. constructor; [|exact Hall].
      intros [text Htext]. congruence.
  - destruct IH as [[Hex Hscan]|[Hall Hscan]].
    + left. split; [by right|exact Hscan].
    + right. split; [|exact Hscan]. constructor; [|exact Hall].
      intros [text Htext]. congruence.
Qed.

(** X30 ([run_agent_conversation]): the method never returns the text of
    a message.  For an agent with an id, when the four calls on the project
    succeed, whatever the status of the run, the method makes exactly these
    calls, in this order, on the thread just created; then, as soon as a
    listed message ends in a text item, the comparison of its role with
    [MessageRole.ASSISTANT], a member the enumeration does not have, raises
    [AttributeError], which is logged and raised again; the method returns
    only when no listed message ends in text, and what it returns is
    ["No response from agent."]. *)
Theorem conversation_raises_on_text {State : Type}
    (project : AzureAIAgents.Agents State) agent query s thread_id s1 message_id s2
    status s3 data s4 :
  json_truthy (dict_get agent "id") = true ->
  AzureAIAgents.create_thread project s = (inr thread_id, s1) ->
  AzureAIAgents.create_message project thread_id AzureAIAgents.USER query s1
  = (inr message_id, s2) ->
  AzureAIAgents.create_and_process_run project thread_id (dict_get agent "id") s2
  = (inr status, s3) ->
  AzureAIAgents.list_messages project thread_id s3 = (inr data, s4) ->
  exists outcome,
    AzureAIAgents.run_agent_conversation project agent query s
    = (outcome, s4,
       [AzureAIAgents.CreateThread;
        AzureAIAgents.CreateMessage thread_id AzureAIAgents.USER query;
        AzureAIAgents.CreateAndProcessRun thread_id (dict_get agent "id");
        AzureAIAgents.ListMessages thread_id])
    /\ (Exists AzureAIAgents.ends_in_text data ->
        exists msg, outcome = inl (Plugin.AttributeError msg))
    /\ (Forall (fun msg => ~ AzureAIAgents.ends_in_text msg) data ->
        outcome = inr "No response from agent.")
    /\ (forall text, outcome = inr text -> text = "No response from agent.").
Proof.
  intros Hid Hthread Hmessage Hrun Hlist.
  exists (AzureAIAgents.final_text data). split.
  { unfold AzureAIAgents.run_agent_conversation.
    by rewrite Hid, Hthread, Hmessage, Hrun, Hlist. }
  unfold AzureAIAgents.final_text.
  destruct (scan_spec (rev data) "No response from agent.") as [[Hex ->]|[Hall ->]].
  - split; [intros _; by eexists|]. split; [|discriminate].
    intros Hnone. apply Forall_rev in Hnone.
    apply Exists_exists in Hex as (msg & Hin & Htext).
    rewrite Forall_forall in Hnone. by destruct (Hnone msg Hin).
  - split; [|split; [done|by intros text [= <-]]].
    intros Hex. apply Exists_rev in Hex.
    apply Exists_exists in Hex as (msg & Hin & Htext).
    rewrite Forall_forall in Hall. by destruct (Hall msg Hin).
Qed.

Lemma conversation_raises_on_text_witness :
  exists outcome,
    AzureAIAgents.run_agent_conversation Scenario.project Scenario.foundry_agent
      "What is 2+2?" 0%nat
    = (outcome, 4%nat,
       [AzureAIAgents.CreateThread;
        AzureAIAgents.CreateMessage "thread-1" AzureAIAgents.USER "What is 2+2?";
        AzureAIAgents.CreateAndProcessRun "thread-1"
          (dict_get Scenario.foundry_agent "id");
        AzureAIAgents.ListMessages "thread-1"])
    /\ (Exists AzureAIAgents.ends_in_text Scenario.conversation ->
        exists msg, outcome = inl (Plugin.AttributeError msg))
    /\ (Forall (fun msg => ~ AzureAIAgents.ends_in_text msg) Scenario.conversation ->
        outcome = inr "No response from agent.")
    /\ (forall text, outcome = inr text -> text = "No response from agent.").
Proof.
  apply (conversation_raises_on_text Scenario.project Scenario.foundry_agent
           "What is 2+2?" 0%nat "thread-1" 1%nat "msg-1" 2%nat "failed" 3%nat
           Scenario.conversation 4%nat);
    vm_compute; reflexivity.
Defined.
